(** * The agent pipeline of [app/api/research/route.ts]

    A shallow embedding of the supervisor / researcher / synthesizer
    pipeline: the [POST] handler, its Wikipedia tools and the stream of
    [AgentEvent]s it writes.

    - JavaScript strings are sequences of UTF-16 code units ([jsstring]),
      so that [length], [slice] and the regular expressions of the source
      count what they count in the source.
    - The language-model client and [fetch] are the outside world: a type
      class [World] gives, for a request and a world state, an outcome and
      the next world state.  Either call may reject.
    - The handler is written in a small monad [M] that threads the world,
      records every observable action (events enqueued, model calls, HTTP
      requests, the closing of the stream) in order, and propagates thrown
      values.  The [while (continueLoop)] of the researcher has no bound in
      the source; the model gives it fuel and a third result [OutOfFuel]
      that means "still looping".
    - What [JSON.parse] and [res.json()] give is untyped: a [json] value
      of any shape.  A property read on [null], a method that the value
      does not have, and the conversion to a string of an object that has
      a member [toString] throw the [TypeError] they throw in the source.
    - The page that consumes the stream, [handleSubmit] of [app/page.tsx],
      is a function from the state of the page and the outcome of its
      request to the page it leaves: the chunks are cut into lines, the
      payloads parsed, and the parsed values dispatched on their [type].
      The page is the state of [Home], or nothing once a function given
      to a setter has thrown while React rendered; what React draws from
      the state is not modelled. *)

From Stdlib Require Import List NArith ZArith Arith Bool String Ascii Lia.
From Stdlib Require DecimalString.
Import ListNotations.

Set Implicit Arguments.

(* ------------------------------------------------------------------ *)
(** ** JavaScript strings *)

Definition code_unit := N.
Definition jsstring := list code_unit.

(** A literal of the source, written here in UTF-8, read as UTF-16. *)
Fixpoint decode_utf8 (bs : list N) : jsstring :=
  match bs with
  | [] => []
  | b0 :: r0 =>
      if (b0 <? 128)%N then b0 :: decode_utf8 r0
      else if (b0 <? 224)%N then
        match r0 with
        | b1 :: r1 => ((b0 - 192) * 64 + (b1 - 128))%N :: decode_utf8 r1
        | _ => [65533%N]
        end
      else if (b0 <? 240)%N then
        match r0 with
        | b1 :: b2 :: r2 =>
            ((b0 - 224) * 4096 + (b1 - 128) * 64 + (b2 - 128))%N :: decode_utf8 r2
        | _ => [65533%N]
        end
      else
        match r0 with
        | b1 :: b2 :: b3 :: r3 =>
            let cp := ((b0 - 240) * 262144 + (b1 - 128) * 4096
                       + (b2 - 128) * 64 + (b3 - 128))%N in
            let c := (cp - 65536)%N in
            (55296 + c / 1024)%N :: (56320 + c mod 1024)%N :: decode_utf8 r3
        | _ => [65533%N]
        end
  end.

Definition js (s : string) : jsstring :=
  decode_utf8 (map N_of_ascii (list_ascii_of_string s)).

(** The double quote, the line feed, the horizontal ellipsis and the
    bullet of the source's template literals. *)
Definition dquote : jsstring := [34%N].
Definition newline : jsstring := [10%N].
Definition ellipsis : jsstring := [8230%N].
Definition bullet : jsstring := [8226%N].

Fixpoint str_eqb (a b : jsstring) : bool :=
  match a, b with
  | [], [] => true
  | x :: a', y :: b' => (x =? y)%N && str_eqb a' b'
  | _, _ => false
  end.

(** [s.length] *)
Definition str_length (s : jsstring) : nat := List.length s.

(** [Array.prototype.join] on an array of strings. *)
Fixpoint join (sep : jsstring) (l : list jsstring) : jsstring :=
  match l with
  | [] => []
  | [x] => x
  | x :: rest => x ++ sep ++ join sep rest
  end.

(** [WhiteSpace] and [LineTerminator] of ECMAScript, which [trim] removes. *)
Definition is_whitespace (c : code_unit) : bool :=
  existsb (N.eqb c)
    [9; 10; 11; 12; 13; 32; 160; 5760; 8192; 8193; 8194; 8195; 8196; 8197;
     8198; 8199; 8200; 8201; 8202; 8232; 8233; 8239; 8287; 12288; 65279]%N.

Fixpoint trimStart (s : jsstring) : jsstring :=
  match s with
  | c :: r => if is_whitespace c then trimStart r else s
  | [] => []
  end.

Definition trim (s : jsstring) : jsstring :=
  rev (trimStart (rev (trimStart s))).

(** Truthiness of a string: the empty string is the only falsy one. *)
Definition truthy (s : jsstring) : bool :=
  match s with [] => false | _ => true end.

(* ------------------------------------------------------------------ *)
(** ** Values of [JSON.parse] *)

#[local] Set Warnings "-register-all".

Inductive json : Type :=
| JNull
| JBool (b : bool)
| JNum (lexeme : jsstring)
| JStr (s : jsstring)
| JArr (elems : list json)
| JObj (members : list (jsstring * json)).

(** A JavaScript value read from a property: [None] is [undefined]. *)
Definition jsvalue := option json.

(** Thrown values: an [Error] instance with its [message], or anything
    else. *)
Inductive Thrown : Type :=
| ErrorObj (message : jsstring)
| NonError.

Inductive Outcome (A : Type) : Type :=
| Resolved (a : A)
| Rejected (t : Thrown).
Arguments Rejected {A} t.

(** One computation after another, the second on the value of the first;
    what the first throws is thrown. *)
Definition and_then {A B : Type} (x : Outcome A) (k : A -> Outcome B)
  : Outcome B :=
  match x with
  | Resolved a => k a
  | Rejected t => Rejected t
  end.

(** The outcomes of a list, left to right, up to the first that throws. *)
Fixpoint all_resolved {A : Type} (l : list (Outcome A)) : Outcome (list A) :=
  match l with
  | [] => Resolved []
  | x :: rest =>
      and_then x (fun a =>
      and_then (all_resolved rest) (fun r => Resolved (a :: r)))
  end.

(** The builtins of the host that the handler calls and this file does not
    define: [JSON.parse] ([None] when it throws its [SyntaxError]),
    [Number.prototype.toString] on the number a JSON lexeme denotes,
    [encodeURIComponent] (which throws a [URIError] on a lone surrogate),
    and the comparison [x > n] of a number [x] with a natural number [n],
    for the number a JSON lexeme denotes and for the number a string
    converts to ([false] when that is [NaN]). *)
Class Host : Type := {
  JSON_parse : jsstring -> option json;
  Number_toString : jsstring -> jsstring;
  encodeURIComponent : jsstring -> Outcome jsstring;
  Number_exceeds : jsstring -> N -> bool;
  StringToNumber_exceeds : jsstring -> N -> bool
}.

(** Later members of a JSON object overwrite earlier ones of the same key. *)
Fixpoint lookup_last (A : Type) (key : jsstring) (ms : list (jsstring * A))
  : option A :=
  match ms with
  | [] => None
  | (k, v) :: rest =>
      match lookup_last key rest with
      | Some v' => Some v'
      | None => if str_eqb k key then Some v else None
      end
  end.

(** V8's message for a property read on [null]. *)
Definition null_property_message (name : jsstring) : jsstring :=
  js "Cannot read properties of null (reading '" ++ name ++ js "')".

(** [v.name] for the property names the handler reads of a parsed value
    ([search_term], [response_format], [pages], [title], [excerpt],
    [extract]); none of them is defined on a builtin prototype, so on a
    boolean, number, string or array the read gives [undefined]. *)
Definition get_prop (v : json) (name : jsstring) : Outcome jsvalue :=
  match v with
  | JNull => Rejected (ErrorObj (null_property_message name))
  | JObj ms => Resolved (lookup_last name ms)
  | _ => Resolved None
  end.

(** V8's [TypeError] for an object that has no primitive value. *)
Definition cannot_convert : Thrown :=
  ErrorObj (js "Cannot convert object to primitive value").

Section HostStrings.
Context {host : Host}.

(** [ToString] of a parsed value, as a template literal applies it.  An
    array is joined with commas, [null] elements as empty strings.  An
    object goes through [toString] and [valueOf]: with its own [toString]
    member, which no parsed value can make callable, neither gives a
    primitive ([Object.prototype.valueOf], or a [valueOf] member, does not
    either) and the conversion throws; without one it is
    [Object.prototype.toString]. *)
Fixpoint json_to_string (v : json) : Outcome jsstring :=
  match v with
  | JNull => Resolved (js "null")
  | JBool true => Resolved (js "true")
  | JBool false => Resolved (js "false")
  | JNum lexeme => Resolved (Number_toString lexeme)
  | JStr s => Resolved s
  | JArr elems =>
      and_then
        (all_resolved
           (map (fun e => match e with
                          | JNull => Resolved []
                          | _ => json_to_string e
                          end) elems))
        (fun strings => Resolved (join (js ",") strings))
  | JObj members =>
      match lookup_last (js "toString") members with
      | Some _ => Rejected cannot_convert
      | None => Resolved (js "[object Object]")
      end
  end.

Definition to_string (v : jsvalue) : Outcome jsstring :=
  match v with
  | None => Resolved (js "undefined")
  | Some j => json_to_string j
  end.

(** [Array.prototype.join]: [undefined] and [null] elements are empty
    strings, the others are converted. *)
Definition join_values (sep : jsstring) (l : list jsvalue)
  : Outcome jsstring :=
  and_then
    (all_resolved
       (map (fun v => match v with
                      | None | Some JNull => Resolved []
                      | Some x => json_to_string x
                      end) l))
    (fun strings => Resolved (join sep strings)).

(** [v > n] for a value read from a parsed object and a number literal:
    both sides are converted to numbers ([undefined] to [NaN], [null] to
    0, a boolean to 0 or 1, a string by [StringToNumber], an array through
    its [toString], an object through its [toString] as above, which gives
    [NaN] when it gives anything). *)
Definition exceeds (v : jsvalue) (n : N) : Outcome bool :=
  match v with
  | None => Resolved false
  | Some JNull => Resolved false
  | Some (JBool b) => Resolved (b && (n =? 0)%N)
  | Some (JNum lexeme) => Resolved (Number_exceeds lexeme n)
  | Some (JStr s) => Resolved (StringToNumber_exceeds s n)
  | Some (JArr elems) =>
      and_then (json_to_string (JArr elems))
        (fun s => Resolved (StringToNumber_exceeds s n))
  | Some (JObj members) =>
      match lookup_last (js "toString") members with
      | Some _ => Rejected cannot_convert
      | None => Resolved false
      end
  end.
End HostStrings.

(** [ToString] of a property that is a string or absent. *)
Definition string_or_undefined (v : option jsstring) : jsstring :=
  match v with
  | None => js "undefined"
  | Some s => s
  end.

(* ------------------------------------------------------------------ *)
(** ** The data of the model API and of the event stream *)

(** [SYSTEM_PROMPTS] of [lib/types.ts] has one entry per agent; a request
    names the entry it sends as [system]. *)
Inductive AgentRole : Type := supervisor | researcher | synthesizer.

Inductive StopReason : Type :=
| end_turn | max_tokens_reached | stop_sequence | tool_use | pause_turn
| refusal.

(** [Record<string, string>], in the order of the object's keys. *)
Definition StringRecord := list (jsstring * jsstring).

(** A block of a model response: text, a tool invocation request, or one
    of the other kinds the SDK's union has (thinking and the like), kept by
    its [type] tag. *)
Inductive ContentBlock : Type :=
| TextBlock (text : jsstring)
| ToolUseBlock (id name : jsstring) (input : StringRecord)
| OtherBlock (type_tag : jsstring).

Record Message : Type := {
  content : list ContentBlock;
  stop_reason : option StopReason
}.

(** [content] is whatever the tool returned: [getWikipediaArticle] is
    declared to return a string and returns the [extract] of the body,
    any value. *)
Record ToolResultBlockParam : Type := {
  tool_use_id : jsstring;
  result_content : json
}.

Inductive Role : Type := user | assistant.

Inductive TurnContent : Type :=
| Prompt (text : jsstring)
| Blocks (blocks : list ContentBlock)
| ToolResults (results : list ToolResultBlockParam).

Record MessageParam : Type := {
  role : Role;
  turn : TurnContent
}.

Record Tool : Type := {
  tool_name : jsstring;
  tool_required : list jsstring
}.

Record MessageCreateParams : Type := {
  model : jsstring;
  max_tokens : N;
  system : AgentRole;
  tools : option (list Tool);
  messages : list MessageParam
}.

Definition RESEARCHER_TOOLS : list Tool :=
  [ {| tool_name := js "search_wikipedia"; tool_required := [js "query"] |};
    {| tool_name := js "get_wikipedia_article";
       tool_required := [js "title"] |} ].

Inductive DelegateTarget : Type := to_researcher | to_synthesizer.

(** [AgentEvent] of [lib/types.ts]. *)
Inductive AgentEvent : Type :=
| supervisor_start (message : jsstring)
| supervisor_plan (searchTerm responseFormat : jsvalue)
| supervisor_delegate (to : DelegateTarget) (instructions : jsstring)
| supervisor_review (message : jsstring)
| supervisor_done
| researcher_start
| researcher_thinking (text : jsstring)
| researcher_tool_call (tool : jsstring) (input : StringRecord)
| researcher_tool_result (tool : jsstring) (resultPreview : json)
    (count : option nat)
| researcher_done
| synthesizer_start
| synthesizer_done (answer : jsstring)
| error (message : jsstring).

(** What [fetch] resolves to: [res.ok], and what [res.json()] gives: any
    parsed value, or the rejection of a body that is no JSON. *)
Record FetchResponse : Type := {
  ok : bool;
  json_body : Outcome json
}.

(** [{ title, snippet }]: the title is whatever the page has there. *)
Record Candidate : Type := {
  cand_title : jsvalue;
  snippet : jsstring
}.

Record Request : Type := {
  question : jsstring;
  supervisorModel : jsstring;
  researcherModel : jsstring;
  synthesizerModel : jsstring
}.

(* ------------------------------------------------------------------ *)
(** ** The outside world and the monad of the handler *)

Class World (W : Type) : Type := {
  messages_create : MessageCreateParams -> W -> Outcome Message * W;
  fetch : jsstring -> W -> Outcome FetchResponse * W
}.

(** Everything the run does that can be seen from outside, in order. *)
Inductive Action : Type :=
| Emit (e : AgentEvent)
| ModelCall (p : MessageCreateParams) (r : Outcome Message)
| HttpGet (url : jsstring) (r : Outcome FetchResponse)
| Close.

Inductive Result (A : Type) : Type :=
| Ret (a : A)
| Throw (t : Thrown)
| OutOfFuel.
Arguments Throw {A} t.
Arguments OutOfFuel {A}.

Definition M (W A : Type) : Type := W -> Result A * W * list Action.

Definition ret {W A} (a : A) : M W A := fun w => (Ret a, w, []).

Definition throw {W A} (t : Thrown) : M W A := fun w => (Throw t, w, []).

Definition out_of_fuel {W A} : M W A := fun w => (OutOfFuel, w, []).

Definition bind {W A B} (m : M W A) (k : A -> M W B) : M W B :=
  fun w =>
    match m w with
    | (Ret a, w1, o1) =>
        match k a w1 with
        | (r, w2, o2) => (r, w2, o1 ++ o2)
        end
    | (Throw t, w1, o1) => (Throw t, w1, o1)
    | (OutOfFuel, w1, o1) => (OutOfFuel, w1, o1)
    end.

Declare Scope js_scope.
Delimit Scope js_scope with jsm.
Notation "x <- m ;; k" := (bind m (fun x => k))
  (at level 61, m at next level, right associativity) : js_scope.
Notation "m ;; k" := (bind m (fun _ => k))
  (at level 61, right associativity) : js_scope.

(** [try { m } catch (err) { h err }] *)
Definition try_catch {W A} (m : M W A) (h : Thrown -> M W A) : M W A :=
  fun w =>
    match m w with
    | (Throw t, w1, o1) =>
        match h t w1 with
        | (r, w2, o2) => (r, w2, o1 ++ o2)
        end
    | other => other
    end.

(** [try { m } finally { f }]: [f] runs when [m] returns or throws. *)
Definition try_finally {W A} (m : M W A) (f : M W unit) : M W A :=
  fun w =>
    match m w with
    | (OutOfFuel, w1, o1) => (OutOfFuel, w1, o1)
    | (r, w1, o1) =>
        match f w1 with
        | (Ret _, w2, o2) => (r, w2, o1 ++ o2)
        | (Throw t, w2, o2) => (Throw t, w2, o1 ++ o2)
        | (OutOfFuel, w2, o2) => (OutOfFuel, w2, o1 ++ o2)
        end
    end.

Definition lift {W A} (x : Outcome A) : M W A :=
  match x with
  | Resolved a => ret a
  | Rejected t => throw t
  end.

(** The result of a computation that makes no action. *)
Definition result_of {A} (x : Outcome A) : Result A :=
  match x with
  | Resolved a => Ret a
  | Rejected t => Throw t
  end.

(** [emit]: one framed event enqueued on the stream. *)
Definition emit {W} (e : AgentEvent) : M W unit :=
  fun w => (Ret tt, w, [Emit e]).

Definition controller_close {W} : M W unit :=
  fun w => (Ret tt, w, [Close]).

Definition events (o : list Action) : list AgentEvent :=
  flat_map (fun a => match a with Emit e => [e] | _ => [] end) o.

Definition model_calls (o : list Action)
  : list (MessageCreateParams * Outcome Message) :=
  flat_map (fun a => match a with ModelCall p r => [(p, r)] | _ => [] end) o.

(* ------------------------------------------------------------------ *)
(** ** The regular expressions of the source *)

Definition lbrace : code_unit := 123%N.
Definition rbrace : code_unit := 125%N.
Definition langle : code_unit := 60%N.
Definition rangle : code_unit := 62%N.

(** The suffix that starts at the first [c]. *)
Fixpoint from_first (c : code_unit) (s : jsstring) : option jsstring :=
  match s with
  | [] => None
  | x :: r => if (x =? c)%N then Some s else from_first c r
  end.

(** The prefix that ends at the last [c]. *)
Fixpoint through_last (c : code_unit) (s : jsstring) : option jsstring :=
  match s with
  | [] => None
  | x :: r =>
      match through_last c r with
      | Some p => Some (x :: p)
      | None => if (x =? c)%N then Some [x] else None
      end
  end.

(** [raw.match(/\{[\s\S]*\}/)?.[0]]: from the first opening brace to the
    last closing brace after it. *)
Definition match_braces (raw : jsstring) : option jsstring :=
  match from_first lbrace raw with
  | Some (b :: rest) =>
      match through_last rbrace rest with
      | Some p => Some (b :: p)
      | None => None
      end
  | _ => None
  end.

(** What follows the first [>] of [s]. *)
Fixpoint after_rangle (s : jsstring) : option jsstring :=
  match s with
  | [] => None
  | x :: r => if (x =? rangle)%N then Some r else after_rangle r
  end.

(** A match of [/<[^>]+>/] at the head of [s]: what follows the match. *)
Definition tag_end (s : jsstring) : option jsstring :=
  match s with
  | c :: d :: r =>
      if (c =? langle)%N && negb (d =? rangle)%N then after_rangle r
      else None
  | _ => None
  end.

(** [s.replace(/<[^>]+>/g, '')]: matches are taken leftmost first and the
    scan resumes after each match.  The fuel is the length of the string. *)
Fixpoint strip_tags_from (n : nat) (s : jsstring) : jsstring :=
  match n with
  | O => []
  | S n' =>
      match s with
      | [] => []
      | c :: r =>
          match tag_end s with
          | Some rest => strip_tags_from n' rest
          | None => c :: strip_tags_from n' r
          end
      end
  end.

Definition strip_tags (s : jsstring) : jsstring :=
  strip_tags_from (str_length s) s.

(** Whether [/<[^>]+>/] matches somewhere in [s]. *)
Fixpoint has_tag (s : jsstring) : bool :=
  match s with
  | [] => false
  | _ :: r =>
      match tag_end s with
      | Some _ => true
      | None => has_tag r
      end
  end.

(* ------------------------------------------------------------------ *)
(** ** Pure parts of the handler *)

Definition is_text (b : ContentBlock) : bool :=
  match b with TextBlock _ => true | _ => false end.

Definition is_tool_use (b : ContentBlock) : bool :=
  match b with ToolUseBlock _ _ _ => true | _ => false end.

(** The text of a block, the empty string for a block that is no text. *)
Definition text_or_empty (b : ContentBlock) : jsstring :=
  match b with
  | TextBlock t => t
  | _ => []
  end.

(** [response.content[0].type === 'text' ? response.content[0].text : ''];
    on an empty [content] the read of [.type] throws a [TypeError]. *)
Definition first_block_text (blocks : list ContentBlock) : Outcome jsstring :=
  match blocks with
  | [] =>
      Rejected
        (ErrorObj (js "Cannot read properties of undefined (reading 'type')"))
  | b :: _ => Resolved (text_or_empty b)
  end.

(** [const textBlock = content.find((b) => b.type === 'text');
     textBlock?.type === 'text' ? textBlock.text : ''] *)
Definition first_text (blocks : list ContentBlock) : jsstring :=
  match find is_text blocks with
  | Some (TextBlock t) => t
  | _ => []
  end.

(** The format of the plan of the [catch].  (An earlier revision of the
    route has the same [try] and [catch] with the English text
    [Clear and structured explanation] here.) *)
Definition default_response_format : jsstring :=
  js "Explicación clara y estructurada".

Definition default_plan (question : jsstring) : json :=
  JObj [(js "search_term", JStr question);
        (js "response_format", JStr default_response_format)].

(** V8's [TypeError] for a call of what is no function. *)
Definition not_a_function (callee : jsstring) : Thrown :=
  ErrorObj (callee ++ js " is not a function").

(** [(p) => ({ title: p.title,
              snippet: p.excerpt?.replace(/<[^>]+>/g, '') ?? '' })] on an
    element of [pages].  The read of [title] throws on [null]; an excerpt
    that is neither absent, [null] nor a string has no [replace] to
    call. *)
Definition candidate_of (p : json) : Outcome Candidate :=
  and_then (get_prop p (js "title")) (fun title =>
  and_then (get_prop p (js "excerpt")) (fun excerpt =>
  match excerpt with
  | None | Some JNull => Resolved {| cand_title := title; snippet := [] |}
  | Some (JStr e) =>
      Resolved {| cand_title := title; snippet := strip_tags e |}
  | Some _ => Rejected (not_a_function (js "p.excerpt?.replace"))
  end)).

(** The elements of [pages] that the map takes: any value but [null],
    with an excerpt that is absent, [null] or a string. *)
Definition page_like (p : json) : bool :=
  match p with
  | JNull => false
  | JObj members =>
      match lookup_last (js "excerpt") members with
      | None | Some JNull | Some (JStr _) => true
      | Some _ => false
      end
  | _ => true
  end.

(** [(data.pages ?? []).map(...)]: only an array has [map]. *)
Definition candidates (pages : jsvalue) : Outcome (list Candidate) :=
  match pages with
  | None | Some JNull => Resolved []
  | Some (JArr ps) => all_resolved (map candidate_of ps)
  | Some _ => Rejected (not_a_function (js "(data.pages ?? []).map"))
  end.

Definition search_url (q : jsstring) : jsstring :=
  js "https://en.wikipedia.org/w/rest.php/v1/search/page?q=" ++ q
  ++ js "&limit=5".

Definition summary_url (t : jsstring) : jsstring :=
  js "https://en.wikipedia.org/api/rest_v1/page/summary/" ++ t.

Definition not_found (title : jsstring) : jsstring :=
  js "No se encontró el artículo: " ++ title.

Definition no_content : jsstring := js "Artículo sin contenido.".

(** [data.extract ?? 'Artículo sin contenido.'] *)
Definition extract_or_default (extract : jsvalue) : json :=
  match extract with
  | None | Some JNull => JStr no_content
  | Some e => e
  end.

(** [searchWikipedia] from the response of [fetch] on:
    [if (!res.ok) return [];
     const data = await res.json();
     return (data.pages ?? []).map(...)] *)
Definition search_response (res : FetchResponse)
  : Outcome (list Candidate) :=
  if negb (ok res) then Resolved []
  else
    and_then (json_body res) (fun data =>
    and_then (get_prop data (js "pages")) candidates).

(** [getWikipediaArticle] from the response of [fetch] on:
    [if (!res.ok) return `No se encontró el artículo: ${title}`;
     const data = await res.json();
     return data.extract ?? 'Artículo sin contenido.'] *)
Definition article_response (title : jsstring) (res : FetchResponse)
  : Outcome json :=
  if negb (ok res) then Resolved (JStr (not_found title))
  else
    and_then (json_body res) (fun data =>
    and_then (get_prop data (js "extract")) (fun extract =>
    Resolved (extract_or_default extract))).

Definition no_results : jsstring := js "Sin resultados.".
Definition no_results_preview : jsstring := js "Sin resultados".
Definition unknown_tool : jsstring := js "Herramienta desconocida.".
Definition unknown_error : jsstring := js "Error desconocido".

(** [result.length > 120 ? result.slice(0, 120) + '…' : result] on a
    string. *)
Definition article_preview (result : jsstring) : jsstring :=
  if 120 <? str_length result then firstn 120 result ++ ellipsis else result.

Section HostValues.
Context {host : Host}.

(** [`• ${r.title}: ${r.snippet}`] *)
Definition bullet_line (r : Candidate) : Outcome jsstring :=
  and_then (to_string (cand_title r)) (fun title =>
  Resolved (bullet ++ js " " ++ title ++ js ": " ++ snippet r)).

(** [results.length
       ? results.map((r) => `• ${r.title}: ${r.snippet}`).join('\n')
       : 'Sin resultados.'] *)
Definition search_result (results : list Candidate) : Outcome jsstring :=
  match results with
  | [] => Resolved no_results
  | _ =>
      and_then (all_resolved (map bullet_line results))
        (fun lines => Resolved (join newline lines))
  end.

(** [results.length ? results.map((r) => r.title).join(', ')
                    : 'Sin resultados'] *)
Definition search_preview (results : list Candidate) : Outcome jsstring :=
  match results with
  | [] => Resolved no_results_preview
  | _ => join_values (js ", ") (map cand_title results)
  end.

(** [result.length > 120 ? result.slice(0, 120) + '…' : result] on
    whatever the article lookup returned.  A number and a boolean have no
    [length]; an array has its own, and its cut is converted to a string
    by the [+]; an object has the [length] member it may carry and no
    [slice] to call. *)
Definition preview_of (result : json) : Outcome json :=
  match result with
  | JStr s => Resolved (JStr (article_preview s))
  | JNull => Rejected (ErrorObj (null_property_message (js "length")))
  | JBool _ | JNum _ => Resolved result
  | JArr elems =>
      if 120 <? List.length elems then
        and_then (json_to_string (JArr (firstn 120 elems)))
          (fun s => Resolved (JStr (s ++ ellipsis)))
      else Resolved result
  | JObj members =>
      and_then (exceeds (lookup_last (js "length") members) 120)
        (fun long =>
           if long then Rejected (not_a_function (js "result.slice"))
           else Resolved result)
  end.
End HostValues.

Definition supervisor_start_message : jsstring :=
  js "Recibí la pregunta del usuario. Voy a determinar qué investigar y en qué formato presentar la respuesta.".

Definition supervisor_review_message : jsstring :=
  js "Recibí los hallazgos del Researcher. Ahora le paso los datos al Synthesizer para que construya la respuesta final.".

Definition researcherInstruction (search_term : jsstring) : jsstring :=
  js "Busca información sobre: " ++ dquote ++ search_term ++ dquote
  ++ js ". Usa las herramientas disponibles para encontrar datos precisos en Wikipedia. Devuélveme un resumen completo de lo que encuentres.".

Definition researcher_seed (search_term : jsstring) : jsstring :=
  researcherInstruction search_term ++ newline ++ newline
  ++ js "Tema de investigación: " ++ dquote ++ search_term ++ dquote.

Definition synthesizerInstruction (question response_format : jsstring)
  : jsstring :=
  js "La pregunta del usuario es: " ++ dquote ++ question ++ dquote
  ++ js ". El formato de respuesta deseado es: " ++ response_format
  ++ js ". Te envío los datos de investigación para que los estructures en una respuesta clara.".

Definition synthesizer_prompt (instruction researchSummary : jsstring)
  : jsstring :=
  instruction ++ newline ++ newline ++ js "Datos de investigación:"
  ++ newline ++ researchSummary.

Definition error_message (err : Thrown) : jsstring :=
  match err with
  | ErrorObj message => message
  | NonError => unknown_error
  end.

Definition is_tool_use_stop (r : option StopReason) : bool :=
  match r with Some tool_use => true | _ => false end.

(* ------------------------------------------------------------------ *)
(** ** The handler *)

Section Handler.
Context {host : Host} {W : Type} {world : World W}.

Local Open Scope js_scope.

(** [await client.messages.create(p)] *)
Definition create (p : MessageCreateParams) : M W Message :=
  fun w =>
    match messages_create p w with
    | (Resolved m, w1) => (Ret m, w1, [ModelCall p (Resolved m)])
    | (Rejected t, w1) => (Throw t, w1, [ModelCall p (Rejected t)])
    end.

(** [await fetch(url, { headers: { 'User-Agent': 'AgenticDemo/1.0' } })] *)
Definition http_get (url : jsstring) : M W FetchResponse :=
  fun w =>
    match fetch url w with
    | (Resolved r, w1) => (Ret r, w1, [HttpGet url (Resolved r)])
    | (Rejected t, w1) => (Throw t, w1, [HttpGet url (Rejected t)])
    end.

Definition searchWikipedia (query : jsstring) : M W (list Candidate) :=
  q <- lift (encodeURIComponent query) ;;
  res <- http_get (search_url q) ;;
  lift (search_response res).

(** Declared to return a string; it returns the [extract] of the body as
    it is. *)
Definition getWikipediaArticle (title : jsstring) : M W json :=
  t <- lift (encodeURIComponent title) ;;
  res <- http_get (summary_url t) ;;
  lift (article_response title res).

(** [plan = JSON.parse(raw.match(/\{[\s\S]*\}/)?.[0] ?? raw)] inside its
    [try], with the plan of the [catch]. *)
Definition plan_source (raw : jsstring) : jsstring :=
  match match_braces raw with
  | Some m => m
  | None => raw
  end.

Definition parse_plan (question raw : jsstring) : json :=
  match JSON_parse (plan_source raw) with
  | Some v => v
  | None => default_plan question
  end.

(** The three branches on [block.name], each with its event.  The
    property of [block.input] is read where the source reads it; a
    missing one is [undefined], which [encodeURIComponent] and the
    template literal turn into a string. *)
Definition run_tool (name : jsstring) (input : StringRecord) : M W json :=
  if str_eqb name (js "search_wikipedia") then
    results <- searchWikipedia
                 (string_or_undefined (lookup_last (js "query") input)) ;;
    result <- lift (search_result results) ;;
    resultPreview <- lift (search_preview results) ;;
    emit (researcher_tool_result name (JStr resultPreview)
            (Some (List.length results))) ;;
    ret (JStr result)
  else if str_eqb name (js "get_wikipedia_article") then
    result <- getWikipediaArticle
                (string_or_undefined (lookup_last (js "title") input)) ;;
    resultPreview <- lift (preview_of result) ;;
    emit (researcher_tool_result name resultPreview None) ;;
    ret result
  else
    let result := unknown_tool in
    emit (researcher_tool_result name (JStr result) None) ;;
    ret (JStr result).

(** [for (const block of toolUseBlocks) { ... toolResults.push(...) }] *)
Fixpoint dispatch (toolUseBlocks : list ContentBlock)
    (toolResults : list ToolResultBlockParam)
  : M W (list ToolResultBlockParam) :=
  match toolUseBlocks with
  | [] => ret toolResults
  | ToolUseBlock id name input :: rest =>
      emit (researcher_tool_call name input) ;;
      result <- run_tool name input ;;
      dispatch rest
        (toolResults ++ [{| tool_use_id := id; result_content := result |}])
  | _ :: rest => dispatch rest toolResults
  end.

(** [for (const block of researcherResponse.content)
      if (block.type === 'text' && block.text.trim()) emit(...)] *)
Fixpoint emit_thinking (blocks : list ContentBlock) : M W unit :=
  match blocks with
  | [] => ret tt
  | TextBlock text :: rest =>
      (if truthy (trim text) then emit (researcher_thinking text)
       else ret tt) ;;
      emit_thinking rest
  | _ :: rest => emit_thinking rest
  end.

Definition researcher_request (researcherModel : jsstring)
    (researcherMessages : list MessageParam) : MessageCreateParams :=
  {| model := researcherModel;
     max_tokens := 2048;
     system := researcher;
     tools := Some RESEARCHER_TOOLS;
     messages := researcherMessages |}.

(** [while (continueLoop) { ... }]; it returns [researchSummary]. *)
Fixpoint research_loop (fuel : nat) (researcherModel : jsstring)
    (researcherMessages : list MessageParam) : M W jsstring :=
  match fuel with
  | O => out_of_fuel
  | S fuel' =>
      researcherResponse <-
        create (researcher_request researcherModel researcherMessages) ;;
      emit_thinking (content researcherResponse) ;;
      if is_tool_use_stop (stop_reason researcherResponse) then
        toolResults <-
          dispatch (filter is_tool_use (content researcherResponse)) [] ;;
        research_loop fuel' researcherModel
          (researcherMessages
             ++ [{| role := assistant;
                    turn := Blocks (content researcherResponse) |}]
             ++ [{| role := user; turn := ToolResults toolResults |}])
      else
        emit researcher_done ;;
        ret (first_text (content researcherResponse))
  end.

Definition supervisor_request (req : Request) : MessageCreateParams :=
  {| model := supervisorModel req;
     max_tokens := 512;
     system := supervisor;
     tools := None;
     messages := [{| role := user; turn := Prompt (question req) |}] |}.

Definition synthesizer_request (req : Request) (prompt : jsstring)
  : MessageCreateParams :=
  {| model := synthesizerModel req;
     max_tokens := 1500;
     system := synthesizer;
     tools := None;
     messages := [{| role := user; turn := Prompt prompt |}] |}.

(** FASE 1: the supervisor produces the plan. *)
Definition planning (req : Request) : M W json :=
  emit (supervisor_start supervisor_start_message) ;;
  supervisorResponse <- create (supervisor_request req) ;;
  raw <- lift (first_block_text (content supervisorResponse)) ;;
  ret (parse_plan (question req) raw).

(** FASE 2: the researcher and its tool loop. *)
Definition research (fuel : nat) (req : Request) (search_term : jsstring)
  : M W jsstring :=
  emit (supervisor_delegate to_researcher
          (researcherInstruction search_term)) ;;
  emit researcher_start ;;
  research_loop fuel (researcherModel req)
    [{| role := user; turn := Prompt (researcher_seed search_term) |}].

(** FASE 3 to 5: review, synthesis, completion.  The template literal of
    [synthesizerInstruction] converts [plan.response_format] to a string
    after the review event. *)
Definition synthesis (req : Request) (responseFormat : jsvalue)
    (researchSummary : jsstring) : M W unit :=
  emit (supervisor_review supervisor_review_message) ;;
  response_format <- lift (to_string responseFormat) ;;
  let instruction := synthesizerInstruction (question req) response_format in
  emit (supervisor_delegate to_synthesizer instruction) ;;
  emit synthesizer_start ;;
  synthesizerResponse <-
    create (synthesizer_request req
              (synthesizer_prompt instruction researchSummary)) ;;
  finalAnswer <- lift (first_block_text (content synthesizerResponse)) ;;
  emit (synthesizer_done finalAnswer) ;;
  emit supervisor_done.

(** Everything from the [emit] of the plan on.  [plan.search_term] and
    [plan.response_format] are read here once each; the source reads them
    again further down, from the same unchanged [plan].  The template
    literal of [researcherInstruction] converts [plan.search_term] to a
    string right after the plan event; the second conversion, in the seed
    of the researcher, is of the same value and gives the same string. *)
Definition run_plan (fuel : nat) (req : Request) (plan : json) : M W unit :=
  searchTerm <- lift (get_prop plan (js "search_term")) ;;
  responseFormat <- lift (get_prop plan (js "response_format")) ;;
  emit (supervisor_plan searchTerm responseFormat) ;;
  search_term <- lift (to_string searchTerm) ;;
  researchSummary <- research fuel req search_term ;;
  synthesis req responseFormat researchSummary.

(** The body of the outer [try]. *)
Definition pipeline (fuel : nat) (req : Request) : M W unit :=
  plan <- planning req ;;
  run_plan fuel req plan.

(** [catch (err) { emit({ type: 'error', message }) }] *)
Definition on_error (err : Thrown) : M W unit :=
  emit (error (error_message err)).

(** [start(controller)] of the stream that [POST] returns.  ([POST] reads
    the four fields of the request before it builds the stream; they are
    taken here as the strings the client sends.) *)
Definition start (fuel : nat) (req : Request) : M W unit :=
  try_finally (try_catch (pipeline fuel req) on_error) controller_close.

Definition POST (fuel : nat) (req : Request) (w : W)
  : Result unit * W * list Action :=
  start fuel req w.
End Handler.

(* ------------------------------------------------------------------ *)
(** ** A concrete host and a scripted world, for runs on concrete inputs *)

Module Demo.

(** *** [JSON.parse], by recursive descent over the JSON grammar *)

Definition is_json_ws (c : code_unit) : bool :=
  existsb (N.eqb c) [32; 9; 10; 13]%N.

Fixpoint skip_ws (s : jsstring) : jsstring :=
  match s with
  | c :: r => if is_json_ws c then skip_ws r else s
  | [] => []
  end.

Fixpoint strip_prefix (p s : jsstring) : option jsstring :=
  match p, s with
  | [], _ => Some s
  | x :: p', y :: s' => if (x =? y)%N then strip_prefix p' s' else None
  | _ :: _, [] => None
  end.

Definition is_digit (c : code_unit) : bool := (48 <=? c)%N && (c <=? 57)%N.

Definition hex_value (c : code_unit) : option N :=
  if is_digit c then Some (c - 48)%N
  else if (65 <=? c)%N && (c <=? 70)%N then Some (c - 55)%N
  else if (97 <=? c)%N && (c <=? 102)%N then Some (c - 87)%N
  else None.

Definition hex4 (a b c d : code_unit) : option code_unit :=
  match hex_value a, hex_value b, hex_value c, hex_value d with
  | Some x, Some y, Some z, Some t =>
      Some (x * 4096 + y * 256 + z * 16 + t)%N
  | _, _, _, _ => None
  end.

(** The character a one-letter escape stands for. *)
Definition simple_escape (e : code_unit) : option code_unit :=
  if (e =? 34)%N then Some 34%N          (* quote *)
  else if (e =? 92)%N then Some 92%N     (* backslash *)
  else if (e =? 47)%N then Some 47%N     (* slash *)
  else if (e =? 98)%N then Some 8%N      (* b *)
  else if (e =? 102)%N then Some 12%N    (* f *)
  else if (e =? 110)%N then Some 10%N    (* n *)
  else if (e =? 114)%N then Some 13%N    (* r *)
  else if (e =? 116)%N then Some 9%N     (* t *)
  else None.

Definition cons_fst (c : code_unit) (x : option (jsstring * jsstring))
  : option (jsstring * jsstring) :=
  match x with
  | Some (s, rest) => Some (c :: s, rest)
  | None => None
  end.

(** A string after its opening quote: its value and what follows the
    closing quote. *)
Fixpoint parse_string_body (s : jsstring) : option (jsstring * jsstring) :=
  match s with
  | [] => None
  | c :: r =>
      if (c =? 34)%N then Some ([], r)
      else if (c =? 92)%N then
        match r with
        | e :: r2 =>
            if (e =? 117)%N then
              match r2 with
              | h1 :: h2 :: h3 :: h4 :: r3 =>
                  match hex4 h1 h2 h3 h4 with
                  | Some u => cons_fst u (parse_string_body r3)
                  | None => None
                  end
              | _ => None
              end
            else
              match simple_escape e with
              | Some x => cons_fst x (parse_string_body r2)
              | None => None
              end
        | [] => None
        end
      else if (c <? 32)%N then None
      else cons_fst c (parse_string_body r)
  end.

Fixpoint span_digits (s : jsstring) : jsstring * jsstring :=
  match s with
  | c :: r =>
      if is_digit c then
        match span_digits r with (ds, rest) => (c :: ds, rest) end
      else ([], s)
  | [] => ([], [])
  end.

(** A JSON number (optional minus, integer part without leading zero,
    optional fraction, optional exponent): the lexeme and what follows. *)
Definition parse_number (s : jsstring) : option (jsstring * jsstring) :=
  let '(sign, s1) :=
    match s with
    | 45%N :: r => ([45%N], r)
    | _ => ([], s)
    end in
  match span_digits s1 with
  | ([], _) => None
  | (d :: ds, s2) =>
      if (d =? 48)%N && negb (match ds with [] => true | _ => false end)
      then None
      else
        let int_part := sign ++ d :: ds in
        let frac :=
          match s2 with
          | 46%N :: r =>
              match span_digits r with
              | ([], _) => None
              | (fs, s3) => Some (46%N :: fs, s3)
              end
          | _ => Some ([], s2)
          end in
        match frac with
        | None => None
        | Some (fr, s3) =>
            match s3 with
            | e :: r =>
                if (e =? 101)%N || (e =? 69)%N then
                  let '(esign, r1) :=
                    match r with
                    | 43%N :: r' => ([43%N], r')
                    | 45%N :: r' => ([45%N], r')
                    | _ => ([], r)
                    end in
                  match span_digits r1 with
                  | ([], _) => None
                  | (es, s4) => Some (int_part ++ fr ++ e :: esign ++ es, s4)
                  end
                else Some (int_part ++ fr, s3)
            | [] => Some (int_part ++ fr, s3)
            end
        end
  end.

Fixpoint parse_value (fuel : nat) (s : jsstring) : option (json * jsstring) :=
  match fuel with
  | O => None
  | S n =>
      match skip_ws s with
      | [] => None
      | c :: r =>
          if (c =? 123)%N then
            match skip_ws r with
            | 125%N :: r' => Some (JObj [], r')
            | r' => parse_members n r' []
            end
          else if (c =? 91)%N then
            match skip_ws r with
            | 93%N :: r' => Some (JArr [], r')
            | r' => parse_elems n r' []
            end
          else if (c =? 34)%N then
            match parse_string_body r with
            | Some (v, rest) => Some (JStr v, rest)
            | None => None
            end
          else
            match strip_prefix (js "true") (c :: r) with
            | Some rest => Some (JBool true, rest)
            | None =>
            match strip_prefix (js "false") (c :: r) with
            | Some rest => Some (JBool false, rest)
            | None =>
            match strip_prefix (js "null") (c :: r) with
            | Some rest => Some (JNull, rest)
            | None =>
            match parse_number (c :: r) with
            | Some (lexeme, rest) => Some (JNum lexeme, rest)
            | None => None
            end end end end
      end
  end
with parse_members (fuel : nat) (s : jsstring)
       (acc : list (jsstring * json)) : option (json * jsstring) :=
  match fuel with
  | O => None
  | S n =>
      match skip_ws s with
      | 34%N :: r =>
          match parse_string_body r with
          | Some (k, r1) =>
              match skip_ws r1 with
              | 58%N :: r2 =>
                  match parse_value n r2 with
                  | Some (v, r3) =>
                      match skip_ws r3 with
                      | 44%N :: r4 => parse_members n r4 (acc ++ [(k, v)])
                      | 125%N :: r4 => Some (JObj (acc ++ [(k, v)]), r4)
                      | _ => None
                      end
                  | None => None
                  end
              | _ => None
              end
          | None => None
          end
      | _ => None
      end
  end
with parse_elems (fuel : nat) (s : jsstring) (acc : list json)
       : option (json * jsstring) :=
  match fuel with
  | O => None
  | S n =>
      match parse_value n s with
      | Some (v, r1) =>
          match skip_ws r1 with
          | 44%N :: r2 => parse_elems n r2 (acc ++ [v])
          | 93%N :: r2 => Some (JArr (acc ++ [v]), r2)
          | _ => None
          end
      | None => None
      end
  end.

Definition json_parse (s : jsstring) : option json :=
  match parse_value (2 * str_length s + 2) s with
  | Some (v, rest) =>
      match skip_ws rest with
      | [] => Some v
      | _ => None
      end
  | None => None
  end.

(** *** [encodeURIComponent] *)

Definition is_unreserved (c : code_unit) : bool :=
  is_digit c
  || ((65 <=? c)%N && (c <=? 90)%N)
  || ((97 <=? c)%N && (c <=? 122)%N)
  || existsb (N.eqb c) [45; 95; 46; 33; 126; 42; 39; 40; 41]%N.

Definition hex_digit (n : N) : code_unit :=
  if (n <? 10)%N then (48 + n)%N else (55 + n)%N.

Definition percent (byte : N) : jsstring :=
  [37%N; hex_digit (byte / 16); hex_digit (byte mod 16)].

Definition utf8_bytes (cp : N) : list N :=
  if (cp <? 128)%N then [cp]
  else if (cp <? 2048)%N then [192 + cp / 64; 128 + cp mod 64]%N
  else if (cp <? 65536)%N then
    [224 + cp / 4096; 128 + (cp / 64) mod 64; 128 + cp mod 64]%N
  else
    [240 + cp / 262144; 128 + (cp / 4096) mod 64; 128 + (cp / 64) mod 64;
     128 + cp mod 64]%N.

Definition uri_malformed : Thrown := ErrorObj (js "URI malformed").

Fixpoint encode_units (s : jsstring) : Outcome jsstring :=
  match s with
  | [] => Resolved []
  | c :: r =>
      if is_unreserved c then
        match encode_units r with
        | Resolved e => Resolved (c :: e)
        | Rejected t => Rejected t
        end
      else if (56320 <=? c)%N && (c <=? 57343)%N then Rejected uri_malformed
      else if (55296 <=? c)%N && (c <=? 56319)%N then
        match r with
        | d :: r' =>
            if (56320 <=? d)%N && (d <=? 57343)%N then
              match encode_units r' with
              | Resolved e =>
                  Resolved
                    (flat_map percent
                       (utf8_bytes ((c - 55296) * 1024 + (d - 56320) + 65536))
                     ++ e)
              | Rejected t => Rejected t
              end
            else Rejected uri_malformed
        | [] => Rejected uri_malformed
        end
      else
        match encode_units r with
        | Resolved e => Resolved (flat_map percent (utf8_bytes c) ++ e)
        | Rejected t => Rejected t
        end
  end.

(** *** Numbers: the binary64 value of a literal, and how it is printed *)

(** A Number as [JSON.parse] and [StringToNumber] make it: [Finite]
    stands for [m × 2^e], with [m] below 2^53 and [e] from -1074 to 971. *)
Inductive Number : Type :=
| NaN
| Infinity (negative : bool)
| Finite (negative : bool) (m e : Z).

Fixpoint digits_value (ds : jsstring) (acc : Z) : Z :=
  match ds with
  | [] => acc
  | c :: r => digits_value r (10 * acc + Z.of_N (c - 48))%Z
  end.

(** An unsigned decimal literal -- digits, a fraction, an exponent, with
    a digit before the exponent at least -- as a pair [(m, x)] that stands
    for [m × 10^x]. *)
Definition scan_decimal (s : jsstring) : option (Z * Z) :=
  let '(ip, s1) := span_digits s in
  let '(fp, s2) :=
    match s1 with
    | 46%N :: r => span_digits r
    | _ => ([], s1)
    end in
  match ip ++ fp with
  | [] => None
  | ds =>
      let m := digits_value ds 0 in
      let shift := Z.of_nat (List.length fp) in
      match s2 with
      | [] => Some (m, (- shift)%Z)
      | e :: r =>
          if (e =? 101)%N || (e =? 69)%N then
            let '(neg, r1) :=
              match r with
              | 43%N :: r' => (false, r')
              | 45%N :: r' => (true, r')
              | _ => (false, r)
              end in
            match span_digits r1 with
            | ((_ :: _) as es, []) =>
                let x := digits_value es 0 in
                Some (m, ((if neg then - x else x) - shift)%Z)
            | _ => None
            end
          else None
      end
  end.

(** [a / b] to the nearest integer, a tie to the even one. *)
Definition round_div (a b : Z) : Z :=
  let q := (a / b)%Z in
  match (2 * (a mod b) ?= b)%Z with
  | Lt => q
  | Gt => (q + 1)%Z
  | Eq => if Z.even q then q else (q + 1)%Z
  end.

(** [a / b / 2^e] as a fraction. *)
Definition over_power (a b e : Z) : Z * Z :=
  if (0 <=? e)%Z then (a, (b * 2 ^ e)%Z) else ((a * 2 ^ (- e))%Z, b).

(** The binary64 number nearest to [a / b], for [a >= 0] and [b > 0]:
    53 bits where the exponent allows, fewer below 2^-1022; a tie goes to
    the even significand; beyond the largest number, infinity. *)
Definition nearest (negative : bool) (a b : Z) : Number :=
  if (a =? 0)%Z then Finite negative 0 0
  else
    let e1 := (Z.log2 a - Z.log2 b - 52)%Z in
    let '(n1, d1) := over_power a b e1 in
    let e2 := if (2 ^ 52 * d1 <=? n1)%Z then e1 else (e1 - 1)%Z in
    let e3 := Z.max e2 (-1074) in
    let '(n3, d3) := over_power a b e3 in
    let m := round_div n3 d3 in
    let '(m4, e4) :=
      if (m =? 2 ^ 53)%Z then ((2 ^ 52)%Z, (e3 + 1)%Z) else (m, e3) in
    if (m4 =? 0)%Z then Finite negative 0 0
    else if (971 <? e4)%Z then Infinity negative
    else Finite negative m4 e4.

Definition of_decimal (negative : bool) (d : Z * Z) : Number :=
  let '(m, x) := d in
  if (0 <=? x)%Z then nearest negative (m * 10 ^ x) 1
  else nearest negative m (10 ^ (- x)).

(** The Number of a JSON number. *)
Definition of_lexeme (lexeme : jsstring) : Number :=
  let '(negative, s) :=
    match lexeme with
    | 45%N :: r => (true, r)
    | _ => (false, lexeme)
    end in
  match scan_decimal s with
  | Some d => of_decimal negative d
  | None => NaN
  end.

(** [p / q < 10^n] *)
Definition below_power (p q n : Z) : bool :=
  if (0 <=? n)%Z then (p <? q * 10 ^ n)%Z else (p * 10 ^ (- n) <? q)%Z.

Fixpoint settle (fuel : nat) (p q n : Z) : Z :=
  match fuel with
  | O => n
  | S f =>
      if negb (below_power p q n) then settle f p q (n + 1)%Z
      else if below_power p q (n - 1) then settle f p q (n - 1)%Z
      else n
  end.

(** The [n] with [10^(n-1) <= p / q < 10^n], from an estimate by the
    binary logarithms. *)
Definition decimal_exponent (p q : Z) : Z :=
  settle 8 p q (((Z.log2 p - Z.log2 q) * 30103) / 100000)%Z.

(** [p / q / 10^x] as a fraction. *)
Definition to_scale (p q x : Z) : Z * Z :=
  if (0 <=? x)%Z then (p, (q * 10 ^ x)%Z) else ((p * 10 ^ (- x))%Z, q).

(** Whether [s × 10^x] is read back as [m × 2^e]. *)
Definition reads_back (m e s x : Z) : bool :=
  match of_decimal false (s, x) with
  | Finite _ m' e' => (m' =? m)%Z && (e' =? e)%Z
  | _ => false
  end.

(** [Number::toString], the choice of the digits: the least [k] for which
    some [s] of [k] digits has [s × 10^(n-k)] read back as the number, and
    for that [k] the [s] nearest to the number.  Of the multiples of
    [10^(n-k)] only the two around the number can be the nearest. *)
Fixpoint shortest (fuel : nat) (k m e p q n : Z) : Z * Z :=
  match fuel with
  | O => (0%Z, n)
  | S f =>
      let '(a, b) := to_scale p q (n - k) in
      let lo := (a / b)%Z in
      let hi := (lo + 1)%Z in
      let up := if (hi =? 10 ^ k)%Z then ((10 ^ (k - 1))%Z, (n + 1)%Z)
                else (hi, n) in
      match reads_back m e lo (n - k), reads_back m e hi (n - k) with
      | true, true =>
          match (2 * (a - lo * b) ?= b)%Z with
          | Lt => (lo, n)
          | Gt => up
          | Eq => if Z.even lo then (lo, n) else up
          end
      | true, false => (lo, n)
      | false, true => up
      | false, false => shortest f (k + 1)%Z m e p q n
      end
  end.

Definition decimal_digits (s : Z) : jsstring :=
  js (DecimalString.NilZero.string_of_uint (N.to_uint (Z.to_N s))).

(** [Number::toString], the layout of the digits [ds] of a number below
    [10^n]. *)
Definition layout (ds : jsstring) (n : Z) : jsstring :=
  let k := Z.of_nat (List.length ds) in
  if (k <=? n)%Z && (n <=? 21)%Z then ds ++ repeat 48%N (Z.to_nat (n - k))
  else if (0 <? n)%Z && (n <=? 21)%Z then
    firstn (Z.to_nat n) ds ++ js "." ++ skipn (Z.to_nat n) ds
  else if (-6 <? n)%Z && (n <=? 0)%Z then
    js "0." ++ repeat 48%N (Z.to_nat (- n)) ++ ds
  else
    let exponent :=
      js "e" ++ (if (n - 1 <? 0)%Z then js "-" else js "+")
      ++ decimal_digits (Z.abs (n - 1)) in
    match ds with
    | [] => []
    | [d] => d :: exponent
    | d :: rest => d :: js "." ++ rest ++ exponent
    end.

(** [Number::toString] with radix 10. *)
Definition number_to_string (x : Number) : jsstring :=
  match x with
  | NaN => js "NaN"
  | Infinity negative => (if negative then js "-" else []) ++ js "Infinity"
  | Finite negative m e =>
      if (m =? 0)%Z then js "0"
      else
        let '(p, q) := over_power m 1 (- e) in
        let '(s, n) := shortest 17 1 m e p q (decimal_exponent p q) in
        (if negative then js "-" else []) ++ layout (decimal_digits s) n
  end.

(** [x > n] *)
Definition greater (x : Number) (n : N) : bool :=
  match x with
  | NaN => false
  | Infinity negative => negb negative
  | Finite negative m e =>
      negb negative
      && let '(p, q) := over_power m 1 (- e) in (Z.of_N n * q <? p)%Z
  end.

Fixpoint radix_value (radix : N) (s : jsstring) (acc : Z) : option Z :=
  match s with
  | [] => Some acc
  | c :: r =>
      match hex_value c with
      | Some d =>
          if (d <? radix)%N then
            radix_value radix r (Z.of_N radix * acc + Z.of_N d)%Z
          else None
      | None => None
      end
  end.

Definition of_radix (radix : N) (s : jsstring) : Number :=
  match s with
  | [] => NaN
  | _ =>
      match radix_value radix s 0 with
      | Some v => nearest false v 1
      | None => NaN
      end
  end.

Definition of_signed (negative : bool) (s : jsstring) : Number :=
  if str_eqb s (js "Infinity") then Infinity negative
  else
    match scan_decimal s with
    | Some d => of_decimal negative d
    | None => NaN
    end.

(** [StringToNumber]: white space around is dropped; the empty string is
    0; a literal in base 16, 8 or 2 has no sign; what is no literal is
    [NaN]. *)
Definition string_to_number (s : jsstring) : Number :=
  match trim s with
  | [] => Finite false 0 0
  | 43%N :: r => of_signed false r
  | 45%N :: r => of_signed true r
  | 48%N :: x :: r =>
      if (x =? 120)%N || (x =? 88)%N then of_radix 16 r
      else if (x =? 111)%N || (x =? 79)%N then of_radix 8 r
      else if (x =? 98)%N || (x =? 66)%N then of_radix 2 r
      else of_signed false (48%N :: x :: r)
  | t => of_signed false t
  end.

#[export] Instance demo_host : Host := {
  JSON_parse := json_parse;
  Number_toString := fun lexeme => number_to_string (of_lexeme lexeme);
  encodeURIComponent := encode_units;
  Number_exceeds := fun lexeme n => greater (of_lexeme lexeme) n;
  StringToNumber_exceeds := fun s n => greater (string_to_number s) n
}.

(** *** A world that plays two scripts *)

(** The outcomes of the model calls and of the HTTP requests, in the
    order they will be made; once a script is used up the network is
    down. *)
Record Script : Type := {
  model_script : list (Outcome Message);
  http_script : list (Outcome FetchResponse)
}.

Definition connection_error : Thrown := ErrorObj (js "Connection error.").
Definition fetch_failed : Thrown := ErrorObj (js "fetch failed").

#[export] Instance scripted : World Script := {
  messages_create := fun _ w =>
    match model_script w with
    | [] => (Rejected connection_error, w)
    | r :: rest =>
        (r, {| model_script := rest; http_script := http_script w |})
    end;
  fetch := fun _ w =>
    match http_script w with
    | [] => (Rejected fetch_failed, w)
    | r :: rest =>
        (r, {| model_script := model_script w; http_script := rest |})
    end
}.

End Demo.

(* ------------------------------------------------------------------ *)
(** ** The protocol of the event stream *)

(** Where a run stands, told from the events it has emitted. *)
Inductive Phase : Type :=
| Idle | Planning | Planned | Delegated | Researching | Researched
| Reviewed | SynthDelegated | Synthesizing | Synthesized | Finished | Failed.

(** The phases in which the handler can fail: a model or a tool is
    awaited ([Planning], [Researching], [Synthesizing]), or an instruction
    is built from a field of the plan ([Planned], [Reviewed]). *)
Definition working (ph : Phase) : bool :=
  match ph with
  | Planning | Planned | Researching | Reviewed | Synthesizing => true
  | _ => false
  end.

(** The order in which the handler emits. *)
Definition step (ph : Phase) (e : AgentEvent) : option Phase :=
  match ph, e with
  | Idle, supervisor_start _ => Some Planning
  | Planning, supervisor_plan _ _ => Some Planned
  | Planned, supervisor_delegate to_researcher _ => Some Delegated
  | Delegated, researcher_start => Some Researching
  | Researching, researcher_thinking _ => Some Researching
  | Researching, researcher_tool_call _ _ => Some Researching
  | Researching, researcher_tool_result _ _ _ => Some Researching
  | Researching, researcher_done => Some Researched
  | Researched, supervisor_review _ => Some Reviewed
  | Reviewed, supervisor_delegate to_synthesizer _ => Some SynthDelegated
  | SynthDelegated, synthesizer_start => Some Synthesizing
  | Synthesizing, synthesizer_done _ => Some Synthesized
  | Synthesized, supervisor_done => Some Finished
  | Planning, error _ => Some Failed
  | Planned, error _ => Some Failed
  | Researching, error _ => Some Failed
  | Reviewed, error _ => Some Failed
  | Synthesizing, error _ => Some Failed
  | _, _ => None
  end.

(** The order as the specification words it: no review event between
    research-done and the delegation to the synthesizer, and an error event
    allowed wherever the run has not ended. *)
Definition spec_step (ph : Phase) (e : AgentEvent) : option Phase :=
  match ph, e with
  | Idle, supervisor_start _ => Some Planning
  | Planning, supervisor_plan _ _ => Some Planned
  | Planned, supervisor_delegate to_researcher _ => Some Delegated
  | Delegated, researcher_start => Some Researching
  | Researching, researcher_thinking _ => Some Researching
  | Researching, researcher_tool_call _ _ => Some Researching
  | Researching, researcher_tool_result _ _ _ => Some Researching
  | Researching, researcher_done => Some Researched
  | Researched, supervisor_delegate to_synthesizer _ => Some SynthDelegated
  | SynthDelegated, synthesizer_start => Some Synthesizing
  | Synthesizing, synthesizer_done _ => Some Synthesized
  | Synthesized, supervisor_done => Some Finished
  | Finished, error _ => None
  | Failed, error _ => None
  | _, error _ => Some Failed
  | _, _ => None
  end.

Fixpoint run_trace (delta : Phase -> AgentEvent -> option Phase)
    (ph : Phase) (evs : list AgentEvent) : option Phase :=
  match evs with
  | [] => Some ph
  | e :: rest =>
      match delta ph e with
      | Some ph' => run_trace delta ph' rest
      | None => None
      end
  end.

(** The specification's sentence on the order of events. *)
Definition spec_order (evs : list AgentEvent) : bool :=
  match run_trace spec_step Idle evs with
  | Some Finished | Some Failed => true
  | _ => false
  end.

Definition research_progress (e : AgentEvent) : bool :=
  match e with
  | researcher_thinking _ | researcher_tool_call _ _
  | researcher_tool_result _ _ _ => true
  | _ => false
  end.

(** The events of a run that reached its end. *)
Definition complete_run (evs : list AgentEvent) : Prop :=
  exists m searchTerm responseFormat i1 mid m2 i2 answer,
    evs = [supervisor_start m; supervisor_plan searchTerm responseFormat;
           supervisor_delegate to_researcher i1; researcher_start]
          ++ mid
          ++ [researcher_done; supervisor_review m2;
              supervisor_delegate to_synthesizer i2; synthesizer_start;
              synthesizer_done answer; supervisor_done]
    /\ forallb research_progress mid = true.

Definition is_error (e : AgentEvent) : bool :=
  match e with error _ => true | _ => false end.

Definition is_synthesizer_done (e : AgentEvent) : bool :=
  match e with synthesizer_done _ => true | _ => false end.

Definition is_supervisor_done (e : AgentEvent) : bool :=
  match e with supervisor_done => true | _ => false end.

Definition is_tool_call (e : AgentEvent) : bool :=
  match e with researcher_tool_call _ _ => true | _ => false end.

Definition is_tool_result (e : AgentEvent) : bool :=
  match e with researcher_tool_result _ _ _ => true | _ => false end.

(** How far an event is along the run: the rank of the phase it leads to. *)
Definition rank (ph : Phase) : nat :=
  match ph with
  | Idle => 0 | Planning => 1 | Planned => 2 | Delegated => 3
  | Researching => 4 | Researched => 5 | Reviewed => 6
  | SynthDelegated => 7 | Synthesizing => 8 | Synthesized => 9
  | Finished => 10 | Failed => 11
  end.

(* ------------------------------------------------------------------ *)
(** ** The conversation history of the researcher *)







(** The histories sent with the researcher's calls, in order. *)
Definition researcher_histories (o : list Action) : list (list MessageParam) :=
  flat_map (fun a => match a with
                     | ModelCall p _ =>
                         match system p with
                         | researcher => [messages p]
                         | _ => []
                         end
                     | _ => []
                     end) o.


(** The identifiers of the tool invocation requests of a response. *)
Definition request_ids (blocks : list ContentBlock) : list jsstring :=
  flat_map (fun b => match b with
                     | ToolUseBlock id _ _ => [id]
                     | _ => []
                     end) blocks.

(** The requests of a response as a tool-call event shows them. *)
Definition request_calls (blocks : list ContentBlock) : list AgentEvent :=
  flat_map (fun b => match b with
                     | ToolUseBlock _ name input =>
                         [researcher_tool_call name input]
                     | _ => []
                     end) blocks.

(** The events [emit_thinking] writes. *)
Definition thinking_events (blocks : list ContentBlock) : list AgentEvent :=
  flat_map (fun b => match b with
                     | TextBlock text =>
                         if truthy (trim text) then [researcher_thinking text]
                         else []
                     | _ => []
                     end) blocks.

(** The tool invocation requests the model made in the responses that
    stopped for tool use, as tool-call events. *)
Definition requested (o : list Action) : list AgentEvent :=
  flat_map (fun a => match a with
                     | ModelCall _ (Resolved m) =>
                         if is_tool_use_stop (stop_reason m)
                         then request_calls (content m)
                         else []
                     | _ => []
                     end) o.

(** All the tool invocation requests the model made, whatever the stop
    reason of the response that carries them. *)
Definition requested_any (o : list Action) : list AgentEvent :=
  flat_map (fun a => match a with
                     | ModelCall _ (Resolved m) => request_calls (content m)
                     | _ => []
                     end) o.

(** A preview that is a cut of the result: a proper prefix and the
    ellipsis. *)
Definition truncation_of (preview result : jsstring) : Prop :=
  exists n, n < str_length result /\ preview = firstn n result ++ ellipsis.

(** The protocol over all the actions of a run: besides the order of the
    events, each agent's model is called only while that agent works, the
    tools reach Wikipedia only during research, and the body of the [try]
    never closes the stream. *)
Definition act (ph : Phase) (a : Action) : option Phase :=
  match a with
  | Emit e => step ph e
  | ModelCall p _ =>
      match ph, system p with
      | Planning, supervisor => Some ph
      | Researching, researcher => Some ph
      | Synthesizing, synthesizer => Some ph
      | _, _ => None
      end
  | HttpGet _ _ =>
      match ph with
      | Researching => Some ph
      | _ => None
      end
  | Close => None
  end.

Fixpoint run_actions (ph : Phase) (o : list Action) : option Phase :=
  match o with
  | [] => Some ph
  | a :: rest =>
      match act ph a with
      | Some ph' => run_actions ph' rest
      | None => None
      end
  end.

Section Protocol.
Context {W : Type}.

(** [m] takes the run from phase [p] to phase [q] when it returns, and
    leaves it in a working phase when it throws or is still looping. *)
Definition follows {A} (p q : Phase) (m : M W A) : Prop :=
  forall w,
    match m w with
    | (Ret _, _, o) => run_actions p o = Some q
    | (_, _, o) => exists p', run_actions p o = Some p' /\ working p' = true
    end.


(** Every action of [m] passes [f]. *)
Definition all_actions (f : Action -> bool) A (m : M W A) : Prop :=
  forall w, forallb f (snd (m w)) = true.
End Protocol.

(** Anything but a call of the researcher's model. *)
Definition no_researcher_call (a : Action) : bool :=
  match a with
  | ModelCall p _ =>
      match system p with
      | researcher => false
      | _ => true
      end
  | _ => true
  end.



(** The actions of a tool: requests to Wikipedia and events. *)
Definition tool_action (a : Action) : bool :=
  match a with
  | HttpGet _ _ => true
  | Emit (researcher_tool_call _ _) => true
  | Emit (researcher_tool_result _ _ _) => true
  | _ => false
  end.


(* ------------------------------------------------------------------ *)
(** ** Concrete runs *)

Module Scenario.
Import Demo.

Definition quoted (s : jsstring) : jsstring := dquote ++ s ++ dquote.

Definition req : Request :=
  {| question := js "What is X?";
     supervisorModel := js "claude-opus-4-6";
     researcherModel := js "claude-sonnet-4-6";
     synthesizerModel := js "claude-haiku-4-5-20251001" |}.

Definition reply (blocks : list ContentBlock) (stop : StopReason)
  : Outcome Message :=
  Resolved {| content := blocks; stop_reason := Some stop |}.

Definition served (data : json) : Outcome FetchResponse :=
  Resolved {| ok := true; json_body := Resolved data |}.

(** A 404 with an HTML body, which [res.json()] would reject. *)
Definition refused : Outcome FetchResponse :=
  Resolved {| ok := false;
              json_body := Rejected (ErrorObj (js "Unexpected token <")) |}.

(** [{"search_term":"X","response_format":"short summary"}] *)
Definition plan_text : jsstring :=
  js "{" ++ quoted (js "search_term") ++ js ":" ++ quoted (js "X") ++ js ","
  ++ quoted (js "response_format") ++ js ":" ++ quoted (js "short summary")
  ++ js "}".

Definition search_X : ContentBlock :=
  ToolUseBlock (js "toolu_01") (js "search_wikipedia") [(js "query", js "X")].

Definition article_X : ContentBlock :=
  ToolUseBlock (js "toolu_02") (js "get_wikipedia_article")
    [(js "title", js "X")].

(** [{"title":"X","excerpt":"the <b>letter</b> X"}] *)
Definition page_X : json :=
  JObj [(js "title", JStr (js "X"));
        (js "excerpt", JStr (js "the <b>letter</b> X"))].

(** [{"pages":[...]}] *)
Definition found (pages : list json) : json :=
  JObj [(js "pages", JArr pages)].

(** [{"extract":"..."}] *)
Definition summary (extract : jsstring) : json :=
  JObj [(js "extract", JStr extract)].

(** The scenario of the specification: one search with one candidate, one
    article, a final text, the synthesis. *)
Definition world_ok : Script :=
  {| model_script :=
       [reply [TextBlock plan_text] end_turn;
        reply [TextBlock (js "Let me search."); search_X] tool_use;
        reply [article_X] tool_use;
        reply [TextBlock (js "X is ...")] end_turn;
        reply [TextBlock (js "# X")] end_turn];
     http_script :=
       [served (found [page_X]);
        served (summary (js "X is a letter."))] |}.

(** The same world once the plan is made: the researcher is next. *)
Definition world_researching : Script :=
  {| model_script := tl (model_script world_ok);
     http_script := http_script world_ok |}.

Definition seed_X : list MessageParam :=
  [{| role := user; turn := Prompt (researcher_seed (js "X")) |}].

(** A world in which the researcher is about to give its final text. *)
Definition world_concluding : Script :=
  {| model_script :=
       [reply [TextBlock (js "X is ...")] end_turn;
        reply [TextBlock (js "# X")] end_turn];
     http_script := [] |}.

(** A world in which only the synthesis is left. *)
Definition world_synthesizing : Script :=
  {| model_script := [reply [TextBlock (js "# X")] end_turn];
     http_script := [] |}.

(** The planner answers in prose. *)
Definition world_prose : Script :=
  {| model_script :=
       [reply [TextBlock (js "I would look up the letter X.")] end_turn;
        reply [TextBlock (js "X is ...")] end_turn;
        reply [TextBlock (js "# X")] end_turn];
     http_script := [] |}.

(** The planner answers with a JSON object that has neither field. *)
Definition world_empty_object : Script :=
  {| model_script :=
       [reply [TextBlock (js "{}")] end_turn;
        reply [TextBlock (js "X is ...")] end_turn;
        reply [TextBlock (js "# X")] end_turn];
     http_script := [] |}.

(** [{"toString":1}] *)
Definition with_toString : jsstring :=
  js "{" ++ quoted (js "toString") ++ js ":1}".

(** The planner gives an object with a member [toString] as search term. *)
Definition world_term_object : Script :=
  {| model_script :=
       [reply [TextBlock
                 (js "{" ++ quoted (js "search_term") ++ js ":"
                  ++ with_toString ++ js ","
                  ++ quoted (js "response_format") ++ js ":"
                  ++ quoted (js "short summary") ++ js "}")] end_turn;
        reply [TextBlock (js "X is ...")] end_turn;
        reply [TextBlock (js "# X")] end_turn];
     http_script := [] |}.

(** The planner gives such an object as response format. *)
Definition world_format_object : Script :=
  {| model_script :=
       [reply [TextBlock
                 (js "{" ++ quoted (js "search_term") ++ js ":"
                  ++ quoted (js "X") ++ js ","
                  ++ quoted (js "response_format") ++ js ":"
                  ++ with_toString ++ js "}")] end_turn;
        reply [TextBlock (js "X is ...")] end_turn;
        reply [TextBlock (js "# X")] end_turn];
     http_script := [] |}.

(** The planner answers with the JSON text [null]. *)
Definition world_null : Script :=
  {| model_script :=
       [reply [TextBlock (js "null")] end_turn;
        reply [TextBlock (js "X is ...")] end_turn;
        reply [TextBlock (js "# X")] end_turn];
     http_script := [] |}.

(** The model client throws on the synthesis call. *)
Definition world_synth_throws : Script :=
  {| model_script :=
       [reply [TextBlock plan_text] end_turn;
        reply [TextBlock (js "X is ...")] end_turn;
        Rejected (ErrorObj (js "529 Overloaded"))];
     http_script := [] |}.

(** Wikipedia cannot be reached: [fetch] rejects. *)
Definition world_unreachable : Script :=
  {| model_script :=
       [reply [TextBlock plan_text] end_turn;
        reply [search_X] tool_use;
        reply [TextBlock (js "X is ...")] end_turn;
        reply [TextBlock (js "# X")] end_turn];
     http_script := [] |}.

(** The article does not exist: Wikipedia answers 404. *)
Definition world_missing_article : Script :=
  {| model_script :=
       [reply [TextBlock plan_text] end_turn;
        reply [article_X] tool_use;
        reply [TextBlock (js "Nothing found.")] end_turn;
        reply [TextBlock (js "# X")] end_turn];
     http_script := [refused] |}.

(** The researcher's response is cut off by the token limit while it
    carries a tool invocation request. *)
Definition world_cut_off : Script :=
  {| model_script :=
       [reply [TextBlock plan_text] end_turn;
        reply [TextBlock (js "Let me search."); search_X] max_tokens_reached;
        reply [TextBlock (js "# X")] end_turn];
     http_script := [] |}.

(** The synthesizer's response opens with a block that is not text. *)
Definition thinking_then_text : list ContentBlock :=
  [OtherBlock (js "thinking"); TextBlock (js "# X")].

Definition world_thinking_first : Script :=
  {| model_script :=
       [reply [TextBlock plan_text] end_turn;
        reply [TextBlock (js "X is ...")] end_turn;
        reply thinking_then_text end_turn];
     http_script := [] |}.

(** A response that asks for three tools at once. *)
Definition search_Y : ContentBlock :=
  ToolUseBlock (js "toolu_03") (js "search_wikipedia") [(js "query", js "Y")].

Definition three_requests : list ContentBlock :=
  [search_X; article_X; search_Y].

(** Wikipedia answers the first of the three requests; the second
    [fetch] rejects. *)
Definition world_second_fails : Script :=
  {| model_script :=
       [reply [TextBlock plan_text] end_turn;
        reply three_requests tool_use;
        reply [TextBlock (js "X is ...")] end_turn;
        reply [TextBlock (js "# X")] end_turn];
     http_script := [served (found [page_X])] |}.

(** A search whose single hit has a title of 130 letters. *)
Definition long_title : jsstring := repeat 88%N 130.

Definition world_long_title : Script :=
  {| model_script := [];
     http_script :=
       [served (found [JObj [(js "title", JStr long_title)]])] |}.

(** An article of 200 letters. *)
Definition long_article : jsstring := repeat 88%N 200.

Definition world_long_article : Script :=
  {| model_script := [];
     http_script := [served (summary long_article)] |}.

End Scenario.

(* ------------------------------------------------------------------ *)
(** ** What a run does to the outside: measures of a trace *)

Section Measures.
Context {W : Type}.

(** The trace of any run of [m] satisfies [P]. *)
Definition traces_satisfy (P : list Action -> Prop) A (m : M W A) : Prop :=
  forall w, P (snd (m w)).
End Measures.

(** The addresses the handler calls [fetch] with, in order. *)
Definition http_requests (o : list Action) : list jsstring :=
  flat_map (fun a => match a with HttpGet url _ => [url] | _ => [] end) o.

(** [s.startsWith(p)] *)
Fixpoint startsWith (p s : jsstring) : bool :=
  match p, s with
  | [], _ => true
  | x :: p', y :: s' => (x =? y)%N && startsWith p' s'
  | _ :: _, [] => false
  end.

Definition wikipedia : jsstring := js "https://en.wikipedia.org/".

(** Not a call of [fetch], or a call of [fetch] for Wikipedia. *)
Definition to_wikipedia (a : Action) : bool :=
  match a with
  | HttpGet url _ => startsWith wikipedia url
  | _ => true
  end.

(** No more calls of [fetch] than tool-call events. *)
Definition one_request_per_call (o : list Action) : Prop :=
  List.length (http_requests o)
  <= List.length (filter is_tool_call (events o)).

(** A model call made as the request configures it: the model chosen for
    the agent whose instructions are sent, that agent's token limit, and
    the tools for the researcher alone. *)
Definition as_configured (req : Request) (a : Action) : Prop :=
  match a with
  | ModelCall p _ =>
      match system p with
      | supervisor =>
          model p = supervisorModel req /\ max_tokens p = 512%N
          /\ tools p = None
      | researcher =>
          model p = researcherModel req /\ max_tokens p = 2048%N
          /\ tools p = Some RESEARCHER_TOOLS
      | synthesizer =>
          model p = synthesizerModel req /\ max_tokens p = 1500%N
          /\ tools p = None
      end
  | _ => True
  end.

(** The actions the handler is written to make: events, the three model
    calls as it builds them, requests to the two Wikipedia addresses, and
    the closing of the stream. *)
Definition handler_action (req : Request) (a : Action) : Prop :=
  match a with
  | Emit _ => True
  | ModelCall p _ =>
      p = supervisor_request req
      \/ (exists history, p = researcher_request (researcherModel req) history)
      \/ (exists prompt, p = synthesizer_request req prompt)
  | HttpGet url _ => exists q, url = search_url q \/ url = summary_url q
  | Close => True
  end.

(** [researchSummary] after the actions [o], from its value [start]
    before them: the loop assigns it the first text of a response of the
    researcher; the last response is the one that ends the loop. *)
Definition findings (o : list Action) (start : jsstring) : jsstring :=
  fold_left (fun acc a => match a with
                          | ModelCall p (Resolved m) =>
                              match system p with
                              | researcher => first_text (content m)
                              | _ => acc
                              end
                          | _ => acc
                          end) o start.

(** A model that never tires of its tools: every call is answered, with
    an empty response that asks for tools. *)
#[export] Instance tireless : World unit := {
  messages_create := fun _ w =>
    (Resolved {| content := []; stop_reason := Some tool_use |}, w);
  fetch := fun _ w => (Rejected (ErrorObj (js "fetch failed")), w)
}.

(* ------------------------------------------------------------------ *)
(** ** The page that reads the stream: [handleSubmit] of [app/page.tsx] *)

(** The frame [emit] enqueues for an event whose [JSON.stringify] is
    [text]: [`data: ${text}\n\n`]. *)
Definition frame (text : jsstring) : jsstring :=
  js "data: " ++ text ++ newline ++ newline.

(** The name of an agent, as [supervisor_delegate] carries it in [to]. *)
Definition target_name (to : DelegateTarget) : jsstring :=
  match to with
  | to_researcher => js "researcher"
  | to_synthesizer => js "synthesizer"
  end.

Module Client.

(** ['esperando' | 'activo' | 'listo' | 'error'] *)
Inductive AgentStatus : Type := esperando | activo | listo | status_error.

(** [LogLine]; what comes from an event is whatever value the event has
    there. *)
Inductive LogLine : Type :=
| info (text : jsvalue)
| plan (label : jsstring) (value : jsvalue)
| thinking (text : jsvalue)
| tool_call (tool : jsvalue) (param : jsvalue)
| tool_result (preview count : jsvalue)
| success (text : jsstring)
| line_error (text : jsstring).

Record HandoffMessage : Type := {
  from : jsstring;
  to : jsstring;
  fromColor : jsstring;
  toColor : jsstring;
  instructions : jsvalue
}.

(** The state of [Home] that [handleSubmit] writes. *)
Record UI : Type := {
  running : bool;
  done : bool;
  finalAnswer : jsvalue;
  error : jsvalue;
  supervisorStatus : AgentStatus;
  researcherStatus : AgentStatus;
  synthesizerStatus : AgentStatus;
  supervisorLog : list LogLine;
  researcherLog : list LogLine;
  synthesizerLog : list LogLine;
  handoffToResearcher : option HandoffMessage;
  handoffToSynthesizer : option HandoffMessage
}.

(** The page on the screen: [Home] with its state, or nothing once React
    has removed the tree because an exception was thrown while it rendered
    (the page has no error boundary of its own).  The functions passed to
    the setters run during the rendering. *)
Inductive Page : Type :=
| Mounted (u : UI)
| Unmounted (t : Thrown).

Definition setRunning (x : bool) (u : UI) : UI :=
  {| running := x;
     done := done u;
     finalAnswer := finalAnswer u;
     error := error u;
     supervisorStatus := supervisorStatus u;
     researcherStatus := researcherStatus u;
     synthesizerStatus := synthesizerStatus u;
     supervisorLog := supervisorLog u;
     researcherLog := researcherLog u;
     synthesizerLog := synthesizerLog u;
     handoffToResearcher := handoffToResearcher u;
     handoffToSynthesizer := handoffToSynthesizer u |}.

Definition setDone (x : bool) (u : UI) : UI :=
  {| running := running u;
     done := x;
     finalAnswer := finalAnswer u;
     error := error u;
     supervisorStatus := supervisorStatus u;
     researcherStatus := researcherStatus u;
     synthesizerStatus := synthesizerStatus u;
     supervisorLog := supervisorLog u;
     researcherLog := researcherLog u;
     synthesizerLog := synthesizerLog u;
     handoffToResearcher := handoffToResearcher u;
     handoffToSynthesizer := handoffToSynthesizer u |}.

Definition setFinalAnswer (x : jsvalue) (u : UI) : UI :=
  {| running := running u;
     done := done u;
     finalAnswer := x;
     error := error u;
     supervisorStatus := supervisorStatus u;
     researcherStatus := researcherStatus u;
     synthesizerStatus := synthesizerStatus u;
     supervisorLog := supervisorLog u;
     researcherLog := researcherLog u;
     synthesizerLog := synthesizerLog u;
     handoffToResearcher := handoffToResearcher u;
     handoffToSynthesizer := handoffToSynthesizer u |}.

Definition setError (x : jsvalue) (u : UI) : UI :=
  {| running := running u;
     done := done u;
     finalAnswer := finalAnswer u;
     error := x;
     supervisorStatus := supervisorStatus u;
     researcherStatus := researcherStatus u;
     synthesizerStatus := synthesizerStatus u;
     supervisorLog := supervisorLog u;
     researcherLog := researcherLog u;
     synthesizerLog := synthesizerLog u;
     handoffToResearcher := handoffToResearcher u;
     handoffToSynthesizer := handoffToSynthesizer u |}.

Definition setSupervisorStatus (x : AgentStatus) (u : UI) : UI :=
  {| running := running u;
     done := done u;
     finalAnswer := finalAnswer u;
     error := error u;
     supervisorStatus := x;
     researcherStatus := researcherStatus u;
     synthesizerStatus := synthesizerStatus u;
     supervisorLog := supervisorLog u;
     researcherLog := researcherLog u;
     synthesizerLog := synthesizerLog u;
     handoffToResearcher := handoffToResearcher u;
     handoffToSynthesizer := handoffToSynthesizer u |}.

Definition setResearcherStatus (x : AgentStatus) (u : UI) : UI :=
  {| running := running u;
     done := done u;
     finalAnswer := finalAnswer u;
     error := error u;
     supervisorStatus := supervisorStatus u;
     researcherStatus := x;
     synthesizerStatus := synthesizerStatus u;
     supervisorLog := supervisorLog u;
     researcherLog := researcherLog u;
     synthesizerLog := synthesizerLog u;
     handoffToResearcher := handoffToResearcher u;
     handoffToSynthesizer := handoffToSynthesizer u |}.

Definition setSynthesizerStatus (x : AgentStatus) (u : UI) : UI :=
  {| running := running u;
     done := done u;
     finalAnswer := finalAnswer u;
     error := error u;
     supervisorStatus := supervisorStatus u;
     researcherStatus := researcherStatus u;
     synthesizerStatus := x;
     supervisorLog := supervisorLog u;
     researcherLog := researcherLog u;
     synthesizerLog := synthesizerLog u;
     handoffToResearcher := handoffToResearcher u;
     handoffToSynthesizer := handoffToSynthesizer u |}.

Definition setSupervisorLog (x : list LogLine) (u : UI) : UI :=
  {| running := running u;
     done := done u;
     finalAnswer := finalAnswer u;
     error := error u;
     supervisorStatus := supervisorStatus u;
     researcherStatus := researcherStatus u;
     synthesizerStatus := synthesizerStatus u;
     supervisorLog := x;
     researcherLog := researcherLog u;
     synthesizerLog := synthesizerLog u;
     handoffToResearcher := handoffToResearcher u;
     handoffToSynthesizer := handoffToSynthesizer u |}.

Definition setResearcherLog (x : list LogLine) (u : UI) : UI :=
  {| running := running u;
     done := done u;
     finalAnswer := finalAnswer u;
     error := error u;
     supervisorStatus := supervisorStatus u;
     researcherStatus := researcherStatus u;
     synthesizerStatus := synthesizerStatus u;
     supervisorLog := supervisorLog u;
     researcherLog := x;
     synthesizerLog := synthesizerLog u;
     handoffToResearcher := handoffToResearcher u;
     handoffToSynthesizer := handoffToSynthesizer u |}.

Definition setSynthesizerLog (x : list LogLine) (u : UI) : UI :=
  {| running := running u;
     done := done u;
     finalAnswer := finalAnswer u;
     error := error u;
     supervisorStatus := supervisorStatus u;
     researcherStatus := researcherStatus u;
     synthesizerStatus := synthesizerStatus u;
     supervisorLog := supervisorLog u;
     researcherLog := researcherLog u;
     synthesizerLog := x;
     handoffToResearcher := handoffToResearcher u;
     handoffToSynthesizer := handoffToSynthesizer u |}.

Definition setHandoffToResearcher (x : option HandoffMessage) (u : UI) : UI :=
  {| running := running u;
     done := done u;
     finalAnswer := finalAnswer u;
     error := error u;
     supervisorStatus := supervisorStatus u;
     researcherStatus := researcherStatus u;
     synthesizerStatus := synthesizerStatus u;
     supervisorLog := supervisorLog u;
     researcherLog := researcherLog u;
     synthesizerLog := synthesizerLog u;
     handoffToResearcher := x;
     handoffToSynthesizer := handoffToSynthesizer u |}.

Definition setHandoffToSynthesizer (x : option HandoffMessage) (u : UI) : UI :=
  {| running := running u;
     done := done u;
     finalAnswer := finalAnswer u;
     error := error u;
     supervisorStatus := supervisorStatus u;
     researcherStatus := researcherStatus u;
     synthesizerStatus := synthesizerStatus u;
     supervisorLog := supervisorLog u;
     researcherLog := researcherLog u;
     synthesizerLog := synthesizerLog u;
     handoffToResearcher := handoffToResearcher u;
     handoffToSynthesizer := x |}.

Definition str (s : jsstring) : jsvalue := Some (JStr s).

(** The initial values given to [useState]. *)
Definition initial : UI :=
  {| running := false;
     done := false;
     finalAnswer := str [];
     error := str [];
     supervisorStatus := esperando;
     researcherStatus := esperando;
     synthesizerStatus := esperando;
     supervisorLog := [];
     researcherLog := [];
     synthesizerLog := [];
     handoffToResearcher := None;
     handoffToSynthesizer := None |}.

(** [reset] sets each of them again. *)
Definition reset (u : UI) : UI := initial.

(** [reset(); setRunning(true); setSupervisorStatus('activo');] *)
Definition started (u : UI) : UI :=
  setSupervisorStatus activo (setRunning true (reset u)).

(** [s.split(sep)] for a separator of one code unit: never empty. *)
Fixpoint split (sep : code_unit) (s : jsstring) : list jsstring :=
  match s with
  | [] => [[]]
  | c :: rest =>
      if (c =? sep)%N then [] :: split sep rest
      else
        match split sep rest with
        | piece :: pieces => (c :: piece) :: pieces
        | [] => [[c]]
        end
  end.

(** [lines.pop()]: the array without its last element, and that element
    ([undefined] for an empty array). *)
Definition pop (lines : list jsstring) : list jsstring * option jsstring :=
  match lines with
  | [] => ([], None)
  | _ :: _ => (removelast lines, Some (last lines []))
  end.

(** [if (!line.startsWith('data: ')) continue;
     const raw = line.slice(6).trim();
     if (!raw) continue;] *)
Definition payload (line : jsstring) : option jsstring :=
  if startsWith (js "data: ") line then
    let raw := trim (skipn 6 line) in
    if truthy raw then Some raw else None
  else None.

(** [v === 'literal'] *)
Definition is_string (v : jsvalue) (literal : jsstring) : bool :=
  match v with
  | Some (JStr s) => str_eqb s literal
  | _ => false
  end.

(** [event.name] once [event.type] has been read: [event] is not [null]. *)
Definition field (event : json) (name : jsstring) : jsvalue :=
  match event with
  | JObj ms => lookup_last name ms
  | _ => None
  end.

(** V8's message for a property read on [undefined]. *)
Definition undefined_property_message (name : jsstring) : jsstring :=
  js "Cannot read properties of undefined (reading '" ++ name ++ js "')".

(** [value.name] *)
Definition read (value : jsvalue) (name : jsstring) : Outcome jsvalue :=
  match value with
  | None => Rejected (ErrorObj (undefined_property_message name))
  | Some v => get_prop v name
  end.

(** What [??] replaces. *)
Definition nullish (v : jsvalue) : bool :=
  match v with
  | None | Some JNull => true
  | _ => false
  end.

(** [event.input.query ?? event.input.title ?? ''] *)
Definition tool_param (event : json) : Outcome jsvalue :=
  match read (field event (js "input")) (js "query") with
  | Rejected t => Rejected t
  | Resolved query =>
      if nullish query then
        match read (field event (js "input")) (js "title") with
        | Rejected t => Rejected t
        | Resolved title => Resolved (if nullish title then str [] else title)
        end
      else Resolved query
  end.

(** [(s) => s === 'activo' ? 'error' : s] *)
Definition fail (s : AgentStatus) : AgentStatus :=
  match s with
  | activo => status_error
  | _ => s
  end.

Definition push (line : LogLine) (l : list LogLine) : list LogLine :=
  l ++ [line].

(** A setter of the state: it does nothing once the tree is removed. *)
Definition set_page (f : UI -> UI) (p : Page) : Page :=
  match p with
  | Mounted u => Mounted (f u)
  | Unmounted t => Unmounted t
  end.

(** The cases of [switch (event.type)] on the page that is mounted.  The
    function given to [setResearcherLog] for a tool call reads
    [event.input.query]: when that throws, it throws while React renders,
    and the tree is removed. *)
Definition switch (event : json) (type : jsvalue) (u : UI) : Page :=
  if is_string type (js "supervisor_start") then
    Mounted
      (setSupervisorLog
         (push (info (field event (js "message"))) (supervisorLog u)) u)
  else if is_string type (js "supervisor_plan") then
    Mounted
      (setSupervisorLog
         (supervisorLog u
            ++ [plan (js "Término a investigar")
                  (field event (js "searchTerm"));
                plan (js "Formato de respuesta")
                  (field event (js "responseFormat"))]) u)
  else if is_string type (js "supervisor_delegate") then
    Mounted
      (if is_string (field event (js "to")) (js "researcher") then
         setResearcherStatus activo
           (setSupervisorStatus listo
              (setHandoffToResearcher
                 (Some {| from := js "Supervisor";
                          to := js "Researcher";
                          fromColor := js "text-purple-400";
                          toColor := js "text-emerald-400";
                          instructions :=
                            field event (js "instructions") |})
                 (setSupervisorLog
                    (push
                       (info (str (js "→ Delegando tarea al Researcher...")))
                       (supervisorLog u)) u)))
       else
         setSynthesizerStatus activo
           (setHandoffToSynthesizer
              (Some {| from := js "Supervisor";
                       to := js "Synthesizer";
                       fromColor := js "text-purple-400";
                       toColor := js "text-amber-400";
                       instructions :=
                         field event (js "instructions") |})
              (setSupervisorLog
                 (push
                    (info
                       (str (js "→ Delegando síntesis al Synthesizer...")))
                    (supervisorLog u)) u)))
  else if is_string type (js "supervisor_review") then
    let u1 := setSupervisorStatus activo u in
    Mounted
      (setSupervisorLog
         (push (info (field event (js "message"))) (supervisorLog u1)) u1)
  else if is_string type (js "supervisor_done") then
    let u1 := setSupervisorStatus listo u in
    Mounted
      (setSupervisorLog
         (push (success (js "Pipeline completado con éxito."))
            (supervisorLog u1)) u1)
  else if is_string type (js "researcher_start") then
    Mounted
      (setResearcherLog [info (str (js "Iniciando investigación..."))] u)
  else if is_string type (js "researcher_thinking") then
    Mounted
      (setResearcherLog
         (push (thinking (field event (js "text"))) (researcherLog u)) u)
  else if is_string type (js "researcher_tool_call") then
    match tool_param event with
    | Resolved param =>
        Mounted
          (setResearcherLog
             (push (tool_call (field event (js "tool")) param)
                (researcherLog u)) u)
    | Rejected t => Unmounted t
    end
  else if is_string type (js "researcher_tool_result") then
    Mounted
      (setResearcherLog
         (push (tool_result (field event (js "resultPreview"))
                  (field event (js "count")))
            (researcherLog u)) u)
  else if is_string type (js "researcher_done") then
    Mounted
      (setSupervisorStatus activo
         (setResearcherStatus listo
            (setResearcherLog
               (push
                  (success
                     (js "Investigación completada. Enviando hallazgos al Supervisor."))
                  (researcherLog u)) u)))
  else if is_string type (js "synthesizer_start") then
    Mounted
      (setSynthesizerLog
         [info (str (js "Estructurando la respuesta final..."))] u)
  else if is_string type (js "synthesizer_done") then
    Mounted
      (setFinalAnswer (field event (js "answer"))
         (setSynthesizerStatus listo
            (setSynthesizerLog
               (push (success (js "Síntesis completada."))
                  (synthesizerLog u)) u)))
  else if is_string type (js "error") then
    let u1 := setError (field event (js "message")) u in
    let u2 := setSupervisorStatus (fail (supervisorStatus u1)) u1 in
    let u3 := setResearcherStatus (fail (researcherStatus u2)) u2 in
    Mounted (setSynthesizerStatus (fail (synthesizerStatus u3)) u3)
  else Mounted u.

(** [switch (event.type) { ... }].  Reading [type] of [null] throws, in
    [handleSubmit]; of anything else that is not an object it gives
    [undefined], which is no case of the switch.  Once the tree is
    removed the setters of the cases do nothing. *)
Definition on_event (event : json) (p : Page) : Outcome Page :=
  match get_prop event (js "type") with
  | Rejected t => Rejected t
  | Resolved type =>
      Resolved
        match p with
        | Mounted u => switch event type u
        | Unmounted t => Unmounted t
        end
  end.

Section Reading.
Context {host : Host}.

(** The body of [for (const line of lines)]: a line that is not a frame,
    has no payload, or does not parse is skipped. *)
Definition handle_line (line : jsstring) (u : Page) : Outcome Page :=
  match payload line with
  | None => Resolved u
  | Some raw =>
      match JSON_parse raw with
      | None => Resolved u
      | Some event => on_event event u
      end
  end.

(** [for (const line of lines) { ... }]: the state it reaches, and what
    was thrown when an exception ended it. *)
Fixpoint handle_lines (lines : list jsstring) (u : Page)
  : Page * option Thrown :=
  match lines with
  | [] => (u, None)
  | line :: rest =>
      match handle_line line u with
      | Resolved u' => handle_lines rest u'
      | Rejected t => (u, Some t)
      end
  end.

(** [while (true) { ... }] over the chunks that [reader.read()] gives, as
    the decoder turns them into text, before the stream is done or, when
    [failure] is an exception, before a read rejects with it. *)
Fixpoint read_stream (chunks : list jsstring) (failure : option Thrown)
    (buffer : jsstring) (u : Page) : Page * option Thrown :=
  match chunks with
  | [] => (u, failure)
  | value :: rest =>
      let '(lines, last_line) := pop (split 10%N (buffer ++ value)) in
      match handle_lines lines u with
      | (u', None) =>
          read_stream rest failure
            (match last_line with Some l => l | None => [] end) u'
      | (u', Some t) => (u', Some t)
      end
  end.

(** What [fetch('/api/research', ...)] comes to: a rejection, or a
    response with its [ok], its [status] and, when it has a body, the
    chunks read from it. *)
Inductive FetchOutcome : Type :=
| fetch_rejected (t : Thrown)
| fetch_resolved (ok : bool) (status : N)
    (body : option (list jsstring * option Thrown)).

(** [`HTTP ${res.status}`] *)
Definition http_error (status : N) : Thrown :=
  ErrorObj (js "HTTP "
            ++ js (DecimalString.NilZero.string_of_uint (N.to_uint status))).

(** The [try] block of [handleSubmit]. *)
Definition receive (net : FetchOutcome) (u : Page)
  : Page * option Thrown :=
  match net with
  | fetch_rejected t => (u, Some t)
  | fetch_resolved ok status body =>
      if negb ok then (u, Some (http_error status))
      else
        match body with
        | None => (u, Some (ErrorObj (js "Sin stream")))
        | Some (chunks, failure) => read_stream chunks failure [] u
        end
  end.

(** [handleSubmit], for the question in the form and the state the page
    is in when the form is submitted. *)
Definition handleSubmit (question : jsstring) (net : FetchOutcome) (u : UI)
  : Page :=
  if negb (truthy (trim question)) || running u then Mounted u
  else
    let '(p1, thrown) := receive net (Mounted (started u)) in
    let p2 := match thrown with
              | None => set_page (setDone true) p1
              | Some err => set_page (setError (str (error_message err))) p1
              end in
    set_page (setRunning false) p2.
End Reading.

Definition statuses (u : UI) : AgentStatus * AgentStatus * AgentStatus :=
  (supervisorStatus u, researcherStatus u, synthesizerStatus u).

(** The lines of a text that end in a line feed. *)
Definition complete_lines (s : jsstring) : list jsstring :=
  fst (pop (split 10%N s)).

(** The payloads of the lines that have one. *)
Definition payloads (lines : list jsstring) : list jsstring :=
  flat_map (fun line => match payload line with
                        | Some raw => [raw]
                        | None => []
                        end) lines.

(** The values [JSON.parse] gives for the payloads it accepts. *)
Definition parsed {host : Host} (raws : list jsstring) : list json :=
  flat_map (fun raw => match JSON_parse raw with
                       | Some event => [event]
                       | None => []
                       end) raws.

(** [for (const event of events) switch (event.type) ...], for values
    already parsed. *)
Fixpoint on_events (events : list json) (u : Page)
  : Page * option Thrown :=
  match events with
  | [] => (u, None)
  | event :: rest =>
      match on_event event u with
      | Resolved u' => on_events rest u'
      | Rejected t => (u, Some t)
      end
  end.

(** The values the page handles of what [fetch] comes to: those parsed
    from the lines of the body of a response that is ok. *)
Definition received {host : Host} (net : FetchOutcome) : list json :=
  match net with
  | fetch_resolved true _ (Some (chunks, _)) =>
      parsed (payloads (complete_lines (List.concat chunks)))
  | _ => []
  end.

(** A value that React shows as text when it is the child of an element:
    a string or a number, nothing for a boolean, [null] and [undefined],
    the elements of an array; an object is refused with an exception. *)
Fixpoint renderable (v : json) : bool :=
  match v with
  | JObj _ => false
  | JArr elems => forallb renderable elems
  | _ => true
  end.

Definition shows (v : jsvalue) : bool :=
  match v with
  | None => true
  | Some x => renderable x
  end.

Definition string_or_absent (v : jsvalue) : bool :=
  match v with
  | None | Some (JStr _) => true
  | _ => false
  end.

Definition a_string (v : jsvalue) : bool :=
  match v with
  | Some (JStr _) => true
  | _ => false
  end.

(** [TOOL_LABELS[line.tool] ?? line.tool] is a text for every name but
    [__proto__], for which the table of the labels gives the prototype of
    objects. *)
Definition has_label (tool : jsvalue) : bool :=
  match tool with
  | Some (JStr name) => negb (str_eqb name (js "__proto__"))
  | _ => false
  end.

(** The [input] of a tool call as the page needs it: an object whose
    [query] and [title], when it has them, are strings. *)
Definition tool_input (v : jsvalue) : bool :=
  match v with
  | Some (JObj ms) =>
      string_or_absent (lookup_last (js "query") ms)
      && string_or_absent (lookup_last (js "title") ms)
  | _ => false
  end.

(** The values that the page takes without an exception in an updater and
    puts on the screen as the texts they are: [null] and what is no
    object (the first is refused by [event.type], in [handleSubmit], the
    others are no case of the switch), an object whose [type] is none of
    the cases, and an object of one of the cases whose members have the
    types of [AgentEvent] where the page reads them. *)
Definition well_typed (v : json) : bool :=
  let type := field v (js "type") in
  if is_string type (js "supervisor_start")
     || is_string type (js "supervisor_review")
     || is_string type (js "error") then
    a_string (field v (js "message"))
  else if is_string type (js "supervisor_plan") then
    shows (field v (js "searchTerm")) && shows (field v (js "responseFormat"))
  else if is_string type (js "supervisor_delegate") then
    a_string (field v (js "instructions"))
  else if is_string type (js "researcher_thinking") then
    a_string (field v (js "text"))
  else if is_string type (js "researcher_tool_call") then
    has_label (field v (js "tool")) && tool_input (field v (js "input"))
  else if is_string type (js "researcher_tool_result") then
    a_string (field v (js "resultPreview"))
    && match field v (js "count") with
       | None | Some (JNum _) => true
       | _ => false
       end
  else if is_string type (js "synthesizer_done") then
    a_string (field v (js "answer"))
  else true.

End Client.

(** A member of the [input] of a tool call, in the value and in the
    event. *)
Definition same_member (ms : list (jsstring * json)) (input : StringRecord)
    (name : jsstring) : bool :=
  match lookup_last name ms, lookup_last name input with
  | Some (JStr a), Some b => str_eqb a b
  | None, None => true
  | _, _ => false
  end.

(** What the page reads of the value parsed from the frame of an event:
    its [type] and the members the switch looks at, with the values the
    event has there. *)
Definition carries (e : AgentEvent) (v : json) : bool :=
  match e with
  | supervisor_start message =>
      Client.is_string (Client.field v (js "type")) (js "supervisor_start")
      && Client.is_string (Client.field v (js "message")) message
  | supervisor_plan _ _ =>
      Client.is_string (Client.field v (js "type")) (js "supervisor_plan")
      && Client.shows (Client.field v (js "searchTerm"))
      && Client.shows (Client.field v (js "responseFormat"))
  | supervisor_delegate to instructions =>
      Client.is_string (Client.field v (js "type")) (js "supervisor_delegate")
      && Client.is_string (Client.field v (js "to")) (target_name to)
      && Client.is_string (Client.field v (js "instructions")) instructions
  | supervisor_review message =>
      Client.is_string (Client.field v (js "type")) (js "supervisor_review")
      && Client.is_string (Client.field v (js "message")) message
  | supervisor_done =>
      Client.is_string (Client.field v (js "type")) (js "supervisor_done")
  | researcher_start =>
      Client.is_string (Client.field v (js "type")) (js "researcher_start")
  | researcher_thinking text =>
      Client.is_string (Client.field v (js "type")) (js "researcher_thinking")
      && Client.is_string (Client.field v (js "text")) text
  | researcher_tool_call tool input =>
      Client.is_string (Client.field v (js "type")) (js "researcher_tool_call")
      && Client.is_string (Client.field v (js "tool")) tool
      && Client.has_label (Client.field v (js "tool"))
      && match Client.field v (js "input") with
         | Some (JObj ms) =>
             same_member ms input (js "query")
             && same_member ms input (js "title")
         | _ => false
         end
  | researcher_tool_result tool resultPreview count =>
      Client.is_string (Client.field v (js "type"))
        (js "researcher_tool_result")
      && match resultPreview with
         | JStr preview =>
             Client.is_string (Client.field v (js "resultPreview")) preview
         | _ => false
         end
      && match Client.field v (js "count"), count with
         | None, None => true
         | Some (JNum _), Some _ => true
         | _, _ => false
         end
  | researcher_done =>
      Client.is_string (Client.field v (js "type")) (js "researcher_done")
  | synthesizer_start =>
      Client.is_string (Client.field v (js "type")) (js "synthesizer_start")
  | synthesizer_done answer =>
      Client.is_string (Client.field v (js "type")) (js "synthesizer_done")
      && Client.is_string (Client.field v (js "answer")) answer
  | error message =>
      Client.is_string (Client.field v (js "type")) (js "error")
      && Client.is_string (Client.field v (js "message")) message
  end.

(** The badges of the three agents while the handler is in each phase;
    after a failure they depend on the phase that failed. *)
Definition statuses_at (ph : Phase)
  : option (Client.AgentStatus * Client.AgentStatus * Client.AgentStatus) :=
  match ph with
  | Idle | Planning | Planned =>
      Some (Client.activo, Client.esperando, Client.esperando)
  | Delegated | Researching =>
      Some (Client.listo, Client.activo, Client.esperando)
  | Researched | Reviewed =>
      Some (Client.activo, Client.listo, Client.esperando)
  | SynthDelegated | Synthesizing =>
      Some (Client.activo, Client.listo, Client.activo)
  | Synthesized => Some (Client.activo, Client.listo, Client.listo)
  | Finished => Some (Client.listo, Client.listo, Client.listo)
  | Failed => None
  end.

(** The badges after an error event: an agent that was at work has failed,
    the others stay as they were. *)
Definition failed_badges
    (t : Client.AgentStatus * Client.AgentStatus * Client.AgentStatus)
  : Client.AgentStatus * Client.AgentStatus * Client.AgentStatus :=
  match t with
  | (a, b, c) => (Client.fail a, Client.fail b, Client.fail c)
  end.

(** The answer the page shows after the events [evs], from the one it
    showed before them: the one of the last [synthesizer_done]. *)
Definition answer_of (evs : list AgentEvent) (start : jsvalue) : jsvalue :=
  fold_left (fun acc e => match e with
                          | synthesizer_done answer => Client.str answer
                          | _ => acc
                          end) evs start.

(* ------------------------------------------------------------------ *)
(** ** [JSON.stringify] of the events, for runs on concrete inputs *)

Module Wire.

Definition hex (n : N) : code_unit :=
  if (n <? 10)%N then (48 + n)%N else (87 + n)%N.

(** The escape of a code unit by its number, in lower case. *)
Definition unicode_escape (c : code_unit) : jsstring :=
  [92%N; 117%N; hex (c / 4096); hex ((c / 256) mod 16);
   hex ((c / 16) mod 16); hex (c mod 16)].

Definition is_high (c : code_unit) : bool :=
  (55296 <=? c)%N && (c <=? 56319)%N.

Definition is_low (c : code_unit) : bool :=
  (56320 <=? c)%N && (c <=? 57343)%N.

(** [QuoteJSONString], between the quotes: the short escapes, the control
    characters and the surrogates without their pair by number, the rest
    as it is. *)
Fixpoint quote_units (s : jsstring) : jsstring :=
  match s with
  | [] => []
  | c :: r =>
      if (c =? 8)%N then [92; 98]%N ++ quote_units r
      else if (c =? 9)%N then [92; 116]%N ++ quote_units r
      else if (c =? 10)%N then [92; 110]%N ++ quote_units r
      else if (c =? 12)%N then [92; 102]%N ++ quote_units r
      else if (c =? 13)%N then [92; 114]%N ++ quote_units r
      else if (c =? 34)%N then [92; 34]%N ++ quote_units r
      else if (c =? 92)%N then [92; 92]%N ++ quote_units r
      else if (c <? 32)%N then unicode_escape c ++ quote_units r
      else if is_high c then
        match r with
        | d :: r' =>
            if is_low d then c :: d :: quote_units r'
            else unicode_escape c ++ quote_units r
        | [] => unicode_escape c
        end
      else if is_low c then unicode_escape c ++ quote_units r
      else c :: quote_units r
  end.

Definition quote (s : jsstring) : jsstring :=
  dquote ++ quote_units s ++ dquote.

Section Stringify.
Context {host : Host}.

(** [JSON.stringify] of a parsed value, its members in the order the
    value keeps them. *)
Fixpoint stringify (v : json) : jsstring :=
  match v with
  | JNull => js "null"
  | JBool true => js "true"
  | JBool false => js "false"
  | JNum lexeme =>
      let printed := Number_toString lexeme in
      if str_eqb printed (js "Infinity") || str_eqb printed (js "-Infinity")
      then js "null"
      else printed
  | JStr s => quote s
  | JArr elems => js "[" ++ join (js ",") (map stringify elems) ++ js "]"
  | JObj members =>
      js "{"
      ++ join (js ",")
           (map (fun m => match m with
                          | (k, x) => quote k ++ js ":" ++ stringify x
                          end) members)
      ++ js "}"
  end.
End Stringify.

(** A property that [JSON.stringify] leaves out when it is [undefined]. *)
Definition optional (name : jsstring) (v : jsvalue)
  : list (jsstring * json) :=
  match v with
  | Some x => [(name, x)]
  | None => []
  end.

Definition decimal (n : nat) : jsstring :=
  js (DecimalString.NilZero.string_of_uint (Nat.to_uint n)).

(** The object that [emit] is given for each event. *)
Definition json_of_event (e : AgentEvent) : json :=
  match e with
  | supervisor_start message =>
      JObj [(js "type", JStr (js "supervisor_start"));
            (js "message", JStr message)]
  | supervisor_plan searchTerm responseFormat =>
      JObj ([(js "type", JStr (js "supervisor_plan"))]
              ++ optional (js "searchTerm") searchTerm
              ++ optional (js "responseFormat") responseFormat)
  | supervisor_delegate to instructions =>
      JObj [(js "type", JStr (js "supervisor_delegate"));
            (js "to", JStr (target_name to));
            (js "instructions", JStr instructions)]
  | supervisor_review message =>
      JObj [(js "type", JStr (js "supervisor_review"));
            (js "message", JStr message)]
  | supervisor_done => JObj [(js "type", JStr (js "supervisor_done"))]
  | researcher_start => JObj [(js "type", JStr (js "researcher_start"))]
  | researcher_thinking text =>
      JObj [(js "type", JStr (js "researcher_thinking"));
            (js "text", JStr text)]
  | researcher_tool_call tool input =>
      JObj [(js "type", JStr (js "researcher_tool_call"));
            (js "tool", JStr tool);
            (js "input",
             JObj (map (fun kv => (fst kv, JStr (snd kv))) input))]
  | researcher_tool_result tool resultPreview count =>
      JObj ([(js "type", JStr (js "researcher_tool_result"));
             (js "tool", JStr tool);
             (js "resultPreview", resultPreview)]
              ++ match count with
                 | Some n => [(js "count", JNum (decimal n))]
                 | None => []
                 end)
  | researcher_done => JObj [(js "type", JStr (js "researcher_done"))]
  | synthesizer_start => JObj [(js "type", JStr (js "synthesizer_start"))]
  | synthesizer_done answer =>
      JObj [(js "type", JStr (js "synthesizer_done"));
            (js "answer", JStr answer)]
  | error message =>
      JObj [(js "type", JStr (js "error")); (js "message", JStr message)]
  end.

(** [JSON.stringify(event)] *)
Definition stringify_event {host : Host} (e : AgentEvent) : jsstring :=
  stringify (json_of_event e).

End Wire.

(* ------------------------------------------------------------------ *)
(** ** A session: the page submits the question of the scenario *)

Module Session.
Import Demo.

(** The events of the run in which every agent answers. *)
Definition sent : list AgentEvent :=
  events (snd (POST 10 Scenario.req Scenario.world_ok)).

(** The text of the stream: one frame per event. *)
Definition text : jsstring :=
  List.concat (map (fun e => frame (Wire.stringify_event e)) sent).

(** The stream in two chunks, cut inside a frame. *)
Definition chunks : list jsstring := [firstn 100 text; skipn 100 text].



End Session.

(* ================================================================== *)
(** * Properties *)

Unset Implicit Arguments.

(** ** Strings and regular expressions *)

Lemma str_eqb_refl (a : jsstring) : str_eqb a a = true.
Proof.
  induction a as [|x a IH]; simpl; [reflexivity|].
  now rewrite N.eqb_refl.
Qed.

Lemma str_eqb_eq (a b : jsstring) : str_eqb a b = true <-> a = b.
Proof.
  split; [|intros ->; apply str_eqb_refl].
  revert b; induction a as [|x a IH]; intros [|y b]; simpl; try discriminate.
  - reflexivity.
  - intros H. apply andb_true_iff in H as [Hx Hab].
    apply N.eqb_eq in Hx. now rewrite Hx, (IH b Hab).
Qed.

Lemma after_rangle_length (s r : jsstring) :
  after_rangle s = Some r -> List.length r < List.length s.
Proof.
  revert r; induction s as [|x s IH]; simpl; intros r H; [discriminate|].
  destruct (x =? rangle)%N.
  - injection H as <-. lia.
  - specialize (IH r H). lia.
Qed.

Lemma after_rangle_incl (s r : jsstring) (x : code_unit) :
  after_rangle s = Some r -> In x r -> In x s.
Proof.
  revert r; induction s as [|y s IH]; simpl; intros r H Hin; [discriminate|].
  destruct (y =? rangle)%N.
  - injection H as <-. now right.
  - right. eapply IH; eassumption.
Qed.

Lemma after_rangle_none (s : jsstring) :
  ~ In rangle s -> after_rangle s = None.
Proof.
  induction s as [|x s IH]; simpl; intros H; [reflexivity|].
  destruct (x =? rangle)%N eqn:E.
  - apply N.eqb_eq in E. exfalso. apply H. now left.
  - apply IH. intros Hin. apply H. now right.
Qed.

Lemma after_rangle_some (s : jsstring) :
  In rangle s -> after_rangle s <> None.
Proof.
  induction s as [|x s IH]; simpl; intros H; [contradiction|].
  destruct (x =? rangle)%N eqn:E; [discriminate|].
  destruct H as [H|H]; [|now apply IH].
  subst x. now rewrite N.eqb_refl in E.
Qed.

Lemma tag_end_length (s r : jsstring) :
  tag_end s = Some r -> List.length r < List.length s.
Proof.
  destruct s as [|c [|d s]]; simpl; try discriminate.
  destruct ((c =? langle)%N && negb (d =? rangle)%N); [|discriminate].
  intros H. apply after_rangle_length in H. lia.
Qed.

Lemma tag_end_incl (s r : jsstring) (x : code_unit) :
  tag_end s = Some r -> In x r -> In x s.
Proof.
  destruct s as [|c [|d s]]; simpl; try discriminate.
  destruct ((c =? langle)%N && negb (d =? rangle)%N); [|discriminate].
  intros H Hin. right. right. eapply after_rangle_incl; eassumption.
Qed.

(** More fuel than the length changes nothing. *)
Lemma strip_tags_from_fuel (n m : nat) (s : jsstring) :
  List.length s <= n -> List.length s <= m ->
  strip_tags_from n s = strip_tags_from m s.
Proof.
  revert m s; induction n as [|n IH]; intros m s Hn Hm.
  - destruct s; [|simpl in Hn; lia]. now destruct m.
  - destruct m as [|m].
    + destruct s; [reflexivity|simpl in Hm; lia].
    + destruct s as [|c r]; [reflexivity|].
      cbn [strip_tags_from].
      destruct (tag_end (c :: r)) as [rest|] eqn:E.
      * apply tag_end_length in E. simpl in *. apply IH; lia.
      * f_equal. simpl in *. apply IH; lia.
Qed.

Lemma strip_tags_cons (c : code_unit) (r : jsstring) :
  strip_tags (c :: r) =
  match tag_end (c :: r) with
  | Some rest => strip_tags rest
  | None => c :: strip_tags r
  end.
Proof.
  unfold strip_tags, str_length. cbn [List.length strip_tags_from].
  destruct (tag_end (c :: r)) as [rest|] eqn:E.
  - apply tag_end_length in E. simpl in E.
    apply strip_tags_from_fuel; lia.
  - reflexivity.
Qed.

(** A property proved for every shorter string holds for every string. *)
Lemma by_length (P : jsstring -> Prop) :
  (forall s, (forall t, List.length t < List.length s -> P t) -> P s) ->
  forall s, P s.
Proof.
  intros step s.
  assert (H : forall n t, List.length t < n -> P t).
  { induction n as [|n IH]; intros t Ht; [lia|].
    apply step. intros u Hu. apply IH. lia. }
  apply (H (S (List.length s))). lia.
Qed.

(** Stripping only deletes: every code unit left was there before. *)
Lemma strip_tags_incl (x : code_unit) (s : jsstring) :
  In x (strip_tags s) -> In x s.
Proof.
  induction s as [s IH] using by_length.
  destruct s as [|c r]; [intros []|].
  rewrite strip_tags_cons.
  destruct (tag_end (c :: r)) as [rest|] eqn:E.
  - intros H. eapply tag_end_incl; [eassumption|].
    apply IH; [now apply tag_end_length|assumption].
  - intros [H|H]; [now left|right].
    apply IH; [simpl; lia|assumption].
Qed.

(** What is left after stripping has no tag. *)
Lemma strip_tags_clean (s : jsstring) : has_tag (strip_tags s) = false.
Proof.
  induction s as [s IH] using by_length.
  destruct s as [|c r]; [reflexivity|].
  rewrite strip_tags_cons.
  destruct (tag_end (c :: r)) as [rest|] eqn:E.
  - apply IH. now apply tag_end_length.
  - assert (Hr : has_tag (strip_tags r) = false) by (apply IH; simpl; lia).
    cbn [has_tag].
    replace (tag_end (c :: strip_tags r)) with (@None jsstring); [exact Hr|].
    symmetry.
    destruct r as [|d r']; [reflexivity|].
    simpl in E.
    destruct (c =? langle)%N eqn:Ec.
    2:{ destruct (strip_tags (d :: r')) as [|d' t]; [reflexivity|].
        simpl. now rewrite Ec. }
    destruct (d =? rangle)%N eqn:Ed.
    { rewrite strip_tags_cons.
      assert (Ht : tag_end (d :: r') = None).
      { destruct r' as [|e r'']; [reflexivity|]. simpl.
        apply N.eqb_eq in Ed. subst d. reflexivity. }
      rewrite Ht. simpl. now rewrite Ec, Ed. }
    simpl in E.
    assert (Hno : ~ In rangle (d :: r')).
    { intros [H|H].
      - subst d. now rewrite N.eqb_refl in Ed.
      - now apply after_rangle_some in H. }
    assert (Hout : ~ In rangle (strip_tags (d :: r'))).
    { intros H. apply Hno. now apply strip_tags_incl. }
    destruct (strip_tags (d :: r')) as [|d' t]; [reflexivity|].
    simpl. rewrite Ec.
    destruct (d' =? rangle)%N eqn:Ed'; [reflexivity|].
    simpl. apply after_rangle_none.
    intros H. apply Hout. now right.
Qed.

(** ** Traces *)

Lemma events_app (a b : list Action) : events (a ++ b) = events a ++ events b.
Proof. unfold events. apply flat_map_app. Qed.

Lemma researcher_histories_app (a b : list Action) :
  researcher_histories (a ++ b)
  = researcher_histories a ++ researcher_histories b.
Proof. unfold researcher_histories. apply flat_map_app. Qed.

Lemma events_emits (evs : list AgentEvent) : events (map Emit evs) = evs.
Proof.
  induction evs as [|e evs IH]; [reflexivity|].
  change (events (map Emit (e :: evs))) with (e :: events (map Emit evs)).
  now rewrite IH.
Qed.


(** The phases only move forward, and an event is never behind the phase
    the stream is in after it. *)
Lemma step_rank (p q : Phase) (e : AgentEvent) :
  step p e = Some q ->
  rank p <= rank q /\
  (is_error e = true -> q = Failed) /\
  (is_synthesizer_done e = true -> q = Synthesized) /\
  (is_supervisor_done e = true -> q = Finished).
Proof.
  destruct p, e; simpl; try discriminate;
    try (destruct to; try discriminate);
    intros H; injection H as <-; simpl; repeat split; try lia;
    discriminate.
Qed.

Lemma run_trace_rank (p q : Phase) (evs : list AgentEvent) :
  run_trace step p evs = Some q ->
  rank p <= rank q /\
  forall e, In e evs ->
    (is_error e = true -> rank Failed <= rank q) /\
    (is_synthesizer_done e = true -> rank Synthesized <= rank q) /\
    (is_supervisor_done e = true -> rank Finished <= rank q).
Proof.
  revert p; induction evs as [|e evs IH]; intros p; simpl.
  - intros H. injection H as <-. split; [lia|]. intros e [].
  - destruct (step p e) as [p1|] eqn:E; [|discriminate].
    intros H. destruct (IH p1 H) as [Hle Hall].
    destruct (step_rank p p1 e E) as (Hpq & He & Hs & Hd).
    split; [lia|].
    intros e' [<-|Hin]; [|now apply Hall].
    repeat split; intros Hk.
    + rewrite (He Hk) in Hle. exact Hle.
    + rewrite (Hs Hk) in Hle. exact Hle.
    + rewrite (Hd Hk) in Hle. exact Hle.
Qed.

(** While the stream is in a working phase, no error event, no
    synthesis-done and no pipeline-done event has been emitted. *)
Lemma working_trace_clean (q : Phase) (evs : list AgentEvent) :
  run_trace step Idle evs = Some q -> working q = true ->
  forallb (fun e => negb (is_error e || is_synthesizer_done e
                          || is_supervisor_done e)) evs = true.
Proof.
  intros H Hw. apply forallb_forall. intros e Hin.
  destruct (run_trace_rank _ _ _ H) as [_ Hall].
  destruct (Hall e Hin) as (He & Hs & Hd).
  destruct (is_error e) eqn:E1; [specialize (He eq_refl) |];
    destruct (is_synthesizer_done e) eqn:E2; try specialize (Hs eq_refl);
    destruct (is_supervisor_done e) eqn:E3; try specialize (Hd eq_refl);
    try reflexivity;
    destruct q; simpl in *; try discriminate; lia.
Qed.

Lemma failed_is_final (evs : list AgentEvent) :
  run_trace step Failed evs <> Some Finished.
Proof. destruct evs; discriminate. Qed.

Ltac dead_end H :=
  try discriminate; simpl in H;
  try (exfalso; exact (failed_is_final _ H)).

(** A trace accepted up to [Finished] is a complete run, spelled out. *)
Lemma finished_complete (evs : list AgentEvent) :
  run_trace step Idle evs = Some Finished -> complete_run evs.
Proof.
  intros H.
  destruct evs as [|e1 evs]; [discriminate|].
  destruct e1; dead_end H.
  destruct evs as [|e2 evs]; [discriminate|].
  destruct e2; dead_end H.
  destruct evs as [|e3 evs]; [discriminate|].
  destruct e3 as [| |to i1| | | | | | | | | |]; dead_end H.
  destruct to; dead_end H.
  destruct evs as [|e4 evs]; [discriminate|].
  destruct e4; dead_end H.
  assert (Hmid : exists mid tail,
             evs = mid ++ researcher_done :: tail
             /\ forallb research_progress mid = true
             /\ run_trace step Researched tail = Some Finished).
  { clear -H. induction evs as [|e evs IH]; [discriminate|].
    destruct e; dead_end H.
    - destruct (IH H) as (mid & tail & -> & Hm & Ht).
      exists (researcher_thinking text :: mid), tail. now simpl.
    - destruct (IH H) as (mid & tail & -> & Hm & Ht).
      exists (researcher_tool_call tool input :: mid), tail. now simpl.
    - destruct (IH H) as (mid & tail & -> & Hm & Ht).
      exists (researcher_tool_result tool resultPreview count :: mid), tail.
      now simpl.
    - exists [], evs. now simpl. }
  destruct Hmid as (mid & tail & -> & Hm & Ht).
  destruct tail as [|t1 tail]; [discriminate|].
  destruct t1; dead_end Ht.
  destruct tail as [|t2 tail]; [discriminate|].
  destruct t2 as [| |to i2| | | | | | | | | |]; dead_end Ht.
  destruct to; dead_end Ht.
  destruct tail as [|t3 tail]; [discriminate|].
  destruct t3; dead_end Ht.
  destruct tail as [|t4 tail]; [discriminate|].
  destruct t4; dead_end Ht.
  destruct tail as [|t5 tail]; [discriminate|].
  destruct t5; dead_end Ht.
  destruct tail as [|t6 tail]; [|destruct t6; discriminate].
  unfold complete_run. do 8 eexists. split; [reflexivity|exact Hm].
Qed.

(** ** The handler keeps to the protocol *)

Section HandlerProperties.
Context {host : Host} {W : Type} {world : World W}.

Local Open Scope js_scope.

Lemma follows_ret A (p : Phase) (a : A) : follows (W:=W) p p (ret a).
Proof. intros w. reflexivity. Qed.

Lemma follows_emit (p q : Phase) (e : AgentEvent) :
  step p e = Some q -> follows (W:=W) p q (emit e).
Proof. intros H w. simpl. now rewrite H. Qed.

Lemma working_act (p : Phase) (a : Action) :
  act p a = Some p -> working p = true \/ exists e, a = Emit e.
Proof.
  destruct a as [e|params r|url r|]; simpl.
  - intros _. right. now exists e.
  - destruct p, (system params); try discriminate; now left.
  - destruct p; try discriminate; now left.
  - discriminate.
Qed.

Lemma follows_lift A (p : Phase) (x : Outcome A) :
  working p = true -> follows (W:=W) p p (lift x).
Proof.
  intros Hp w. destruct x; simpl; [reflexivity|].
  exists p. now split.
Qed.

Lemma follows_out_of_fuel A (p q : Phase) :
  working p = true -> follows (W:=W) (A:=A) p q out_of_fuel.
Proof. intros Hp w. simpl. exists p. now split. Qed.

Lemma follows_create (p : Phase) (params : MessageCreateParams) :
  (forall r, act p (ModelCall params r) = Some p) ->
  follows p p (create params).
Proof.
  intros Hp w. unfold create.
  destruct (messages_create params w) as [[m|t] w1];
    cbn [run_actions]; rewrite Hp; [reflexivity|].
  exists p. split; [reflexivity|].
  destruct (@working_act _ _ (Hp (Rejected t))) as [H|[e H]];
    [exact H|discriminate].
Qed.

Lemma follows_http_get (url : jsstring) :
  follows Researching Researching (http_get url).
Proof.
  intros w. unfold http_get.
  destruct (fetch url w) as [[m|t] w1]; simpl; [reflexivity|].
  exists Researching. now split.
Qed.

Lemma run_actions_app (p : Phase) (a b : list Action) :
  run_actions p (a ++ b) =
  match run_actions p a with
  | Some q => run_actions q b
  | None => None
  end.
Proof.
  revert p; induction a as [|x a IH]; intros p; simpl; [reflexivity|].
  destruct (act p x); [apply IH|reflexivity].
Qed.

Lemma follows_bind A B (p q r : Phase) (m : M W A) (k : A -> M W B) :
  follows p q m -> (forall a, follows q r (k a)) -> follows p r (bind m k).
Proof.
  intros Hm Hk w. unfold bind. specialize (Hm w).
  destruct (m w) as [[[a| |] w1] o1]; try exact Hm.
  specialize (Hk a w1).
  destruct (k a w1) as [[[b| |] w2] o2];
    rewrite run_actions_app, Hm; exact Hk.
Qed.

(** One step of a proof that a program keeps to the protocol. *)
Ltac keeps :=
  first
    [ apply follows_ret
    | apply follows_emit; reflexivity
    | apply follows_lift; reflexivity
    | apply follows_create; reflexivity
    | apply follows_http_get
    | apply follows_out_of_fuel; reflexivity
    | eapply follows_bind; [|intros ?] ].

Lemma follows_searchWikipedia (query : jsstring) :
  follows Researching Researching (searchWikipedia query).
Proof.
  unfold searchWikipedia. repeat keeps.
Qed.

Lemma follows_getWikipediaArticle (title : jsstring) :
  follows Researching Researching (getWikipediaArticle title).
Proof.
  unfold getWikipediaArticle. repeat keeps.
Qed.

Lemma follows_run_tool (name : jsstring) (input : StringRecord) :
  follows Researching Researching (run_tool name input).
Proof.
  unfold run_tool.
  destruct (str_eqb name (js "search_wikipedia")).
  - eapply follows_bind; [apply follows_searchWikipedia|intros results].
    repeat keeps.
  - destruct (str_eqb name (js "get_wikipedia_article")).
    + eapply follows_bind; [apply follows_getWikipediaArticle|intros result].
      repeat keeps.
    + repeat keeps.
Qed.

Lemma follows_dispatch (blocks : list ContentBlock)
    (acc : list ToolResultBlockParam) :
  follows Researching Researching (dispatch blocks acc).
Proof.
  revert acc; induction blocks as [|b blocks IH]; intros acc; simpl.
  - keeps.
  - destruct b; [apply IH| |apply IH].
    keeps; [keeps|].
    eapply follows_bind; [apply follows_run_tool|intros result]. apply IH.
Qed.

Lemma follows_emit_thinking (blocks : list ContentBlock) :
  follows Researching Researching (emit_thinking (W:=W) blocks).
Proof.
  induction blocks as [|b blocks IH]; simpl.
  - keeps.
  - destruct b; [|apply IH|apply IH].
    keeps; [|apply IH].
    destruct (truthy (trim text)); keeps.
Qed.

Lemma follows_research_loop (fuel : nat) (model : jsstring)
    (history : list MessageParam) :
  follows Researching Researched (research_loop fuel model history).
Proof.
  revert history; induction fuel as [|fuel IH]; intros history; simpl.
  - keeps.
  - keeps; [keeps|].
    eapply follows_bind; [apply follows_emit_thinking|intros _].
    destruct (is_tool_use_stop (stop_reason a)).
    + eapply follows_bind; [apply follows_dispatch|intros results].
      apply IH.
    + repeat keeps.
Qed.

Lemma follows_planning (req : Request) :
  follows Idle Planning (planning req).
Proof. unfold planning. repeat keeps. Qed.

Lemma follows_research (fuel : nat) (req : Request) (term : jsstring) :
  follows Planned Researched (research fuel req term).
Proof.
  unfold research. keeps; [keeps|]. keeps; [keeps|].
  apply follows_research_loop.
Qed.

Lemma follows_synthesis (req : Request) (format : jsvalue)
    (summary : jsstring) :
  follows Researched Finished (synthesis req format summary).
Proof. unfold synthesis. repeat keeps. Qed.

Lemma follows_run_plan (fuel : nat) (req : Request) (plan : json) :
  follows Planning Finished (run_plan fuel req plan).
Proof.
  unfold run_plan. keeps; [keeps|]. keeps; [keeps|]. keeps; [keeps|].
  keeps; [keeps|].
  eapply follows_bind; [apply follows_research|intros summary].
  apply follows_synthesis.
Qed.

Lemma follows_pipeline (fuel : nat) (req : Request) :
  follows Idle Finished (pipeline fuel req).
Proof.
  unfold pipeline.
  eapply follows_bind; [apply follows_planning|intros plan].
  apply follows_run_plan.
Qed.

(** What [start] makes of the three results of the [try] body. *)
Lemma start_of_pipeline (fuel : nat) (req : Request) (w : W) :
  POST fuel req w =
  match pipeline fuel req w with
  | (Ret _, w', o) => (Ret tt, w', o ++ [Close])
  | (Throw t, w', o) =>
      (Ret tt, w', (o ++ [Emit (error (error_message t))]) ++ [Close])
  | (OutOfFuel, w', o) => (OutOfFuel, w', o)
  end.
Proof.
  unfold POST, start, try_finally, try_catch, on_error, emit,
    controller_close.
  destruct (pipeline fuel req w) as [[[[]| |] w1] o1]; reflexivity.
Qed.

End HandlerProperties.

Lemma run_actions_events (p q : Phase) (o : list Action) :
  run_actions p o = Some q -> run_trace step p (events o) = Some q.
Proof.
  revert p; induction o as [|a o IH]; intros p; simpl; [easy|].
  destruct (act p a) as [p1|] eqn:E; [|discriminate].
  intros H. specialize (IH p1 H).
  destruct a as [e|params r|url r|]; simpl in E.
  - change (events (Emit e :: o)) with (e :: events o). simpl.
    now rewrite E.
  - change (events (ModelCall params r :: o)) with (events o).
    destruct p, (system params); try discriminate;
      injection E as <-; exact IH.
  - change (events (HttpGet url r :: o)) with (events o).
    destruct p; try discriminate; injection E as <-; exact IH.
  - discriminate.
Qed.

Lemma run_actions_open (p q : Phase) (o : list Action) :
  run_actions p o = Some q -> ~ In Close o.
Proof.
  revert p; induction o as [|a o IH]; intros p; simpl; [tauto|].
  destruct (act p a) as [p1|] eqn:E; [|discriminate].
  intros H [Ha|Hin].
  - subst a. discriminate.
  - exact (IH p1 H Hin).
Qed.

Import Demo.

(** ** C3: the order of the events *)

(** C3, as the code has it.  Every run of the handler that ends closes the
    stream after one of two sequences of events: the complete one --
    supervisor_start, supervisor_plan, supervisor_delegate to the
    researcher, researcher_start, any number of researcher_thinking,
    researcher_tool_call and researcher_tool_result, researcher_done,
    supervisor_review, supervisor_delegate to the synthesizer,
    synthesizer_start, synthesizer_done, supervisor_done -- or a prefix of
    that order followed by one error event, the last event of the run.
    The prefix stops where something can throw: while a model or a tool is
    awaited, or right after supervisor_plan or supervisor_review, where a
    field of the plan is put into an instruction.  The handler itself
    never throws, and a run that is still looping has emitted such a
    prefix. *)
Theorem event_order `{Host} `{World} (fuel : nat) (req : Request) (w : W) :
  match POST fuel req w with
  | (Ret _, _, o) =>
      (exists o', o = o' ++ [Close] /\ ~ In Close o') /\
      (complete_run (events o)
       \/ exists before message ph,
            events o = before ++ [error message]
            /\ run_trace step Idle before = Some ph
            /\ working ph = true
            /\ forallb (fun e => negb (is_error e)) before = true)
  | (Throw _, _, _) => False
  | (OutOfFuel, _, o) =>
      exists ph, run_trace step Idle (events o) = Some ph
                 /\ working ph = true
  end.
Proof.
  rewrite start_of_pipeline.
  pose proof (follows_pipeline fuel req w) as F.
  destruct (pipeline fuel req w) as [[[[]|t|] w1] o1].
  - split.
    + exists o1. split; [reflexivity|]. eapply run_actions_open; eassumption.
    + left. rewrite events_app, app_nil_r.
      apply finished_complete. now apply run_actions_events.
  - destruct F as (ph & F & Hw). split.
    + exists (o1 ++ [Emit (error (error_message t))]).
      split; [reflexivity|].
      intros Hin. apply in_app_or in Hin as [Hin|[Hin|[]]]; [|discriminate].
      eapply run_actions_open; eassumption.
    + right. exists (events o1), (error_message t), ph.
      rewrite !events_app. simpl. rewrite app_nil_r.
      pose proof (run_actions_events _ _ _ F) as T.
      repeat split; [exact T|exact Hw|].
      pose proof (working_trace_clean _ _ T Hw) as C.
      apply forallb_forall. intros e He.
      rewrite forallb_forall in C. specialize (C e He).
      now destruct (is_error e).
  - destruct F as (ph & F & Hw). exists ph.
    split; [now apply run_actions_events|exact Hw].
Qed.

(** C3 as stated fails on the scenario of the specification itself: the
    run completes, and its events are not in the stated order, because
    supervisor_review comes between researcher_done and the delegation to
    the synthesizer. *)
Lemma event_order_counterexample :
  fst (fst (POST 10 Scenario.req Scenario.world_ok)) = Ret tt
  /\ spec_order (events (snd (POST 10 Scenario.req Scenario.world_ok))) = false
  /\ In (supervisor_review supervisor_review_message)
        (events (snd (POST 10 Scenario.req Scenario.world_ok))).
Proof.
  split; [|split]; [vm_compute; reflexivity..|].
  vm_compute. do 11 right. left. reflexivity.
Qed.

(** The error event right after supervisor_plan, and right after
    supervisor_review: the planner gives an object with a member
    [toString] as search term, or as response format, and the template of
    the instruction cannot convert it to a string. *)
Example error_after_plan_and_review :
  events (snd (POST 10 Scenario.req Scenario.world_term_object))
  = [supervisor_start supervisor_start_message;
     supervisor_plan (Some (JObj [(js "toString", JNum (js "1"))]))
       (Some (JStr (js "short summary")));
     error (js "Cannot convert object to primitive value")]
  /\ events (snd (POST 10 Scenario.req Scenario.world_format_object))
     = [supervisor_start supervisor_start_message;
        supervisor_plan (Some (JStr (js "X")))
          (Some (JObj [(js "toString", JNum (js "1"))]));
        supervisor_delegate to_researcher (researcherInstruction (js "X"));
        researcher_start;
        researcher_thinking (js "X is ...");
        researcher_done;
        supervisor_review supervisor_review_message;
        error (js "Cannot convert object to primitive value")].
Proof. split; vm_compute; reflexivity. Qed.

(** ** C6: the outer [catch] *)

(** C6.  When the body of the [try] throws -- whatever it throws, wherever
    -- the handler catches it, emits one error event that carries the
    message of the thrown [Error] (or [Error desconocido] for a thrown
    value that is no [Error]), closes the stream and returns.  That error
    event is the last event and the only error event of the run, and the
    run has no synthesizer_done and no supervisor_done event: no final
    answer was produced. *)
Theorem error_boundary `{Host} `{World} (fuel : nat) (req : Request) (w : W)
    (t : Thrown) (w' : W) (o : list Action) :
  pipeline fuel req w = (Throw t, w', o) ->
  POST fuel req w
  = (Ret tt, w', (o ++ [Emit (error (error_message t))]) ++ [Close])
  /\ ~ In Close o
  /\ filter is_error (events (snd (POST fuel req w)))
     = [error (error_message t)]
  /\ filter is_synthesizer_done (events (snd (POST fuel req w))) = []
  /\ filter is_supervisor_done (events (snd (POST fuel req w))) = [].
Proof.
  intros Hp.
  pose proof (follows_pipeline fuel req w) as F.
  rewrite start_of_pipeline, Hp. rewrite Hp in F.
  destruct F as (ph & F & Hw).
  split; [reflexivity|].
  split; [eapply run_actions_open; eassumption|].
  cbn [snd].
  pose proof (working_trace_clean _ _ (run_actions_events _ _ _ F) Hw) as Hc.
  rewrite !events_app, app_nil_r. cbn [events flat_map app].
  rewrite !filter_app. cbn [filter is_error is_synthesizer_done
                              is_supervisor_done].
  assert (Hnone : forall f : AgentEvent -> bool,
             (forall e, f e = true ->
                        (is_error e || is_synthesizer_done e
                         || is_supervisor_done e) = true) ->
             filter f (events o) = []).
  { intros f Hf. induction (events o) as [|e evs IH]; [reflexivity|].
    simpl in Hc. apply andb_true_iff in Hc as [He Hc].
    simpl. destruct (f e) eqn:E.
    - apply Hf in E. rewrite E in He. discriminate.
    - now apply IH. }
  rewrite !Hnone.
  - repeat split.
  - intros e ->. now rewrite !orb_true_r.
  - intros e ->. now rewrite orb_true_r.
  - intros e ->. reflexivity.
Qed.

(** The scenario of the specification: the model client throws on the
    synthesis call. *)
Lemma error_boundary_witness :
  POST 10 Scenario.req Scenario.world_synth_throws
  = (Ret tt,
     snd (fst (pipeline 10 Scenario.req Scenario.world_synth_throws)),
     (snd (pipeline 10 Scenario.req Scenario.world_synth_throws)
      ++ [Emit (error (js "529 Overloaded"))]) ++ [Close])
  /\ filter is_error
       (events (snd (POST 10 Scenario.req Scenario.world_synth_throws)))
     = [error (js "529 Overloaded")].
Proof.
  assert (Hp : pipeline 10 Scenario.req Scenario.world_synth_throws
               = (Throw (ErrorObj (js "529 Overloaded")),
                  snd (fst (pipeline 10 Scenario.req
                              Scenario.world_synth_throws)),
                  snd (pipeline 10 Scenario.req Scenario.world_synth_throws)))
    by (vm_compute; reflexivity).
  destruct (error_boundary 10 Scenario.req Scenario.world_synth_throws _ _ _ Hp)
    as (Hpost & _ & Hev & _).
  split; [exact Hpost|exact Hev].
Defined.

(** ** Running the handler by hand *)

Lemma quiet_histories (o : list Action) :
  forallb no_researcher_call o = true -> researcher_histories o = [].
Proof.
  induction o as [|a o IH]; [reflexivity|].
  cbn [forallb]. intros H. apply andb_true_iff in H as [Ha Ho].
  change (a :: o) with ([a] ++ o).
  rewrite researcher_histories_app, (IH Ho), app_nil_r.
  destruct a as [e|p r|url r|]; try reflexivity.
  cbn in *. now destruct (system p).
Qed.

Lemma tool_actions_quiet (o : list Action) :
  forallb tool_action o = true -> forallb no_researcher_call o = true.
Proof.
  intros H. apply forallb_forall. intros a Ha.
  rewrite forallb_forall in H. specialize (H a Ha).
  now destruct a.
Qed.

Lemma histories_emits (evs : list AgentEvent) :
  researcher_histories (map Emit evs) = [].
Proof. induction evs as [|e evs IH]; [reflexivity|exact IH]. Qed.

Section Running.
Context {host : Host} {W : Type} {world : World W}.

Local Open Scope js_scope.

Lemma bind_Ret A B (m : M W A) (k : A -> M W B) (w w1 : W) (a : A)
    (o1 : list Action) :
  m w = (Ret a, w1, o1) ->
  bind m k w = (let '(r, w2, o2) := k a w1 in (r, w2, o1 ++ o2)).
Proof. intros E. unfold bind. rewrite E. now destruct (k a w1) as [[r w2] o2]. Qed.

Lemma create_Resolved (p : MessageCreateParams) (w w1 : W) (m : Message) :
  messages_create p w = (Resolved m, w1) ->
  create p w = (Ret m, w1, [ModelCall p (Resolved m)]).
Proof. intros E. unfold create. now rewrite E. Qed.

(** [emit_thinking] only emits. *)
Lemma emit_thinking_run (blocks : list ContentBlock) (w : W) :
  emit_thinking blocks w = (Ret tt, w, map Emit (thinking_events blocks)).
Proof.
  induction blocks as [|b blocks IH]; [reflexivity|].
  destruct b as [text| |]; cbn [emit_thinking]; try exact IH.
  unfold thinking_events. cbn [flat_map]. fold (thinking_events blocks).
  unfold bind.
  destruct (truthy (trim text)); cbn; rewrite IH; reflexivity.
Qed.

Lemma lift_run A (x : Outcome A) (w : W) :
  lift x w = (result_of x, w, []).
Proof. now destruct x. Qed.

(** What the two Wikipedia helpers do with a response, and with a
    rejection. *)
Lemma searchWikipedia_run (query q : jsstring) (w w1 : W)
    (res : FetchResponse) :
  encodeURIComponent query = Resolved q ->
  fetch (search_url q) w = (Resolved res, w1) ->
  searchWikipedia query w
  = (result_of (search_response res), w1,
     [HttpGet (search_url q) (Resolved res)]).
Proof.
  intros Eq Ef. unfold searchWikipedia, bind, http_get.
  rewrite Eq. cbv beta iota delta [lift ret]. rewrite Ef.
  now destruct (search_response res).
Qed.

Lemma searchWikipedia_rejected (query q : jsstring) (w w1 : W) (t : Thrown) :
  encodeURIComponent query = Resolved q ->
  fetch (search_url q) w = (Rejected t, w1) ->
  searchWikipedia query w
  = (Throw t, w1, [HttpGet (search_url q) (Rejected t)]).
Proof.
  intros Eq Ef. unfold searchWikipedia, bind, http_get.
  rewrite Eq. cbv beta iota delta [lift ret]. now rewrite Ef.
Qed.

Lemma getWikipediaArticle_run (title q : jsstring) (w w1 : W)
    (res : FetchResponse) :
  encodeURIComponent title = Resolved q ->
  fetch (summary_url q) w = (Resolved res, w1) ->
  getWikipediaArticle title w
  = (result_of (article_response title res), w1,
     [HttpGet (summary_url q) (Resolved res)]).
Proof.
  intros Eq Ef. unfold getWikipediaArticle, bind, http_get.
  rewrite Eq. cbv beta iota delta [lift ret]. rewrite Ef.
  now destruct (article_response title res).
Qed.

Lemma getWikipediaArticle_rejected (title q : jsstring) (w w1 : W)
    (t : Thrown) :
  encodeURIComponent title = Resolved q ->
  fetch (summary_url q) w = (Rejected t, w1) ->
  getWikipediaArticle title w
  = (Throw t, w1, [HttpGet (summary_url q) (Rejected t)]).
Proof.
  intros Eq Ef. unfold getWikipediaArticle, bind, http_get.
  rewrite Eq. cbv beta iota delta [lift ret]. now rewrite Ef.
Qed.

Lemma all_bind f A B (m : M W A) (k : A -> M W B) :
  all_actions f m -> (forall a, all_actions f (k a)) ->
  all_actions f (bind m k).
Proof.
  intros Hm Hk w. unfold bind. specialize (Hm w).
  destruct (m w) as [[[a| |] w1] o1]; try exact Hm.
  specialize (Hk a w1). destruct (k a w1) as [[r w2] o2].
  cbn [snd] in *. rewrite forallb_app. now rewrite Hm, Hk.
Qed.

Lemma all_ret f A (a : A) : all_actions f (ret (W:=W) a).
Proof. intros w. reflexivity. Qed.

Lemma all_lift f A (x : Outcome A) : all_actions f (lift (W:=W) x).
Proof. intros w. now destruct x. Qed.

Lemma all_emit (f : Action -> bool) (e : AgentEvent) :
  f (Emit e) = true -> all_actions f (emit (W:=W) e).
Proof. intros H w. cbn. now rewrite H. Qed.

Lemma all_http_get (f : Action -> bool) (url : jsstring) :
  (forall r, f (HttpGet url r) = true) -> all_actions f (http_get url).
Proof.
  intros H w. unfold http_get.
  destruct (fetch url w) as [[r|t] w1]; cbn; now rewrite H.
Qed.

Ltac tooling :=
  first
    [ apply all_ret
    | apply all_lift
    | apply all_emit; reflexivity
    | apply all_http_get; reflexivity
    | apply all_bind; [|intros ?] ].

Lemma run_tool_actions (name : jsstring) (input : StringRecord) :
  all_actions tool_action (run_tool name input).
Proof.
  unfold run_tool, searchWikipedia, getWikipediaArticle.
  destruct (str_eqb name (js "search_wikipedia"));
    [|destruct (str_eqb name (js "get_wikipedia_article"))].
  - repeat tooling.
  - repeat tooling.
  - repeat tooling.
Qed.

Lemma dispatch_actions (blocks : list ContentBlock)
    (acc : list ToolResultBlockParam) :
  all_actions tool_action (dispatch blocks acc).
Proof.
  revert acc; induction blocks as [|b blocks IH]; intros acc; cbn.
  - tooling.
  - destruct b; [apply IH| |apply IH].
    tooling; [tooling|].
    apply all_bind; [apply run_tool_actions|intros result]. apply IH.
Qed.

Lemma tool_actions_calls (o : list Action) :
  forallb tool_action o = true ->
  model_calls o = [] /\ researcher_histories o = [] /\ requested o = []
  /\ ~ In Close o.
Proof.
  induction o as [|a o IH]; cbn; [tauto|].
  intros H. apply andb_true_iff in H as [Ha Ho].
  destruct (IH Ho) as (I1 & I2 & I3 & I4).
  destruct a as [e| | |]; try discriminate; cbn.
  - repeat split; try assumption. intros [|]; [discriminate|tauto].
  - repeat split; try assumption. intros [|]; [discriminate|tauto].
Qed.

End Running.

Section Loop.
Context {host : Host} {W : Type} {world : World W}.

Local Open Scope js_scope.

(** A tool returns after one tool-result event, or throws before any
    event; it has no loop of its own. *)
Lemma run_tool_cases (name : jsstring) (input : StringRecord) (w : W) :
  match run_tool name input w with
  | (Ret result, _, o) =>
      exists pre preview count,
        o = pre ++ [Emit (researcher_tool_result name preview count)]
        /\ events pre = []
  | (Throw _, _, o) => events o = []
  | (OutOfFuel, _, _) => False
  end.
Proof.
  unfold run_tool, searchWikipedia, getWikipediaArticle, bind, http_get,
    lift, ret, throw, emit.
  destruct (str_eqb name (js "search_wikipedia"));
    [|destruct (str_eqb name (js "get_wikipedia_article"))].
  - destruct (encodeURIComponent _) as [q|t]; [|reflexivity].
    destruct (fetch (search_url q) w) as [[res|t] w1]; [|reflexivity].
    destruct (search_response res) as [results|t]; [|reflexivity].
    destruct (search_result results) as [result|t]; [|reflexivity].
    destruct (search_preview results) as [preview|t]; [|reflexivity].
    exists [HttpGet (search_url q) (Resolved res)].
    do 2 eexists. split; reflexivity.
  - destruct (encodeURIComponent _) as [q|t]; [|reflexivity].
    destruct (fetch (summary_url q) w) as [[res|t] w1]; [|reflexivity].
    destruct (article_response _ res) as [result|t]; [|reflexivity].
    destruct (preview_of result) as [preview|t]; [|reflexivity].
    exists [HttpGet (summary_url q) (Resolved res)].
    do 2 eexists. split; reflexivity.
  - exists [], (JStr unknown_tool), None. split; reflexivity.
Qed.

Lemma request_ids_filter (blocks : list ContentBlock) :
  request_ids (filter is_tool_use blocks) = request_ids blocks.
Proof.
  induction blocks as [|b blocks IH]; [reflexivity|].
  destruct b; cbn; try exact IH.
  unfold request_ids in *. cbn. now rewrite IH.
Qed.

Lemma request_calls_filter (blocks : list ContentBlock) :
  request_calls (filter is_tool_use blocks) = request_calls blocks.
Proof.
  induction blocks as [|b blocks IH]; [reflexivity|].
  destruct b; cbn; try exact IH.
  unfold request_calls in *. cbn. now rewrite IH.
Qed.

(** The batch of one turn: when [dispatch] returns, it has added one
    result per request, in the order of the requests and under their
    identifiers, and has emitted one tool-call event per request. *)
Lemma dispatch_results (blocks : list ContentBlock)
    (acc : list ToolResultBlockParam) (w : W) :
  match dispatch blocks acc w with
  | (Ret results, _, o) =>
      map tool_use_id results = map tool_use_id acc ++ request_ids blocks
      /\ filter is_tool_call (events o) = request_calls blocks
      /\ List.length (filter is_tool_result (events o))
         = List.length (request_calls blocks)
  | (Throw _, _, _) => True
  | (OutOfFuel, _, _) => False
  end.
Proof.
  revert acc w; induction blocks as [|b blocks IH]; intros acc w.
  - cbn. now rewrite app_nil_r.
  - destruct b as [text|id name input|tag]; cbn [dispatch].
    + apply IH.
    + unfold bind at 1. cbn [emit].
      unfold bind at 1.
      pose proof (run_tool_cases name input w) as Ht.
      destruct (run_tool name input w) as [[[result|t|] w1] o1];
        [|exact I|exact Ht].
      destruct Ht as (pre & preview & count & -> & Hpre).
      specialize (IH (acc ++ [{| tool_use_id := id;
                                 result_content := result |}]) w1).
      destruct (dispatch blocks _ w1) as [[[results|t|] w2] o2];
        [|exact I|exact IH].
      destruct IH as (Hids & Hcalls & Hresults). split; [|split].
      * rewrite Hids, map_app, <- app_assoc. reflexivity.
      * cbn [app]. change (events (Emit ?e :: ?l)) with (e :: events l).
        rewrite !events_app, Hpre. cbn [app events flat_map filter
                                          is_tool_call].
        unfold request_calls. cbn [flat_map app].
        f_equal. exact Hcalls.
      * cbn [app]. change (events (Emit ?e :: ?l)) with (e :: events l).
        rewrite !events_app, Hpre. cbn [app events flat_map filter
                                          is_tool_result].
        unfold request_calls. cbn [flat_map app List.length].
        f_equal. exact Hresults.
    + apply IH.
Qed.

Lemma request_calls_ids (blocks : list ContentBlock) :
  List.length (request_calls blocks) = List.length (request_ids blocks).
Proof.
  induction blocks as [|b blocks IH]; [reflexivity|].
  destruct b; cbn; try exact IH.
  unfold request_calls, request_ids in *. cbn. now rewrite IH.
Qed.

(** The batch of one turn when a tool throws: the requests before that
    tool's have their tool-call and tool-result events, the request of
    that tool has its tool-call event only, and the requests after it
    have nothing. *)
Lemma dispatch_throws (blocks : list ContentBlock)
    (acc : list ToolResultBlockParam) (w w2 : W) (t : Thrown)
    (o : list Action) :
  dispatch blocks acc w = (Throw t, w2, o) ->
  exists k,
    k < List.length (request_calls blocks)
    /\ filter is_tool_call (events o) = firstn (S k) (request_calls blocks)
    /\ List.length (filter is_tool_result (events o)) = k.
Proof.
  revert acc w o; induction blocks as [|b blocks IH]; intros acc w o.
  - discriminate.
  - destruct b as [text|id name input|tag]; cbn [dispatch].
    + apply IH.
    + unfold bind at 1. cbn [emit].
      unfold bind at 1.
      pose proof (run_tool_cases name input w) as Ht.
      destruct (run_tool name input w) as [[[result|t'|] w1] o1];
        [| |contradiction].
      * destruct Ht as (pre & preview & count & -> & Hpre).
        destruct (dispatch blocks _ w1) as [[[results|t'|] w3] o3] eqn:Hd;
          try discriminate.
        intros E. injection E as <- <- <-.
        destruct (IH _ _ _ Hd) as (k & Hk & Hcalls & Hresults).
        exists (S k).
        unfold request_calls in *. cbn [flat_map app List.length].
        split; [lia|].
        cbn [app]. change (events (Emit ?e :: ?l)) with (e :: events l).
        rewrite !events_app, Hpre.
        cbn [app events flat_map filter is_tool_call is_tool_result
               List.length].
        split; [|now rewrite Hresults].
        change (firstn (S (S k)) (?x :: ?l)) with (x :: firstn (S k) l).
        now rewrite Hcalls.
      * intros E. injection E as <- <- <-.
        exists 0. unfold request_calls. cbn [flat_map app List.length].
        split; [lia|].
        cbn [app]. change (events (Emit ?e :: ?l)) with (e :: events l).
        rewrite Ht.
        cbn [filter is_tool_call is_tool_result List.length firstn].
        split; reflexivity.
    + apply IH.
Qed.

(** One turn of the loop whose tools all returned: the loop goes on with
    the history extended by the response and by the results. *)
Lemma loop_turn (fuel : nat) (model : jsstring)
    (history : list MessageParam) (w w1 w2 : W) (resp : Message)
    (results : list ToolResultBlockParam) (o2 : list Action) :
  messages_create (researcher_request model history) w = (Resolved resp, w1) ->
  is_tool_use_stop (stop_reason resp) = true ->
  dispatch (filter is_tool_use (content resp)) [] w1 = (Ret results, w2, o2) ->
  research_loop (S fuel) model history w =
  (let '(r, w3, o3) :=
     research_loop fuel model
       (history
          ++ [{| role := assistant; turn := Blocks (content resp) |}]
          ++ [{| role := user; turn := ToolResults results |}]) w2 in
   (r, w3,
    [ModelCall (researcher_request model history) (Resolved resp)]
    ++ map Emit (thinking_events (content resp)) ++ o2 ++ o3)).
Proof.
  intros Hcall Hstop Hd. cbn [research_loop].
  erewrite bind_Ret; [|apply create_Resolved; eassumption].
  erewrite bind_Ret; [|apply emit_thinking_run].
  rewrite Hstop. unfold bind. rewrite Hd.
  destruct (research_loop fuel model _ w2) as [[r w3] o3].
  reflexivity.
Qed.

(** One turn of the loop in which a tool threw: the loop is left with
    that exception, its history as it was. *)
Lemma loop_turn_throws (fuel : nat) (model : jsstring)
    (history : list MessageParam) (w w1 w2 : W) (resp : Message)
    (t : Thrown) (o2 : list Action) :
  messages_create (researcher_request model history) w = (Resolved resp, w1) ->
  is_tool_use_stop (stop_reason resp) = true ->
  dispatch (filter is_tool_use (content resp)) [] w1 = (Throw t, w2, o2) ->
  research_loop (S fuel) model history w =
  (Throw t, w2,
   [ModelCall (researcher_request model history) (Resolved resp)]
   ++ map Emit (thinking_events (content resp)) ++ o2).
Proof.
  intros Hcall Hstop Hd. cbn [research_loop].
  erewrite bind_Ret; [|apply create_Resolved; eassumption].
  erewrite bind_Ret; [|apply emit_thinking_run].
  rewrite Hstop. unfold bind. now rewrite Hd.
Qed.

(** A turn of the loop begins by sending the history to the model. *)
Lemma loop_first_call (fuel : nat) (model : jsstring)
    (history : list MessageParam) (w : W) :
  exists answer rest,
    snd (research_loop (S fuel) model history w)
    = ModelCall (researcher_request model history) answer :: rest.
Proof.
  cbn [research_loop]. unfold bind at 1. unfold create.
  destruct (messages_create (researcher_request model history) w)
    as [[resp|t] w1].
  - match goal with
    | |- context [let (_, _) := ?m w1 in _] => destruct (m w1) as [[r w2] o]
    | |- context [match ?m w1 with _ => _ end] => destruct (m w1) as [[r w2] o]
    end.
    now eexists _, _.
  - now eexists _, _.
Qed.

End Loop.

(** ** C2: the follow-up turn of a tool-use response *)

(** C2, as the code has it.  When a response of the researcher stops for
    tool use, the loop dispatches its requests, and when every tool
    returned -- with a fallback string or not -- it goes on with the
    history extended by exactly two turns: one assistant turn that echoes
    the blocks of the response, one user turn that carries all the
    results, one per request, in the order of the requests, each under the
    identifier of its request.  When a tool throws, nothing catches it in
    the loop: no turn is appended to the history and the model is not
    called again, the requests after that tool's are not dispatched, the
    request of that tool has its tool-call event and no result, and the
    loop is left with the exception. *)
Theorem paired_results `{Host} `{World} (fuel : nat) (model : jsstring)
    (history : list MessageParam) (w w1 : W) (resp : Message) :
  messages_create (researcher_request model history) w = (Resolved resp, w1) ->
  is_tool_use_stop (stop_reason resp) = true ->
  match dispatch (filter is_tool_use (content resp)) [] w1 with
  | (Ret results, w2, o2) =>
      map tool_use_id results = request_ids (content resp)
      /\ List.length results = List.length (request_ids (content resp))
      /\ research_loop (S fuel) model history w =
         (let '(r, w3, o3) :=
            research_loop fuel model
              (history
                 ++ [{| role := assistant; turn := Blocks (content resp) |}]
                 ++ [{| role := user; turn := ToolResults results |}]) w2 in
          (r, w3,
           [ModelCall (researcher_request model history) (Resolved resp)]
           ++ map Emit (thinking_events (content resp)) ++ o2 ++ o3))
  | (Throw t, w2, o2) =>
      research_loop (S fuel) model history w =
      (Throw t, w2,
       [ModelCall (researcher_request model history) (Resolved resp)]
       ++ map Emit (thinking_events (content resp)) ++ o2)
      /\ researcher_histories
           (snd (research_loop (S fuel) model history w)) = [history]
      /\ exists k,
           k < List.length (request_ids (content resp))
           /\ filter is_tool_call (events o2)
              = firstn (S k) (request_calls (content resp))
           /\ List.length (filter is_tool_result (events o2)) = k
  | (OutOfFuel, _, _) => False
  end.
Proof.
  intros Hcall Hstop.
  pose proof (dispatch_results (filter is_tool_use (content resp)) [] w1)
    as Hd.
  pose proof (dispatch_actions (filter is_tool_use (content resp)) [] w1)
    as Ha.
  destruct (dispatch (filter is_tool_use (content resp)) [] w1)
    as [[[results|t|] w2] o2] eqn:E; [| |exact Hd].
  - destruct Hd as (Hids & _ & _). cbn [map app] in Hids.
    rewrite request_ids_filter in Hids.
    split; [exact Hids|].
    split; [now rewrite <- Hids, length_map|].
    exact (loop_turn fuel _ _ _ _ _ _ _ _ Hcall Hstop E).
  - rewrite (loop_turn_throws fuel _ _ _ _ _ _ _ _ Hcall Hstop E).
    split; [reflexivity|]. split.
    + cbn [snd] in *. rewrite !researcher_histories_app.
      rewrite histories_emits.
      rewrite (quiet_histories _ (tool_actions_quiet _ Ha)).
      reflexivity.
    + destruct (dispatch_throws _ _ _ _ _ _ E) as (k & Hk & Hcalls & Hres).
      rewrite request_calls_filter in Hk, Hcalls.
      exists k. rewrite <- request_calls_ids. now split.
Qed.

(** The first turn of the specification's scenario: one request, one
    result under its identifier. *)
Lemma paired_results_witness :
  is_tool_use_stop (Some tool_use) = true
  /\ match dispatch (filter is_tool_use
                       [TextBlock (js "Let me search."); Scenario.search_X])
             [] (snd (messages_create
                        (researcher_request (js "claude-sonnet-4-6")
                           Scenario.seed_X)
                        Scenario.world_researching)) with
     | (Ret results, _, _) =>
         map tool_use_id results = [js "toolu_01"]
     | _ => False
     end.
Proof.
  split; [reflexivity|].
  pose proof (@paired_results _ _ _ 5 (js "claude-sonnet-4-6")
                Scenario.seed_X Scenario.world_researching _ _
                eq_refl eq_refl) as P.
  cbn [content] in P.
  destruct (dispatch _ _ _) as [[[results|t|] w2] o2].
  - exact (proj1 P).
  - destruct P as [P _]. vm_compute in P. discriminate.
  - exact P.
Defined.

(** C2 as stated fails when a tool execution fails by throwing.  The
    response asks for three tools and Wikipedia answers the first request
    only: the second [fetch] rejects.  Three requests, two tool-call
    events, one tool-result event; the only history the researcher's
    model has seen is the seed, so no follow-up turn was appended; the
    run ends with the error event. *)
Lemma paired_results_counterexample :
  request_ids Scenario.three_requests
  = [js "toolu_01"; js "toolu_02"; js "toolu_03"]
  /\ fst (fst (research_loop 5 (js "claude-sonnet-4-6") Scenario.seed_X
                 {| model_script :=
                      tl (model_script Scenario.world_second_fails);
                    http_script :=
                      http_script Scenario.world_second_fails |}))
     = Throw fetch_failed
  /\ filter is_tool_call
       (events (snd (POST 10 Scenario.req Scenario.world_second_fails)))
     = firstn 2 (request_calls Scenario.three_requests)
  /\ List.length
       (filter is_tool_result
          (events (snd (POST 10 Scenario.req Scenario.world_second_fails))))
     = 1
  /\ researcher_histories
       (snd (POST 10 Scenario.req Scenario.world_second_fails))
     = [Scenario.seed_X]
  /\ filter is_error
       (events (snd (POST 10 Scenario.req Scenario.world_second_fails)))
     = [error (js "fetch failed")].
Proof. repeat split; vm_compute; reflexivity. Qed.

(** ** C4: how the research loop ends *)

Lemma requested_app (a b : list Action) :
  requested (a ++ b) = requested a ++ requested b.
Proof. unfold requested. apply flat_map_app. Qed.

Lemma requested_emits (evs : list AgentEvent) : requested (map Emit evs) = [].
Proof. induction evs as [|e evs IH]; [reflexivity|exact IH]. Qed.

Lemma thinking_no_calls (blocks : list ContentBlock) :
  filter is_tool_call (thinking_events blocks) = [].
Proof.
  induction blocks as [|b blocks IH]; [reflexivity|].
  destruct b as [text| |]; try exact IH.
  unfold thinking_events. cbn [flat_map]. fold (thinking_events blocks).
  rewrite filter_app, IH, app_nil_r.
  now destruct (truthy (trim text)).
Qed.

Lemma thinking_no_results (blocks : list ContentBlock) :
  filter is_tool_result (thinking_events blocks) = [].
Proof.
  induction blocks as [|b blocks IH]; [reflexivity|].
  destruct b as [text| |]; try exact IH.
  unfold thinking_events. cbn [flat_map]. fold (thinking_events blocks).
  rewrite filter_app, IH, app_nil_r.
  now destruct (truthy (trim text)).
Qed.

(** When the loop returns, its last action was to emit researcher_done,
    and the tool-call events it emitted are, in order, the requests of the
    responses that stopped for tool use: none of those was left out. *)
Lemma loop_returns `{Host} `{World} (fuel : nat) (model : jsstring)
    (history : list MessageParam) (w : W) :
  match research_loop fuel model history w with
  | (Ret _, _, o) =>
      filter is_tool_call (events o) = requested o
      /\ List.length (filter is_tool_result (events o))
         = List.length (requested o)
      /\ exists o', o = o' ++ [Emit researcher_done]
  | _ => True
  end.
Proof.
  revert history w; induction fuel as [|fuel IH]; intros history w;
    [exact I|].
  cbn [research_loop]. unfold bind at 1. unfold create.
  destruct (messages_create (researcher_request model history) w)
    as [[resp|t] w1]; [|exact I].
  erewrite bind_Ret; [|apply emit_thinking_run].
  destruct (is_tool_use_stop (stop_reason resp)) eqn:Hstop.
  - unfold bind.
    pose proof (dispatch_results (filter is_tool_use (content resp)) [] w1)
      as Hd.
    pose proof (dispatch_actions (filter is_tool_use (content resp)) [] w1)
      as Ha.
    destruct (dispatch (filter is_tool_use (content resp)) [] w1)
      as [[[results|t|] w2] o2]; try exact I.
    specialize (IH (history
                      ++ [{| role := assistant;
                             turn := Blocks (content resp) |}]
                      ++ [{| role := user; turn := ToolResults results |}])
                  w2).
    destruct (research_loop fuel model _ w2) as [[[s|t|] w3] o3];
      try exact I.
    destruct IH as (Hcalls & Hresults & (o' & ->)).
    destruct Hd as (_ & Hd & Hr).
    cbn [snd] in Ha.
    destruct (tool_actions_calls _ Ha) as (_ & _ & Hreq & _).
    rewrite events_app, filter_app, requested_app in Hcalls.
    rewrite events_app, filter_app, requested_app in Hresults.
    cbn [app]. change (events (ModelCall ?p ?r :: ?l)) with (events l).
    change (requested (ModelCall ?p (Resolved resp) :: ?l))
      with ((if is_tool_use_stop (stop_reason resp)
             then request_calls (content resp) else []) ++ requested l).
    rewrite Hstop.
    rewrite !events_app, events_emits, !filter_app, thinking_no_calls,
      thinking_no_results.
    rewrite !requested_app, requested_emits, Hreq.
    cbn [app]. rewrite request_calls_filter in Hd, Hr.
    repeat split.
    + now rewrite Hd, Hcalls.
    + rewrite !length_app in *. rewrite Hr. lia.
    + exists (ModelCall (researcher_request model history) (Resolved resp)
              :: (map Emit (thinking_events (content resp)) ++ o2) ++ o').
      cbn [app]. now rewrite !app_assoc.
  - cbn. change (events (ModelCall ?p ?r :: ?l)) with (events l).
    rewrite Hstop. cbn [app].
    rewrite events_app, events_emits, !filter_app, thinking_no_calls,
      thinking_no_results.
    rewrite requested_app, requested_emits.
    repeat split.
    exists (ModelCall (researcher_request model history) (Resolved resp)
            :: map Emit (thinking_events (content resp))).
    reflexivity.
Qed.

(** C4, as the code has it.  A response of the researcher whose stop
    reason is not tool_use ends the loop at once: the loop emits the
    response's non-blank texts as thinking, emits researcher_done and
    returns the first text segment of the response, the empty string when
    it has none.  And whenever the loop returns, its last action was to emit
    researcher_done, and every request of every response that stopped for
    tool use has been dispatched, in order, and has had its result.  (The
    requests of a response with another stop reason are not looked at.) *)
Theorem loop_done `{Host} `{World} (fuel : nat) (model : jsstring)
    (history : list MessageParam) (w : W) :
  (forall resp w1,
     messages_create (researcher_request model history) w
     = (Resolved resp, w1) ->
     is_tool_use_stop (stop_reason resp) = false ->
     research_loop (S fuel) model history w
     = (Ret (first_text (content resp)), w1,
        [ModelCall (researcher_request model history) (Resolved resp)]
        ++ map Emit (thinking_events (content resp))
        ++ [Emit researcher_done]))
  /\ (forall summary w' o,
        research_loop fuel model history w = (Ret summary, w', o) ->
        filter is_tool_call (events o) = requested o
        /\ List.length (filter is_tool_result (events o))
           = List.length (requested o)
        /\ exists o', o = o' ++ [Emit researcher_done]).
Proof.
  split.
  - intros resp w1 Hcall Hstop. cbn [research_loop].
    erewrite bind_Ret; [|apply create_Resolved; eassumption].
    erewrite bind_Ret; [|apply emit_thinking_run].
    rewrite Hstop. reflexivity.
  - intros summary w' o Hrun.
    pose proof (loop_returns fuel model history w) as L.
    now rewrite Hrun in L.
Qed.

(** A response that ends its turn with one text: that text is the
    summary. *)
Lemma loop_done_witness :
  research_loop 1 (js "claude-sonnet-4-6") Scenario.seed_X
    Scenario.world_concluding
  = (Ret (js "X is ..."),
     snd (messages_create
            (researcher_request (js "claude-sonnet-4-6") Scenario.seed_X)
            Scenario.world_concluding),
     [ModelCall (researcher_request (js "claude-sonnet-4-6") Scenario.seed_X)
        (Scenario.reply [TextBlock (js "X is ...")] end_turn);
      Emit (researcher_thinking (js "X is ..."));
      Emit researcher_done]).
Proof.
  exact (proj1 (loop_done 0 (js "claude-sonnet-4-6") Scenario.seed_X
                  Scenario.world_concluding) _ _ eq_refl eq_refl).
Defined.

(** C4 as stated fails when a response carries a tool invocation request
    and a stop reason other than tool_use -- here one cut off by the token
    limit: the loop returns, the run completes, and the request is never
    dispatched (no tool-call event, no request to Wikipedia). *)
Lemma loop_done_counterexample :
  fst (fst (POST 10 Scenario.req Scenario.world_cut_off)) = Ret tt
  /\ requested_any (snd (POST 10 Scenario.req Scenario.world_cut_off))
     = [researcher_tool_call (js "search_wikipedia") [(js "query", js "X")]]
  /\ filter is_tool_call
       (events (snd (POST 10 Scenario.req Scenario.world_cut_off))) = []
  /\ filter is_supervisor_done
       (events (snd (POST 10 Scenario.req Scenario.world_cut_off)))
     = [supervisor_done].
Proof. repeat split; vm_compute; reflexivity. Qed.

(** ** C10: the history the researcher's model is called with *)











Section Histories.
Context {host : Host} {W : Type} {world : World W}.

Local Open Scope js_scope.









End Histories.


(** The run of the specification's scenario calls the researcher three
    times, with one, three and five turns. *)
Example history_lengths :
  map (@List.length _)
    (researcher_histories (snd (POST 10 Scenario.req Scenario.world_ok)))
  = [1; 3; 5].
Proof. vm_compute. reflexivity. Qed.

(** ** C7: the final answer *)

(** The synthesis, once the synthesizer has answered with at least one
    segment; [format] is the string that the plan's format converts to. *)
Lemma synthesis_run `{Host} `{World} (req : Request)
    (responseFormat : jsvalue) (format summary : jsstring) (w w1 : W)
    (resp : Message) (b : ContentBlock) (rest : list ContentBlock) :
  to_string responseFormat = Resolved format ->
  messages_create
    (synthesizer_request req
       (synthesizer_prompt (synthesizerInstruction (question req) format)
          summary)) w
  = (Resolved resp, w1) ->
  content resp = b :: rest ->
  synthesis req responseFormat summary w
  = (Ret tt, w1,
     [Emit (supervisor_review supervisor_review_message);
      Emit (supervisor_delegate to_synthesizer
              (synthesizerInstruction (question req) format));
      Emit synthesizer_start;
      ModelCall
        (synthesizer_request req
           (synthesizer_prompt (synthesizerInstruction (question req) format)
              summary))
        (Resolved resp);
      Emit (synthesizer_done (text_or_empty b));
      Emit supervisor_done]).
Proof.
  intros Hformat Hcall Hcontent.
  unfold synthesis, bind, emit, create. rewrite Hformat. cbn [lift ret].
  rewrite Hcall, Hcontent. reflexivity.
Qed.

(** C7, as the code has it.  For every response of the synthesizer that
    has at least one segment, the answer of the synthesizer_done event is
    the text of the FIRST segment when that segment is a text segment --
    it is then the first text segment of the response -- and the empty
    string when the first segment is of another kind, whatever follows
    it.  (The synthesis is run on any plan format, [format] being the
    string it converts to.) *)
Theorem final_answer `{Host} `{World} (req : Request)
    (responseFormat : jsvalue) (format summary : jsstring) (w w1 : W)
    (resp : Message) (b : ContentBlock) (rest : list ContentBlock) :
  to_string responseFormat = Resolved format ->
  messages_create
    (synthesizer_request req
       (synthesizer_prompt (synthesizerInstruction (question req) format)
          summary)) w
  = (Resolved resp, w1) ->
  content resp = b :: rest ->
  synthesis req responseFormat summary w
  = (Ret tt, w1,
     [Emit (supervisor_review supervisor_review_message);
      Emit (supervisor_delegate to_synthesizer
              (synthesizerInstruction (question req) format));
      Emit synthesizer_start;
      ModelCall
        (synthesizer_request req
           (synthesizer_prompt (synthesizerInstruction (question req) format)
              summary))
        (Resolved resp);
      Emit (synthesizer_done (text_or_empty b));
      Emit supervisor_done])
  /\ (is_text b = true -> text_or_empty b = first_text (content resp))
  /\ (is_text b = false -> text_or_empty b = []).
Proof.
  intros Hformat Hcall Hcontent. split; [|split].
  - now apply synthesis_run with (rest := rest).
  - rewrite Hcontent. now destruct b.
  - now destruct b.
Qed.

(** The synthesis of the specification's scenario. *)
Lemma final_answer_witness :
  synthesis Scenario.req (Some (JStr (js "short summary"))) (js "X is ...")
    Scenario.world_synthesizing
  = (Ret tt,
     {| model_script := []; http_script := [] |},
     [Emit (supervisor_review supervisor_review_message);
      Emit (supervisor_delegate to_synthesizer
              (synthesizerInstruction (js "What is X?")
                 (js "short summary")));
      Emit synthesizer_start;
      ModelCall
        (synthesizer_request Scenario.req
           (synthesizer_prompt
              (synthesizerInstruction (js "What is X?") (js "short summary"))
              (js "X is ...")))
        (Scenario.reply [TextBlock (js "# X")] end_turn);
      Emit (synthesizer_done (js "# X"));
      Emit supervisor_done]).
Proof.
  exact (proj1 (final_answer Scenario.req (Some (JStr (js "short summary")))
                  (js "short summary") (js "X is ...")
                  Scenario.world_synthesizing _ _
                  (TextBlock (js "# X")) [] eq_refl eq_refl eq_refl)).
Defined.

(** C7 as stated fails on a response whose first segment is not text and
    whose second is: its first text segment is the answer one would
    expect, and the synthesizer_done event carries the empty string. *)
Lemma final_answer_counterexample :
  first_text Scenario.thinking_then_text = js "# X"
  /\ filter is_synthesizer_done
       (events (snd (POST 10 Scenario.req Scenario.world_thinking_first)))
     = [synthesizer_done []].
Proof. split; vm_compute; reflexivity. Qed.

(** ** C1: the plan of the [catch] *)

Lemma default_plan_search_term (q : jsstring) :
  get_prop (default_plan q) (js "search_term") = Resolved (Some (JStr q)).
Proof. reflexivity. Qed.

Lemma default_plan_response_format (q : jsstring) :
  get_prop (default_plan q) (js "response_format")
  = Resolved (Some (JStr default_response_format)).
Proof. reflexivity. Qed.

(** A text without an opening brace is handed to [JSON.parse] whole; so is
    the empty string. *)
Lemma plan_source_no_brace (raw : jsstring) :
  ~ In lbrace raw -> plan_source raw = raw.
Proof.
  intros Hno. unfold plan_source, match_braces.
  replace (from_first lbrace raw) with (@None jsstring); [reflexivity|].
  symmetry. induction raw as [|c raw IH]; [reflexivity|].
  cbn. destruct (c =? lbrace)%N eqn:E.
  - apply N.eqb_eq in E. exfalso. apply Hno. now left.
  - apply IH. intros Hin. apply Hno. now right.
Qed.

(** C1, as the code has it.  The fallback is taken when [JSON.parse]
    throws on the text it is given -- the planner's output from its first
    opening brace to its last closing brace, or the whole output when there
    is no such span, as for prose without braces and for the empty string.
    Then the plan is the default plan: the plan event carries the question
    as search term and the default directive as format, the researcher is
    seeded with the question, and the run goes on as with any plan: if the
    research loop returns and the synthesizer answers with at least one
    segment, the run completes with synthesizer_done and supervisor_done
    and closes the stream.  A text that [JSON.parse] accepts is the plan as
    it is, whatever fields it has. *)
Theorem plan_fallback `{Host} `{World} (fuel : nat) (req : Request)
    (w w1 : W) (resp : Message) (raw : jsstring) :
  messages_create (supervisor_request req) w = (Resolved resp, w1) ->
  first_block_text (content resp) = Resolved raw ->
  JSON_parse (plan_source raw) = None ->
  planning req w
  = (Ret (default_plan (question req)), w1,
     [Emit (supervisor_start supervisor_start_message);
      ModelCall (supervisor_request req) (Resolved resp)])
  /\ (forall other v,
        JSON_parse (plan_source other) = Some v ->
        parse_plan (question req) other = v)
  /\ forall summary w2 o2 resp' w3 b rest,
       research_loop fuel (researcherModel req)
         [{| role := user;
             turn := Prompt (researcher_seed (question req)) |}] w1
       = (Ret summary, w2, o2) ->
       messages_create
         (synthesizer_request req
            (synthesizer_prompt
               (synthesizerInstruction (question req)
                  default_response_format)
               summary)) w2
       = (Resolved resp', w3) ->
       content resp' = b :: rest ->
       POST fuel req w
       = (Ret tt, w3,
          ([Emit (supervisor_start supervisor_start_message);
            ModelCall (supervisor_request req) (Resolved resp);
            Emit (supervisor_plan (Some (JStr (question req)))
                    (Some (JStr default_response_format)));
            Emit (supervisor_delegate to_researcher
                    (researcherInstruction (question req)));
            Emit researcher_start]
           ++ o2
           ++ [Emit (supervisor_review supervisor_review_message);
               Emit (supervisor_delegate to_synthesizer
                       (synthesizerInstruction (question req)
                          default_response_format));
               Emit synthesizer_start;
               ModelCall
                 (synthesizer_request req
                    (synthesizer_prompt
                       (synthesizerInstruction (question req)
                          default_response_format)
                       summary))
                 (Resolved resp');
               Emit (synthesizer_done (text_or_empty b));
               Emit supervisor_done])
          ++ [Close]).
Proof.
  intros Hcall Hraw Hparse.
  assert (Hplan : planning req w
                  = (Ret (default_plan (question req)), w1,
                     [Emit (supervisor_start supervisor_start_message);
                      ModelCall (supervisor_request req) (Resolved resp)])).
  { unfold planning, bind, emit, create, parse_plan.
    rewrite Hcall, Hraw. cbn [lift ret]. now rewrite Hparse. }
  split; [exact Hplan|].
  split; [intros other v Hv; unfold parse_plan; now rewrite Hv|].
  intros summary w2 o2 resp' w3 b rest Hloop Hsynth Hcontent.
  rewrite start_of_pipeline. unfold pipeline.
  erewrite bind_Ret; [|exact Hplan].
  unfold run_plan.
  rewrite default_plan_search_term, default_plan_response_format.
  cbn [lift]. unfold bind at 1. cbn [ret]. unfold bind at 1. cbn [ret].
  unfold bind at 1. cbn [emit]. cbn [to_string json_to_string lift].
  unfold bind at 1. cbn [ret].
  unfold bind at 1. unfold research.
  unfold bind at 1. cbn [emit]. unfold bind at 1. cbn [emit].
  rewrite Hloop.
  rewrite (synthesis_run req (Some (JStr default_response_format))
             default_response_format summary w2 w3 resp' b
             rest eq_refl Hsynth Hcontent).
  cbn [app]. rewrite <- !app_assoc. reflexivity.
Qed.

(** The planner answers in prose: the plan event carries the question and
    the default directive, and the run completes. *)
Lemma plan_fallback_witness :
  exists w3 o,
    POST 10 Scenario.req Scenario.world_prose = (Ret tt, w3, o)
    /\ nth_error (events o) 1
       = Some (supervisor_plan (Some (JStr (js "What is X?")))
                 (Some (JStr default_response_format))).
Proof.
  assert (Hparse : JSON_parse
                     (plan_source (js "I would look up the letter X."))
                   = None) by (vm_compute; reflexivity).
  assert (Hcall : messages_create (supervisor_request Scenario.req)
                     Scenario.world_prose
                   = (Resolved
                        {| content :=
                             [TextBlock (js "I would look up the letter X.")];
                           stop_reason := Some end_turn |},
                      {| model_script :=
                           tl (model_script Scenario.world_prose);
                         http_script := [] |})) by reflexivity.
  assert (Hraw : first_block_text
                   [TextBlock (js "I would look up the letter X.")]
                 = Resolved (js "I would look up the letter X."))
    by reflexivity.
  destruct (plan_fallback 10 Scenario.req Scenario.world_prose _ _
              (js "I would look up the letter X.") Hcall Hraw Hparse)
    as (_ & _ & Hrun).
  eexists _, _. split.
  - eapply (Hrun (js "X is ...") _ _ _ _ (TextBlock (js "# X")) []).
    + vm_compute; reflexivity.
    + vm_compute; reflexivity.
    + reflexivity.
  - vm_compute; reflexivity.
Defined.

(** C1 as stated fails on a planner output that is JSON without the
    required fields: [JSON.parse] accepts the empty object, so nothing is
    caught, the plan event carries no search term and no format, and the
    researcher is told to look for "undefined". *)
Lemma plan_fallback_counterexample :
  JSON_parse (plan_source (js "{}")) = Some (JObj [])
  /\ get_prop (JObj []) (js "search_term") = Resolved None
  /\ nth_error
       (events (snd (POST 10 Scenario.req Scenario.world_empty_object))) 1
     = Some (supervisor_plan None None)
  /\ nth_error
       (events (snd (POST 10 Scenario.req Scenario.world_empty_object))) 2
     = Some (supervisor_delegate to_researcher
               (researcherInstruction (js "undefined"))).
Proof. repeat split; vm_compute; reflexivity. Qed.

(** [JSON.parse] accepts the text [null] too; the read of its
    [search_term] then throws, and the run ends with the error event. *)
Example null_plan :
  events (snd (POST 10 Scenario.req Scenario.world_null))
  = [supervisor_start supervisor_start_message;
     error (null_property_message (js "search_term"))].
Proof. vm_compute. reflexivity. Qed.

(** ** C8: the two Wikipedia tools *)

Lemma all_resolved_pairs A B (f : A -> Outcome B) (l : list A) (r : list B) :
  all_resolved (map f l) = Resolved r ->
  Forall2 (fun x y => f x = Resolved y) l r.
Proof.
  revert r; induction l as [|x l IH]; intros r; cbn.
  - intros [= <-]. constructor.
  - destruct (f x) as [y|t] eqn:E; cbn; [|discriminate].
    destruct (all_resolved (map f l)) as [r'|t]; cbn; [|discriminate].
    intros [= <-]. constructor; [exact E|now apply IH].
Qed.

Lemma all_resolved_total A B (f : A -> Outcome B) (l : list A) :
  Forall (fun x => exists y, f x = Resolved y) l ->
  exists r, all_resolved (map f l) = Resolved r.
Proof.
  induction 1 as [|x l [y E] _ [r IH]]; cbn; [now exists []|].
  rewrite E, IH. cbn. now eexists.
Qed.

Lemma all_resolved_rejects A B (f : A -> Outcome B) (l : list A) :
  Exists (fun x => exists t, f x = Rejected t) l ->
  exists t, all_resolved (map f l) = Rejected t.
Proof.
  induction 1 as [x l [t E]|x l _ [t IH]]; cbn.
  - rewrite E. now exists t.
  - destruct (f x) as [y|t']; cbn; [|now exists t'].
    rewrite IH. now exists t.
Qed.

(** The map of [searchWikipedia] takes a page exactly when the page is
    not [null] and its excerpt, if it has one, is a string or [null]. *)
Lemma candidate_of_page (p : json) :
  if page_like p then exists c, candidate_of p = Resolved c
  else exists t, candidate_of p = Rejected t.
Proof.
  unfold candidate_of, page_like, get_prop, and_then.
  destruct p as [|b|n|s|l|ms]; try (now eexists).
  destruct (lookup_last (js "excerpt") ms) as [[|b|n|e|l|ms']|];
    now eexists.
Qed.

(** What a candidate holds of its page. *)
Lemma candidate_of_resolved (p : json) (c : Candidate) :
  candidate_of p = Resolved c ->
  get_prop p (js "title") = Resolved (cand_title c)
  /\ (forall e, get_prop p (js "excerpt") = Resolved (Some (JStr e)) ->
      snippet c = strip_tags e)
  /\ (get_prop p (js "excerpt") = Resolved None
      \/ get_prop p (js "excerpt") = Resolved (Some JNull) ->
      snippet c = [])
  /\ has_tag (snippet c) = false.
Proof.
  unfold candidate_of, and_then.
  destruct (get_prop p (js "title")) as [title|t]; [|discriminate].
  destruct (get_prop p (js "excerpt")) as [[[|b|n|e|l|ms]|]|t];
    try discriminate; intros E; injection E as <-; cbn [cand_title snippet];
    (split; [reflexivity|]);
    (split; [intros e' E'; try discriminate; now injection E' as ->|]);
    (split; [intros [E'|E']; try discriminate; reflexivity|]);
    try reflexivity.
  apply strip_tags_clean.
Qed.

(** C8, as the code has it.  The search asks Wikipedia for at most five
    pages ([limit=5] in the address).  When the answer is [ok] and its body
    has an array as [pages], the search returns one candidate per element,
    in the order of the answer, with the element's title and with its
    excerpt stripped of every tag (no excerpt: the empty string) --
    provided no element is [null] or has an excerpt that is not a string,
    in which case it throws; the handler itself does not cut the list, so
    there are at most five candidates when Wikipedia keeps to the limit.
    An answer that is not [ok], and a body without [pages], give the empty
    list.  The article lookup returns the [extract] of an [ok] answer as
    it is (a string when it is one, a fixed text when the body has none)
    and the not-found text with the title for an answer that is not [ok].
    Both throw when the body is no JSON or is [null], and when [fetch]
    rejects. *)
Theorem wikipedia_tools `{Host} `{World} (arg q : jsstring) (w w1 : W) :
  encodeURIComponent arg = Resolved q ->
  search_url q
  = js "https://en.wikipedia.org/w/rest.php/v1/search/page?q=" ++ q
    ++ js "&limit=5"
  /\ (forall res,
        fetch (search_url q) w = (Resolved res, w1) ->
        searchWikipedia arg w
        = (result_of (search_response res), w1,
           [HttpGet (search_url q) (Resolved res)])
        /\ (ok res = false -> search_response res = Resolved [])
        /\ (forall data ps,
              ok res = true -> json_body res = Resolved data ->
              get_prop data (js "pages") = Resolved (Some (JArr ps)) ->
              (forallb page_like ps = true ->
               exists cands,
                 search_response res = Resolved cands
                 /\ Forall2
                      (fun p c =>
                         get_prop p (js "title") = Resolved (cand_title c)
                         /\ (forall e,
                               get_prop p (js "excerpt")
                               = Resolved (Some (JStr e)) ->
                               snippet c = strip_tags e)
                         /\ (get_prop p (js "excerpt") = Resolved None
                             \/ get_prop p (js "excerpt")
                                = Resolved (Some JNull) ->
                             snippet c = [])
                         /\ has_tag (snippet c) = false) ps cands
                 /\ List.length cands = List.length ps
                 /\ (List.length ps <= 5 -> List.length cands <= 5))
              /\ (forallb page_like ps = false ->
                  exists t, search_response res = Rejected t))
        /\ (forall data pages,
              ok res = true -> json_body res = Resolved data ->
              get_prop data (js "pages") = Resolved pages ->
              pages = None \/ pages = Some JNull ->
              search_response res = Resolved [])
        /\ (ok res = true ->
            json_body res = Resolved JNull
            \/ (exists t, json_body res = Rejected t) ->
            exists t, search_response res = Rejected t))
  /\ (forall t,
        fetch (search_url q) w = (Rejected t, w1) ->
        searchWikipedia arg w
        = (Throw t, w1, [HttpGet (search_url q) (Rejected t)]))
  /\ (forall res,
        fetch (summary_url q) w = (Resolved res, w1) ->
        getWikipediaArticle arg w
        = (result_of (article_response arg res), w1,
           [HttpGet (summary_url q) (Resolved res)])
        /\ (ok res = false ->
            article_response arg res = Resolved (JStr (not_found arg)))
        /\ (forall data extract,
              ok res = true -> json_body res = Resolved data ->
              get_prop data (js "extract") = Resolved extract ->
              article_response arg res
              = Resolved (extract_or_default extract)
              /\ (forall e, extract = Some (JStr e) ->
                  extract_or_default extract = JStr e)
              /\ (extract = None \/ extract = Some JNull ->
                  extract_or_default extract = JStr no_content)
              /\ (forall v, extract = Some v -> v <> JNull ->
                  extract_or_default extract = v))
        /\ (ok res = true ->
            json_body res = Resolved JNull
            \/ (exists t, json_body res = Rejected t) ->
            exists t, article_response arg res = Rejected t))
  /\ (forall t,
        fetch (summary_url q) w = (Rejected t, w1) ->
        getWikipediaArticle arg w
        = (Throw t, w1, [HttpGet (summary_url q) (Rejected t)])).
Proof.
  intros Hq. split; [reflexivity|].
  split; [|split; [|split]].
  - intros res Hf.
    split; [exact (searchWikipedia_run _ _ _ _ _ Hq Hf)|].
    unfold search_response.
    split; [now intros ->|].
    split; [|split].
    + intros data ps -> -> Hp. cbn [negb and_then]. rewrite Hp.
      cbn [and_then candidates]. split.
      * intros Hall.
        assert (Hex : Forall (fun p => exists c, candidate_of p = Resolved c)
                        ps).
        { apply Forall_forall. intros p Hin.
          rewrite forallb_forall in Hall. specialize (Hall p Hin).
          pose proof (candidate_of_page p) as C. now rewrite Hall in C. }
        destruct (all_resolved_total _ _ candidate_of ps Hex) as [cands E].
        exists cands. split; [exact E|].
        pose proof (all_resolved_pairs _ _ _ _ _ E) as P.
        assert (Hlen : List.length cands = List.length ps)
          by (symmetry; eapply Forall2_length; eassumption).
        split; [|split; [exact Hlen|now rewrite Hlen]].
        eapply Forall2_impl; [|exact P].
        intros p c. apply candidate_of_resolved.
      * intros Hsome. apply all_resolved_rejects.
        apply Exists_exists.
        assert (Hx : existsb (fun p => negb (page_like p)) ps = true).
        { clear - Hsome. induction ps as [|p ps IH]; [discriminate|].
          cbn in *. destruct (page_like p); cbn in *; [now apply IH|
                                                        reflexivity]. }
        apply existsb_exists in Hx as (p & Hin & Hp').
        exists p. split; [exact Hin|].
        pose proof (candidate_of_page p) as C.
        destruct (page_like p); [discriminate|exact C].
    + intros data pages -> -> Hp [->| ->]; cbn [negb and_then]; rewrite Hp;
        reflexivity.
    + intros -> [->|[t ->]]; cbn [negb and_then get_prop]; now eexists.
  - intros t Hf. exact (searchWikipedia_rejected _ _ _ _ _ Hq Hf).
  - intros res Hf.
    split; [exact (getWikipediaArticle_run _ _ _ _ _ Hq Hf)|].
    unfold article_response.
    split; [now intros ->|].
    split.
    + intros data extract -> -> He. cbn [negb and_then]. rewrite He.
      cbn [and_then].
      split; [reflexivity|].
      split; [now intros e ->|].
      split; [now intros [->| ->]|].
      intros v -> Hv. destruct v; try reflexivity. now contradiction Hv.
    + intros -> [->|[t ->]]; cbn [negb and_then get_prop]; now eexists.
  - intros t Hf. exact (getWikipediaArticle_rejected _ _ _ _ _ Hq Hf).
Qed.

(** The search of the specification's scenario: one page, one candidate,
    the tags of its excerpt gone. *)
Lemma wikipedia_tools_witness :
  searchWikipedia (js "X") Scenario.world_ok
  = (Ret [{| cand_title := Some (JStr (js "X"));
             snippet := js "the letter X" |}],
     {| model_script := model_script Scenario.world_ok;
        http_script := tl (http_script Scenario.world_ok) |},
     [HttpGet (search_url (js "X"))
        (Scenario.served (Scenario.found [Scenario.page_X]))]).
Proof.
  assert (Hq : encodeURIComponent (js "X") = Resolved (js "X"))
    by (vm_compute; reflexivity).
  assert (Hf : fetch (search_url (js "X")) Scenario.world_ok
               = (Resolved
                    {| ok := true;
                       json_body :=
                         Resolved (Scenario.found [Scenario.page_X]) |},
                  {| model_script := model_script Scenario.world_ok;
                     http_script := tl (http_script Scenario.world_ok) |}))
    by reflexivity.
  destruct (wikipedia_tools (js "X") (js "X") Scenario.world_ok
              {| model_script := model_script Scenario.world_ok;
                 http_script := tl (http_script Scenario.world_ok) |} Hq)
    as (_ & Hsearch & _).
  destruct (Hsearch _ Hf) as [Hrun _].
  rewrite Hrun. vm_compute. reflexivity.
Defined.

(** C8 as stated fails when Wikipedia cannot be reached: the search
    returns no list, not even the empty one, it throws what [fetch]
    threw; and the article lookup does the same.  It fails too when
    Wikipedia answers 200 with the body [null]: the search throws the
    [TypeError] of [data.pages]. *)
Lemma wikipedia_tools_counterexample :
  searchWikipedia (js "X") {| model_script := []; http_script := [] |}
  = (Throw fetch_failed, {| model_script := []; http_script := [] |},
     [HttpGet (search_url (js "X")) (Rejected fetch_failed)])
  /\ getWikipediaArticle (js "X") {| model_script := []; http_script := [] |}
     = (Throw fetch_failed, {| model_script := []; http_script := [] |},
        [HttpGet (summary_url (js "X")) (Rejected fetch_failed)])
  /\ fst (fst (searchWikipedia (js "X")
                 {| model_script := [];
                    http_script := [Scenario.served JNull] |}))
     = Throw (ErrorObj (null_property_message (js "pages"))).
Proof. repeat split; vm_compute; reflexivity. Qed.

(** A body that is [null], and a page whose excerpt is a number: the
    search throws a [TypeError]. *)
Example ill_formed_bodies :
  search_response {| ok := true; json_body := Resolved JNull |}
  = Rejected (ErrorObj (null_property_message (js "pages")))
  /\ search_response
       {| ok := true;
          json_body :=
            Resolved (Scenario.found
                        [JObj [(js "title", JStr (js "X"));
                               (js "excerpt", JNum (js "1"))]]) |}
     = Rejected (not_a_function (js "p.excerpt?.replace")).
Proof. split; vm_compute; reflexivity. Qed.

(** ** C5: what a tool invocation gives back *)

Lemma name_test (name lit : jsstring) : name <> lit -> str_eqb name lit = false.
Proof.
  intros Hne. destruct (str_eqb name lit) eqn:E; [|reflexivity].
  apply str_eqb_eq in E. contradiction.
Qed.

Lemma article_is_not_search :
  str_eqb (js "get_wikipedia_article") (js "search_wikipedia") = false.
Proof. vm_compute. reflexivity. Qed.

(** The text for the model and the text for the event are made of the
    same titles: one converts when the other does. *)
Lemma search_preview_resolves `{Host} (cands : list Candidate) (r : jsstring) :
  search_result cands = Resolved r ->
  exists p, search_preview cands = Resolved p.
Proof.
  unfold search_result, search_preview, join_values.
  destruct cands as [|c cands]; [now eexists|].
  set (l := c :: cands). clearbody l. intros E.
  destruct (all_resolved (map bullet_line l)) as [lines|t] eqn:El;
    [|discriminate].
  apply all_resolved_pairs in El.
  rewrite map_map.
  destruct (all_resolved_total _ _
              (fun c => match cand_title c with
                        | None | Some JNull => Resolved []
                        | Some x => json_to_string x
                        end) l) as [strings Es].
  - clear E. induction El as [|c' y l' ys Hc _ IH]; constructor; [|exact IH].
    unfold bullet_line, to_string in Hc.
    destruct (cand_title c') as [[| | | | |]|]; try (now eexists);
      match type of Hc with
      | and_then ?x _ = _ => destruct x as [s|t]; [now exists s|discriminate]
      end.
  - rewrite Es. now eexists.
Qed.

(** Titles that are strings convert. *)
Lemma search_result_of_strings `{Host} (cands : list Candidate) :
  Forall (fun c => exists s, cand_title c = Some (JStr s)) cands ->
  exists r, search_result cands = Resolved r.
Proof.
  intros Hall. unfold search_result.
  destruct cands as [|c cands]; [now eexists|].
  set (l := c :: cands) in *. clearbody l.
  destruct (all_resolved_total _ _ bullet_line l) as [lines E].
  - eapply Forall_impl; [|exact Hall].
    intros c' [s Hs]. unfold bullet_line. rewrite Hs. cbn. now eexists.
  - rewrite E. now eexists.
Qed.

(** When [fetch] rejects, the tool throws what [fetch] threw. *)
Lemma rejection_propagates `{Host} `{World} (input : StringRecord)
    (q : jsstring) (w w1 : W) (t : Thrown) :
  (encodeURIComponent
     (string_or_undefined (lookup_last (js "query") input)) = Resolved q ->
   fetch (search_url q) w = (Rejected t, w1) ->
   run_tool (js "search_wikipedia") input w
   = (Throw t, w1, [HttpGet (search_url q) (Rejected t)]))
  /\ (encodeURIComponent
        (string_or_undefined (lookup_last (js "title") input)) = Resolved q ->
      fetch (summary_url q) w = (Rejected t, w1) ->
      run_tool (js "get_wikipedia_article") input w
      = (Throw t, w1, [HttpGet (summary_url q) (Rejected t)])).
Proof.
  split; intros Hq Hf; unfold run_tool.
  - rewrite str_eqb_refl. unfold bind.
    now rewrite (searchWikipedia_rejected _ _ _ _ _ Hq Hf).
  - rewrite article_is_not_search, str_eqb_refl. unfold bind.
    now rewrite (getWikipediaArticle_rejected _ _ _ _ _ Hq Hf).
Qed.

(** What the search tool does with an answer of Wikipedia. *)
Lemma run_search `{Host} `{World} (input : StringRecord) (q : jsstring)
    (w w1 : W) (res : FetchResponse) :
  encodeURIComponent
    (string_or_undefined (lookup_last (js "query") input)) = Resolved q ->
  fetch (search_url q) w = (Resolved res, w1) ->
  run_tool (js "search_wikipedia") input w
  = match search_response res with
    | Resolved cands =>
        match search_result cands, search_preview cands with
        | Resolved result, Resolved preview =>
            (Ret (JStr result), w1,
             [HttpGet (search_url q) (Resolved res);
              Emit (researcher_tool_result (js "search_wikipedia")
                      (JStr preview) (Some (List.length cands)))])
        | Resolved _, Rejected t | Rejected t, _ =>
            (Throw t, w1, [HttpGet (search_url q) (Resolved res)])
        end
    | Rejected t => (Throw t, w1, [HttpGet (search_url q) (Resolved res)])
    end.
Proof.
  intros Hq Hf. unfold run_tool. rewrite str_eqb_refl.
  unfold bind at 1. rewrite (searchWikipedia_run _ _ _ _ _ Hq Hf).
  destruct (search_response res) as [cands|t]; [|reflexivity].
  cbn [result_of]. unfold bind, lift, ret, throw, emit.
  destruct (search_result cands) as [result|t]; [|reflexivity].
  destruct (search_preview cands) as [preview|t]; reflexivity.
Qed.

(** What the article tool does with an answer of Wikipedia. *)
Lemma run_article `{Host} `{World} (input : StringRecord) (q : jsstring)
    (w w1 : W) (res : FetchResponse) :
  encodeURIComponent
    (string_or_undefined (lookup_last (js "title") input)) = Resolved q ->
  fetch (summary_url q) w = (Resolved res, w1) ->
  run_tool (js "get_wikipedia_article") input w
  = match article_response
            (string_or_undefined (lookup_last (js "title") input)) res with
    | Resolved result =>
        match preview_of result with
        | Resolved preview =>
            (Ret result, w1,
             [HttpGet (summary_url q) (Resolved res);
              Emit (researcher_tool_result (js "get_wikipedia_article")
                      preview None)])
        | Rejected t => (Throw t, w1, [HttpGet (summary_url q) (Resolved res)])
        end
    | Rejected t => (Throw t, w1, [HttpGet (summary_url q) (Resolved res)])
    end.
Proof.
  intros Hq Hf. unfold run_tool.
  rewrite article_is_not_search, str_eqb_refl.
  unfold bind at 1. rewrite (getWikipediaArticle_run _ _ _ _ _ Hq Hf).
  destruct (article_response _ res) as [result|t]; [|reflexivity].
  cbn [result_of]. unfold bind, lift, ret, throw, emit.
  destruct (preview_of result) as [preview|t]; reflexivity.
Qed.

(** C5, as the code has it.  A request for a tool that is neither of the
    two gets the unknown-tool text, without any request to Wikipedia.  A
    search that Wikipedia answers with a status that is not [ok], or with
    no page, gets the no-results text; an article lookup that Wikipedia
    answers with a status that is not [ok] gets the not-found text with
    the title.  A search that returns, returns a string; an article
    lookup returns the [extract] of the body as it is, which is a string
    only if Wikipedia sent one.  Nothing in the tools or around them
    catches an exception: the tool throws when [fetch] rejects, when the
    body of an [ok] answer is no JSON or is not of the shape the tool
    reads (the body [null], a [pages] that is no array, a page that is
    [null], an excerpt that is neither a string nor [null]), and when a
    title or an extract cannot be converted to the text that is made of
    it. *)
Theorem tool_fallbacks `{Host} `{World} (name : jsstring)
    (input : StringRecord) (w : W) :
  (name <> js "search_wikipedia" -> name <> js "get_wikipedia_article" ->
   run_tool name input w
   = (Ret (JStr unknown_tool), w,
      [Emit (researcher_tool_result name (JStr unknown_tool) None)]))
  /\ (forall q,
        name = js "search_wikipedia" ->
        encodeURIComponent
          (string_or_undefined (lookup_last (js "query") input))
        = Resolved q ->
        (forall res w1,
           fetch (search_url q) w = (Resolved res, w1) ->
           (ok res = false \/ search_response res = Resolved [] ->
            run_tool name input w
            = (Ret (JStr no_results), w1,
               [HttpGet (search_url q) (Resolved res);
                Emit (researcher_tool_result name (JStr no_results_preview)
                        (Some 0))]))
           /\ (forall cands result,
                 search_response res = Resolved cands ->
                 search_result cands = Resolved result ->
                 fst (fst (run_tool name input w)) = Ret (JStr result))
           /\ (forall cands,
                 search_response res = Resolved cands ->
                 Forall (fun c => exists s, cand_title c = Some (JStr s))
                   cands ->
                 exists result,
                   fst (fst (run_tool name input w)) = Ret (JStr result))
           /\ (forall v,
                 fst (fst (run_tool name input w)) = Ret v ->
                 exists result, v = JStr result)
           /\ (forall t,
                 search_response res = Rejected t
                 \/ (exists cands,
                       search_response res = Resolved cands
                       /\ search_result cands = Rejected t) ->
                 fst (fst (run_tool name input w)) = Throw t))
        /\ (forall t w1,
              fetch (search_url q) w = (Rejected t, w1) ->
              run_tool name input w
              = (Throw t, w1, [HttpGet (search_url q) (Rejected t)])))
  /\ (forall q,
        name = js "get_wikipedia_article" ->
        encodeURIComponent
          (string_or_undefined (lookup_last (js "title") input))
        = Resolved q ->
        (forall res w1,
           fetch (summary_url q) w = (Resolved res, w1) ->
           (ok res = false ->
            fst (fst (run_tool name input w))
            = Ret (JStr (not_found
                           (string_or_undefined
                              (lookup_last (js "title") input)))))
           /\ (forall result,
                 article_response
                   (string_or_undefined (lookup_last (js "title") input)) res
                 = Resolved (JStr result) ->
                 fst (fst (run_tool name input w)) = Ret (JStr result))
           /\ (forall v preview,
                 article_response
                   (string_or_undefined (lookup_last (js "title") input)) res
                 = Resolved v ->
                 preview_of v = Resolved preview ->
                 fst (fst (run_tool name input w)) = Ret v)
           /\ (forall t,
                 article_response
                   (string_or_undefined (lookup_last (js "title") input)) res
                 = Rejected t
                 \/ (exists v,
                       article_response
                         (string_or_undefined
                            (lookup_last (js "title") input)) res
                       = Resolved v
                       /\ preview_of v = Rejected t) ->
                 fst (fst (run_tool name input w)) = Throw t))
        /\ (forall t w1,
              fetch (summary_url q) w = (Rejected t, w1) ->
              run_tool name input w
              = (Throw t, w1, [HttpGet (summary_url q) (Rejected t)]))).
Proof.
  split; [|split].
  - intros H1 H2. unfold run_tool.
    now rewrite (name_test _ _ H1), (name_test _ _ H2).
  - intros q -> Hq. split.
    + intros res w1 Hf. rewrite (run_search _ _ _ _ _ Hq Hf).
      split; [|split; [|split; [|split]]].
      * intros [Hok|Hnone].
        -- unfold search_response. now rewrite Hok.
        -- now rewrite Hnone.
      * intros cands result -> Hr.
        destruct (search_preview_resolves _ _ Hr) as [p Hp].
        now rewrite Hr, Hp.
      * intros cands -> Hall.
        destruct (search_result_of_strings _ Hall) as [r Hr].
        destruct (search_preview_resolves _ _ Hr) as [p Hp].
        rewrite Hr, Hp. now exists r.
      * intros v.
        destruct (search_response res) as [cands|t]; [|discriminate].
        destruct (search_result cands) as [r|t]; [|discriminate].
        destruct (search_preview cands) as [p|t]; [|discriminate].
        cbn. intros [= <-]. now exists r.
      * intros t [->|(cands & -> & ->)]; reflexivity.
    + intros t w1 Hf. exact (proj1 (rejection_propagates _ _ _ _ _) Hq Hf).
  - intros q -> Hq. split.
    + intros res w1 Hf. rewrite (run_article _ _ _ _ _ Hq Hf).
      split; [|split; [|split]].
      * intros Hok. unfold article_response. now rewrite Hok.
      * now intros result ->.
      * now intros v preview -> ->.
      * intros t [->|(v & -> & ->)]; reflexivity.
    + intros t w1 Hf. exact (proj2 (rejection_propagates _ _ _ _ _) Hq Hf).
Qed.

(** A missing article: Wikipedia answers 404, the tool answers with the
    not-found text. *)
Lemma tool_fallbacks_witness :
  fst (fst (run_tool (js "get_wikipedia_article") [(js "title", js "X")]
              Scenario.world_missing_article))
  = Ret (JStr (not_found (js "X"))).
Proof.
  assert (Hq : encodeURIComponent
                 (string_or_undefined
                    (lookup_last (js "title") [(js "title", js "X")]))
               = Resolved (js "X")) by (vm_compute; reflexivity).
  assert (Hf : fetch (summary_url (js "X")) Scenario.world_missing_article
               = (Resolved
                    {| ok := false;
                       json_body :=
                         Rejected (ErrorObj (js "Unexpected token <")) |},
                  {| model_script :=
                       model_script Scenario.world_missing_article;
                     http_script := [] |})) by reflexivity.
  destruct (tool_fallbacks (js "get_wikipedia_article")
              [(js "title", js "X")] Scenario.world_missing_article)
    as (_ & _ & Harticle).
  destruct (Harticle _ eq_refl Hq) as [Hres _].
  destruct (Hres _ _ Hf) as [Hmissing _].
  rewrite (Hmissing eq_refl). vm_compute. reflexivity.
Defined.

(** C5 as stated fails when Wikipedia cannot be reached: [fetch] rejects,
    the search throws what [fetch] threw, nothing in the loop catches it,
    and the run ends with the error event instead of a result for the
    request.  And the result is not always a string: an [extract] that is
    a number is returned as that number. *)
Lemma tool_fallbacks_counterexample :
  run_tool (js "search_wikipedia") [(js "query", js "X")]
    {| model_script := []; http_script := [] |}
  = (Throw fetch_failed, {| model_script := []; http_script := [] |},
     [HttpGet (search_url (js "X")) (Rejected fetch_failed)])
  /\ filter is_error
       (events (snd (POST 10 Scenario.req Scenario.world_unreachable)))
     = [error (js "fetch failed")]
  /\ filter is_tool_result
       (events (snd (POST 10 Scenario.req Scenario.world_unreachable)))
     = []
  /\ filter is_supervisor_done
       (events (snd (POST 10 Scenario.req Scenario.world_unreachable)))
     = []
  /\ fst (fst (run_tool (js "get_wikipedia_article") [(js "title", js "X")]
                 {| model_script := [];
                    http_script :=
                      [Scenario.served
                         (JObj [(js "extract", JNum (js "12345"))])] |}))
     = Ret (JNum (js "12345")).
Proof. repeat split; vm_compute; reflexivity. Qed.

(** Wikipedia answers 200 with a body that is not what the tools expect:
    for the body [null] both tools throw a [TypeError]; for an [extract]
    that is a number the article tool returns that number, not a
    string. *)
Example unexpected_bodies :
  fst (fst (run_tool (js "search_wikipedia") [(js "query", js "X")]
              {| model_script := [];
                 http_script := [Scenario.served JNull] |}))
  = Throw (ErrorObj (null_property_message (js "pages")))
  /\ fst (fst (run_tool (js "get_wikipedia_article") [(js "title", js "X")]
                 {| model_script := [];
                    http_script := [Scenario.served JNull] |}))
     = Throw (ErrorObj (null_property_message (js "extract")))
  /\ fst (fst (run_tool (js "get_wikipedia_article") [(js "title", js "X")]
                 {| model_script := [];
                    http_script :=
                      [Scenario.served
                         (JObj [(js "extract", JNum (js "12345"))])] |}))
     = Ret (JNum (js "12345")).
Proof. repeat split; vm_compute; reflexivity. Qed.

(** ** C9: what the event shows and what the history keeps *)

Lemma article_preview_long (result : jsstring) :
  120 < str_length result ->
  truncation_of (article_preview result) result
  /\ str_length (article_preview result) = 121.
Proof.
  intros Hlong. unfold article_preview.
  replace (120 <? str_length result) with true
    by (symmetry; now apply Nat.ltb_lt).
  split.
  - exists 120. now split.
  - unfold str_length, ellipsis in *. rewrite length_app, length_firstn.
    change (List.length [8230%N]) with 1. lia.
Qed.

Lemma article_preview_short (result : jsstring) :
  str_length result <= 120 -> article_preview result = result.
Proof.
  intros Hshort. unfold article_preview.
  replace (120 <? str_length result) with false; [reflexivity|].
  symmetry. apply Nat.ltb_ge. exact Hshort.
Qed.

(** The request of one tool in the batch of a turn. *)
Lemma dispatch_one `{Host} `{World} (id name : jsstring)
    (input : StringRecord) (acc : list ToolResultBlockParam) (w w1 : W)
    (result : json) (o : list Action) :
  run_tool name input w = (Ret result, w1, o) ->
  dispatch [ToolUseBlock id name input] acc w
  = (Ret (acc ++ [{| tool_use_id := id; result_content := result |}]), w1,
     Emit (researcher_tool_call name input) :: o).
Proof.
  intros Hrun. cbn [dispatch]. unfold bind, emit, ret. rewrite Hrun.
  cbn [app]. now rewrite app_nil_r.
Qed.

(** The two texts of a search whose titles are strings. *)
Lemma search_texts `{Host} (cands : list Candidate) (titles : list jsstring) :
  cands <> [] ->
  map cand_title cands = map (fun s => Some (JStr s)) titles ->
  search_result cands
  = Resolved
      (join newline
         (map (fun r => bullet ++ js " " ++ fst r ++ js ": " ++ snd r)
            (combine titles (map snippet cands))))
  /\ search_preview cands = Resolved (join (js ", ") titles).
Proof.
  intros Hne Ht.
  assert (Hlines : all_resolved (map bullet_line cands)
                   = Resolved
                       (map (fun r => bullet ++ js " " ++ fst r ++ js ": "
                                      ++ snd r)
                          (combine titles (map snippet cands)))).
  { clear Hne. revert titles Ht.
    induction cands as [|c cands IH]; intros [|s titles] Ht;
      try discriminate; [reflexivity|].
    cbn [map] in Ht. injection Ht as Hc Ht.
    cbn [map combine all_resolved]. rewrite (IH _ Ht).
    unfold bullet_line. rewrite Hc. reflexivity. }
  assert (Hstrings : all_resolved
                       (map (fun v => match v with
                                      | None | Some JNull => Resolved []
                                      | Some x => json_to_string x
                                      end) (map cand_title cands))
                     = Resolved titles).
  { rewrite Ht. clear. induction titles as [|s titles IH]; [reflexivity|].
    cbn [map all_resolved]. rewrite IH. reflexivity. }
  unfold search_result, search_preview, join_values.
  destruct cands as [|c cands]; [contradiction|].
  rewrite Hlines, Hstrings. split; reflexivity.
Qed.

(** C9, as the code has it.  What is stored as the content of the
    tool_result, and so sent back to the model in the next call, is the
    whole result of the tool: for an article the extract Wikipedia sent
    (or one of the two fixed texts), for a search the lines of all the
    candidates, for an unknown tool the unknown-tool text.  What the event
    shows is made from the same answer: for an article whose result is a
    string, that string when it has at most 120 code units and otherwise
    its first 120 code units and an ellipsis; for a search, not a cut of
    the result but the titles of the candidates joined by commas, whatever
    their length, with their number; for an unknown tool, the text. *)
Theorem preview_and_storage `{Host} `{World} (id name : jsstring)
    (input : StringRecord) (acc : list ToolResultBlockParam) (w : W) :
  (forall q res w1 result preview,
     name = js "get_wikipedia_article" ->
     encodeURIComponent
       (string_or_undefined (lookup_last (js "title") input)) = Resolved q ->
     fetch (summary_url q) w = (Resolved res, w1) ->
     article_response
       (string_or_undefined (lookup_last (js "title") input)) res
     = Resolved result ->
     preview_of result = Resolved preview ->
     dispatch [ToolUseBlock id name input] acc w
     = (Ret (acc ++ [{| tool_use_id := id; result_content := result |}]), w1,
        [Emit (researcher_tool_call name input);
         HttpGet (summary_url q) (Resolved res);
         Emit (researcher_tool_result name preview None)])
     /\ (forall s,
           result = JStr s ->
           preview = JStr (article_preview s)
           /\ (120 < str_length s ->
               truncation_of (article_preview s) s
               /\ str_length (article_preview s) = 121)
           /\ (str_length s <= 120 -> article_preview s = s)))
  /\ (forall q res w1 cands result preview,
        name = js "search_wikipedia" ->
        encodeURIComponent
          (string_or_undefined (lookup_last (js "query") input))
        = Resolved q ->
        fetch (search_url q) w = (Resolved res, w1) ->
        search_response res = Resolved cands ->
        search_result cands = Resolved result ->
        search_preview cands = Resolved preview ->
        dispatch [ToolUseBlock id name input] acc w
        = (Ret (acc ++ [{| tool_use_id := id;
                           result_content := JStr result |}]), w1,
           [Emit (researcher_tool_call name input);
            HttpGet (search_url q) (Resolved res);
            Emit (researcher_tool_result name (JStr preview)
                    (Some (List.length cands)))])
        /\ (cands = [] ->
            result = no_results /\ preview = no_results_preview)
        /\ (forall titles,
              cands <> [] ->
              map cand_title cands = map (fun s => Some (JStr s)) titles ->
              result
              = join newline
                  (map (fun r => bullet ++ js " " ++ fst r ++ js ": "
                                 ++ snd r)
                     (combine titles (map snippet cands)))
              /\ preview = join (js ", ") titles))
  /\ (name <> js "search_wikipedia" -> name <> js "get_wikipedia_article" ->
      dispatch [ToolUseBlock id name input] acc w
      = (Ret (acc ++ [{| tool_use_id := id;
                         result_content := JStr unknown_tool |}]), w,
         [Emit (researcher_tool_call name input);
          Emit (researcher_tool_result name (JStr unknown_tool) None)]))
  /\ (forall fuel model history w0 resp results w2 o,
        messages_create (researcher_request model history) w0
        = (Resolved resp, w) ->
        is_tool_use_stop (stop_reason resp) = true ->
        dispatch (filter is_tool_use (content resp)) [] w
        = (Ret results, w2, o) ->
        exists answer rest,
          snd (research_loop (S (S fuel)) model history w0)
          = [ModelCall (researcher_request model history) (Resolved resp)]
            ++ map Emit (thinking_events (content resp)) ++ o
            ++ ModelCall
                 (researcher_request model
                    (history
                       ++ [{| role := assistant;
                              turn := Blocks (content resp) |}]
                       ++ [{| role := user;
                              turn := ToolResults results |}])) answer
               :: rest).
Proof.
  split; [|split; [|split]].
  - intros q res w1 result preview -> Hq Hf Hr Hp.
    split.
    + apply dispatch_one. rewrite (run_article _ _ _ _ _ Hq Hf), Hr, Hp.
      reflexivity.
    + intros s ->. cbn [preview_of] in Hp. injection Hp as <-.
      split; [reflexivity|]. split.
      * apply article_preview_long.
      * apply article_preview_short.
  - intros q res w1 cands result preview -> Hq Hf Hc Hr Hp.
    split; [|split].
    + apply dispatch_one. rewrite (run_search _ _ _ _ _ Hq Hf), Hc, Hr, Hp.
      reflexivity.
    + intros ->. cbn in Hr, Hp. injection Hr as <-. injection Hp as <-.
      now split.
    + intros titles Hne Ht.
      destruct (search_texts cands titles Hne Ht) as [Er Ep].
      rewrite Er in Hr. rewrite Ep in Hp.
      injection Hr as <-. injection Hp as <-. now split.
  - intros H1 H2. apply dispatch_one. unfold run_tool.
    now rewrite (name_test _ _ H1), (name_test _ _ H2).
  - intros fuel model history w0 resp results w2 o Hcall Hstop Hd.
    rewrite (loop_turn (S fuel) _ _ _ _ _ _ _ _ Hcall Hstop Hd).
    match goal with
    | |- context [research_loop (S fuel) model ?h w2] =>
        destruct (loop_first_call fuel model h w2) as (answer & rest & E);
        destruct (research_loop (S fuel) model h w2) as [[r w3] o3]
    end.
    cbn [snd] in *. subst o3. now exists answer, rest.
Qed.

(** An article of 200 letters: the event shows 120 of them and the
    ellipsis, the history gets all 200. *)
Lemma preview_and_storage_witness :
  dispatch [ToolUseBlock (js "toolu_02") (js "get_wikipedia_article")
              [(js "title", js "X")]] [] Scenario.world_long_article
  = (Ret [{| tool_use_id := js "toolu_02";
             result_content := JStr Scenario.long_article |}],
     {| model_script := []; http_script := [] |},
     [Emit (researcher_tool_call (js "get_wikipedia_article")
              [(js "title", js "X")]);
      HttpGet (summary_url (js "X"))
        (Scenario.served (Scenario.summary Scenario.long_article));
      Emit (researcher_tool_result (js "get_wikipedia_article")
              (JStr (firstn 120 Scenario.long_article ++ ellipsis)) None)]).
Proof.
  assert (Hq : encodeURIComponent
                 (string_or_undefined
                    (lookup_last (js "title") [(js "title", js "X")]))
               = Resolved (js "X")) by (vm_compute; reflexivity).
  assert (Hf : fetch (summary_url (js "X")) Scenario.world_long_article
               = (Resolved
                    {| ok := true;
                       json_body :=
                         Resolved (Scenario.summary Scenario.long_article) |},
                  {| model_script := []; http_script := [] |}))
    by reflexivity.
  destruct (preview_and_storage (js "toolu_02") (js "get_wikipedia_article")
              [(js "title", js "X")] [] Scenario.world_long_article)
    as (Harticle & _).
  destruct (Harticle (js "X") _ _ (JStr Scenario.long_article)
              (JStr (firstn 120 Scenario.long_article ++ ellipsis))
              eq_refl Hq Hf) as [Hd _];
    [vm_compute; reflexivity|vm_compute; reflexivity|].
  exact Hd.
Defined.

(** C9 as stated fails for a search: with one hit whose title has 130
    letters the result is long, and the event shows the whole title, which
    is longer than the cap and is no cut of the result (it does not end
    with an ellipsis). *)
Lemma preview_and_storage_counterexample :
  exists result w' pre,
    run_tool (js "search_wikipedia") [(js "query", js "X")]
      Scenario.world_long_title
    = (Ret (JStr result), w',
       pre ++ [Emit (researcher_tool_result (js "search_wikipedia")
                       (JStr Scenario.long_title) (Some 1))])
    /\ 120 < str_length result
    /\ 120 < str_length Scenario.long_title
    /\ ~ truncation_of Scenario.long_title result.
Proof.
  eexists _, _, [_]. split; [vm_compute; reflexivity|].
  split; [vm_compute; lia|]. split; [vm_compute; lia|].
  intros (n & _ & E).
  apply (f_equal (fun l => last l 0%N)) in E.
  unfold ellipsis in E. rewrite last_last in E.
  vm_compute in E. discriminate.
Qed.

(** The turn after the article of 200 letters: the history sent to the
    model carries all 200. *)
Example stored_in_history :
  researcher_histories
    (snd (research_loop 2 (js "claude-sonnet-4-6") Scenario.seed_X
            {| model_script :=
                 [Scenario.reply [Scenario.article_X] tool_use;
                  Scenario.reply [TextBlock (js "X is ...")] end_turn];
               http_script :=
                 [Scenario.served
                    (Scenario.summary Scenario.long_article)] |}))
  = [Scenario.seed_X;
     Scenario.seed_X
       ++ [{| role := assistant; turn := Blocks [Scenario.article_X] |};
           {| role := user;
              turn :=
                ToolResults
                  [{| tool_use_id := js "toolu_02";
                      result_content := JStr Scenario.long_article |}] |}]].
Proof. vm_compute. reflexivity. Qed.

(* ================================================================== *)
(** * More of the handler *)

(** ** The text handed to [JSON.parse] *)

Lemma from_first_skip (c : code_unit) (pre rest : jsstring) :
  ~ In c pre -> from_first c (pre ++ c :: rest) = Some (c :: rest).
Proof.
  induction pre as [|x pre IH]; cbn [app from_first]; intros Hno.
  - now rewrite N.eqb_refl.
  - destruct (x =? c)%N eqn:E.
    + apply N.eqb_eq in E. exfalso. apply Hno. now left.
    + apply IH. intros Hin. apply Hno. now right.
Qed.

Lemma from_first_none (c : code_unit) (s : jsstring) :
  ~ In c s -> from_first c s = None.
Proof.
  induction s as [|x s IH]; cbn [from_first]; intros Hno; [reflexivity|].
  destruct (x =? c)%N eqn:E.
  - apply N.eqb_eq in E. exfalso. apply Hno. now left.
  - apply IH. intros Hin. apply Hno. now right.
Qed.

Lemma through_last_none (c : code_unit) (s : jsstring) :
  ~ In c s -> through_last c s = None.
Proof.
  induction s as [|x s IH]; cbn [through_last]; intros Hno; [reflexivity|].
  rewrite IH by (intros Hin; apply Hno; now right).
  destruct (x =? c)%N eqn:E; [|reflexivity].
  apply N.eqb_eq in E. exfalso. apply Hno. now left.
Qed.

Lemma through_last_keep (c : code_unit) (body post : jsstring) :
  ~ In c post -> through_last c (body ++ c :: post) = Some (body ++ [c]).
Proof.
  intros Hno. induction body as [|x body IH]; cbn [app through_last].
  - now rewrite (through_last_none _ _ Hno), N.eqb_refl.
  - now rewrite IH.
Qed.

(** X1.  The planner may wrap its JSON in prose or in a code fence: what
    goes to [JSON.parse] is exactly the span from the first opening brace
    to the last closing brace.  An output with no opening brace, or with no
    closing brace after the first opening one, goes to [JSON.parse]
    whole. *)
Theorem plan_source_span (pre body post : jsstring) :
  (~ In lbrace pre -> ~ In rbrace post ->
   plan_source (pre ++ lbrace :: body ++ rbrace :: post)
   = lbrace :: body ++ [rbrace])
  /\ (~ In lbrace pre -> plan_source pre = pre)
  /\ (~ In lbrace pre -> ~ In rbrace post ->
      plan_source (pre ++ lbrace :: post) = pre ++ lbrace :: post).
Proof.
  unfold plan_source, match_braces. split; [|split].
  - intros Hpre Hpost.
    rewrite (from_first_skip _ _ _ Hpre).
    now rewrite (through_last_keep _ _ _ Hpost).
  - intros Hpre. now rewrite (from_first_none _ _ Hpre).
  - intros Hpre Hpost.
    rewrite (from_first_skip _ _ _ Hpre).
    now rewrite (through_last_none _ _ Hpost).
Qed.

(** A plan inside a Markdown fence. *)
Lemma plan_source_span_witness :
  plan_source (js "```json" ++ newline ++ Scenario.plan_text ++ newline
               ++ js "```")
  = Scenario.plan_text.
Proof.
  assert (Hpre : ~ In lbrace (js "```json" ++ newline))
    by (vm_compute; intuition discriminate).
  assert (Hpost : ~ In rbrace (newline ++ js "```"))
    by (vm_compute; intuition discriminate).
  pose proof (proj1 (plan_source_span
                       (js "```json" ++ newline)
                       (removelast (tl Scenario.plan_text))
                       (newline ++ js "```")) Hpre Hpost) as E.
  vm_compute in E. vm_compute. exact E.
Defined.

(** ** Tags in excerpts *)

Lemma strip_tags_fixed (s : jsstring) : has_tag s = false -> strip_tags s = s.
Proof.
  induction s as [|c r IH]; [reflexivity|].
  intros H. rewrite strip_tags_cons.
  cbn [has_tag] in H.
  destruct (tag_end (c :: r)); [discriminate|].
  now rewrite (IH H).
Qed.

Lemma tag_end_plain (rest : jsstring) (c : code_unit) :
  c <> langle -> tag_end (c :: rest) = None.
Proof.
  intros Hc. destruct rest as [|d rest]; [reflexivity|].
  cbn. destruct (c =? langle)%N eqn:E; [|reflexivity].
  apply N.eqb_eq in E. contradiction.
Qed.

Lemma after_rangle_skip (body rest : jsstring) :
  ~ In rangle body -> after_rangle (body ++ rangle :: rest) = Some rest.
Proof.
  induction body as [|x body IH]; cbn [app after_rangle]; intros Hno.
  - now rewrite N.eqb_refl.
  - destruct (x =? rangle)%N eqn:E.
    + apply N.eqb_eq in E. exfalso. apply Hno. now left.
    + apply IH. intros Hin. apply Hno. now right.
Qed.

(** X2.  Stripping deletes the tags and nothing else: text without an
    opening angle bracket is kept as it is up to the first tag, a tag (an
    opening bracket, at least one code unit, none of them a closing
    bracket, then a closing bracket) is dropped, and the scan goes on
    behind it; a string in which the pattern does not match is returned
    unchanged, so stripping twice is stripping once. *)
Theorem strip_tags_text (text body rest : jsstring) :
  (~ In langle text -> body <> [] -> ~ In rangle body ->
   strip_tags (text ++ langle :: body ++ rangle :: rest)
   = text ++ strip_tags rest)
  /\ (has_tag text = false -> strip_tags text = text)
  /\ strip_tags (strip_tags text) = strip_tags text.
Proof.
  split; [|split].
  - intros Htext Hbody Hno.
    induction text as [|c text IH]; cbn [app].
    + rewrite strip_tags_cons.
      destruct body as [|d body]; [congruence|].
      cbn [app tag_end]. rewrite N.eqb_refl.
      destruct (d =? rangle)%N eqn:E.
      { apply N.eqb_eq in E. exfalso. apply Hno. now left. }
      cbn [negb andb].
      rewrite after_rangle_skip by (intros Hin; apply Hno; now right).
      reflexivity.
    + rewrite strip_tags_cons.
      rewrite tag_end_plain by (intros ->; apply Htext; now left).
      rewrite IH by (intros Hin; apply Htext; now right).
      reflexivity.
  - apply strip_tags_fixed.
  - apply strip_tags_fixed, strip_tags_clean.
Qed.

(** The excerpt of the specification's scenario. *)
Lemma strip_tags_text_witness :
  strip_tags (js "the <b>letter</b> X") = js "the letter X".
Proof.
  assert (H1 : ~ In langle (js "the ")) by (vm_compute; intuition discriminate).
  assert (H2 : js "b" <> []) by discriminate.
  assert (H3 : ~ In rangle (js "b")) by (vm_compute; intuition discriminate).
  replace (js "the <b>letter</b> X")
    with (js "the " ++ langle :: js "b" ++ rangle :: js "letter</b> X")
    by (vm_compute; reflexivity).
  rewrite (proj1 (strip_tags_text (js "the ") (js "b") (js "letter</b> X"))
             H1 H2 H3).
  vm_compute. reflexivity.
Defined.

(** ** Every action of a run *)

Section Structure.
Context {host : Host} {W : Type} {world : World W}.

Local Open Scope js_scope.

Lemma traces_bind (P : list Action -> Prop) A B (m : M W A)
    (k : A -> M W B) :
  (forall a b, P a -> P b -> P (a ++ b)) ->
  traces_satisfy P m -> (forall a, traces_satisfy P (k a)) ->
  traces_satisfy P (bind m k).
Proof.
  intros Happ Hm Hk w. unfold bind. specialize (Hm w).
  destruct (m w) as [[[a| |] w1] o1]; cbn [snd] in *; try exact Hm.
  specialize (Hk a w1). destruct (k a w1) as [[r w2] o2]. cbn [snd] in *.
  now apply Happ.
Qed.

Lemma traces_create (P : list Action -> Prop) (p : MessageCreateParams) :
  (forall r, P [ModelCall p r]) -> traces_satisfy P (create p).
Proof.
  intros H w. unfold create.
  destruct (messages_create p w) as [[m|t] w1]; apply H.
Qed.

Lemma traces_http_get (P : list Action -> Prop) (url : jsstring) :
  (forall r, P [HttpGet url r]) -> traces_satisfy P (http_get url).
Proof.
  intros H w. unfold http_get.
  destruct (fetch url w) as [[m|t] w1]; apply H.
Qed.

Lemma traces_lift (P : list Action -> Prop) A (x : Outcome A) :
  P [] -> traces_satisfy P (lift (W:=W) x).
Proof. intros H w. now destruct x. Qed.

Variable req : Request.

(** *** A principle for whole runs

    A property of traces that holds of the empty trace, of each single
    action the handler makes outside its tools, and of the traces of a
    batch of tool invocations, and that is kept when traces are put one
    after the other, holds of the trace of every run. *)
Section WholeRun.
Variable P : list Action -> Prop.
Hypothesis P_nil : P [].
Hypothesis P_app : forall a b, P a -> P b -> P (a ++ b).
Hypothesis P_emit : forall e, P [Emit e].
Hypothesis P_close : P [Close].
Hypothesis P_supervisor : forall r, P [ModelCall (supervisor_request req) r].
Hypothesis P_researcher :
  forall history r,
    P [ModelCall (researcher_request (researcherModel req) history) r].
Hypothesis P_synthesizer :
  forall prompt r, P [ModelCall (synthesizer_request req prompt) r].
Hypothesis P_dispatch :
  forall blocks acc, traces_satisfy P (dispatch blocks acc).

Lemma whole_emit (e : AgentEvent) : traces_satisfy P (emit (W:=W) e).
Proof. intros w. apply P_emit. Qed.

Lemma whole_ret A (a : A) : traces_satisfy P (ret (W:=W) a).
Proof. intros w. exact P_nil. Qed.

Lemma whole_lift A (x : Outcome A) : traces_satisfy P (lift (W:=W) x).
Proof. apply traces_lift. exact P_nil. Qed.

Ltac whole :=
  first
    [ apply whole_ret
    | apply whole_emit
    | apply whole_lift
    | apply traces_bind; [exact P_app| |intros ?] ].

Lemma whole_emit_thinking (blocks : list ContentBlock) :
  traces_satisfy P (emit_thinking (W:=W) blocks).
Proof.
  intros w. rewrite emit_thinking_run. cbn [snd].
  induction (thinking_events blocks) as [|e evs IH]; [exact P_nil|].
  change (map Emit (e :: evs)) with ([Emit e] ++ map Emit evs).
  apply P_app; [apply P_emit|exact IH].
Qed.

Lemma whole_research_loop (fuel : nat) (history : list MessageParam) :
  traces_satisfy P (research_loop fuel (researcherModel req) history).
Proof.
  revert history; induction fuel as [|fuel IH]; intros history; cbn.
  - intros w. exact P_nil.
  - whole.
    + apply traces_create. apply P_researcher.
    + whole; [apply whole_emit_thinking|].
      destruct (is_tool_use_stop (stop_reason a)).
      * whole; [apply P_dispatch|apply IH].
      * repeat whole.
Qed.

Lemma whole_pipeline (fuel : nat) : traces_satisfy P (pipeline fuel req).
Proof.
  unfold pipeline, planning, run_plan, research, synthesis.
  whole.
  - whole; [whole|].
    whole; [|repeat whole].
    apply traces_create. apply P_supervisor.
  - whole; [whole|]. whole; [whole|].
    whole; [whole|]. whole; [whole|].
    whole.
    + whole; [whole|].
      whole; [whole|apply whole_research_loop].
    + whole; [whole|]. whole; [whole|].
      cbv zeta. whole; [whole|].
      whole; [whole|].
      whole; [|repeat whole].
      apply traces_create. apply P_synthesizer.
Qed.

Lemma whole_POST (fuel : nat) (w : W) : P (snd (POST fuel req w)).
Proof.
  rewrite start_of_pipeline.
  pose proof (whole_pipeline fuel w) as S.
  destruct (pipeline fuel req w) as [[[[]|t|] w1] o1]; cbn [snd] in *.
  - apply P_app; [exact S|exact P_close].
  - apply P_app; [apply P_app|]; [exact S|apply P_emit|exact P_close].
  - exact S.
Qed.
End WholeRun.

(** *** The tools *)

Lemma shaped_run_tool (name : jsstring) (input : StringRecord) :
  traces_satisfy (Forall (handler_action req)) (run_tool name input).
Proof.
  assert (Happ : forall a b : list Action,
             Forall (handler_action req) a -> Forall (handler_action req) b ->
             Forall (handler_action req) (a ++ b))
    by (intros a b Ha Hb; apply Forall_app; now split).
  assert (Hemit : forall e, traces_satisfy (Forall (handler_action req))
                              (emit (W:=W) e))
    by (intros e w; repeat constructor).
  assert (Hret : forall A (a : A), traces_satisfy (Forall (handler_action req))
                                     (ret (W:=W) a))
    by (intros A a w; constructor).
  assert (Hlift : forall A (x : Outcome A),
             traces_satisfy (Forall (handler_action req)) (lift (W:=W) x))
    by (intros A x; apply traces_lift; constructor).
  unfold run_tool, searchWikipedia, getWikipediaArticle.
  destruct (str_eqb name (js "search_wikipedia"));
    [|destruct (str_eqb name (js "get_wikipedia_article"))].
  - apply traces_bind; [exact Happ| |intros results].
    + apply traces_bind; [exact Happ|apply Hlift|intros q].
      apply traces_bind; [exact Happ| |intros res].
      * apply traces_http_get. intros r. constructor; [|constructor].
        eexists. left. reflexivity.
      * apply Hlift.
    + apply traces_bind; [exact Happ|apply Hlift|intros result].
      apply traces_bind; [exact Happ|apply Hlift|intros resultPreview].
      apply traces_bind; [exact Happ|apply Hemit|intros _].
      apply Hret.
  - apply traces_bind; [exact Happ| |intros result].
    + apply traces_bind; [exact Happ|apply Hlift|intros q].
      apply traces_bind; [exact Happ| |intros res].
      * apply traces_http_get. intros r. constructor; [|constructor].
        eexists. right. reflexivity.
      * apply Hlift.
    + apply traces_bind; [exact Happ|apply Hlift|intros resultPreview].
      apply traces_bind; [exact Happ|apply Hemit|intros _]. apply Hret.
  - cbv zeta. apply traces_bind; [exact Happ|apply Hemit|intros _].
    apply Hret.
Qed.

Lemma shaped_dispatch (blocks : list ContentBlock)
    (acc : list ToolResultBlockParam) :
  traces_satisfy (Forall (handler_action req)) (dispatch blocks acc).
Proof.
  assert (Happ : forall a b : list Action,
             Forall (handler_action req) a -> Forall (handler_action req) b ->
             Forall (handler_action req) (a ++ b))
    by (intros a b Ha Hb; apply Forall_app; now split).
  revert acc; induction blocks as [|b blocks IH]; intros acc; cbn.
  - intros w. constructor.
  - destruct b; [apply IH| |apply IH].
    apply traces_bind; [exact Happ| |intros _].
    + intros w. repeat constructor.
    + apply traces_bind; [exact Happ|apply shaped_run_tool|intros r].
      apply IH.
Qed.

Lemma shaped_POST (fuel : nat) (w : W) :
  Forall (handler_action req) (snd (POST fuel req w)).
Proof.
  apply whole_POST.
  - constructor.
  - intros a b Ha Hb. apply Forall_app. now split.
  - repeat constructor.
  - repeat constructor.
  - intros r. constructor; [|constructor]. now left.
  - intros history r. constructor; [|constructor]. right. left.
    now exists history.
  - intros prompt r. constructor; [|constructor]. right. right.
    now exists prompt.
  - apply shaped_dispatch.
Qed.

End Structure.

(** ** What a run asks of the model and of the network *)

Section Calls.
Context {host : Host} {W : Type} {world : World W}.

Lemma model_calls_app (a b : list Action) :
  model_calls (a ++ b) = model_calls a ++ model_calls b.
Proof. apply flat_map_app. Qed.

Lemma findings_app (a b : list Action) (s : jsstring) :
  findings (a ++ b) s = findings b (findings a s).
Proof. apply fold_left_app. Qed.

Lemma http_requests_app (a b : list Action) :
  http_requests (a ++ b) = http_requests a ++ http_requests b.
Proof. apply flat_map_app. Qed.

Lemma model_calls_emits (evs : list AgentEvent) :
  model_calls (map Emit evs) = [].
Proof. induction evs as [|e evs IH]; [reflexivity|exact IH]. Qed.

Lemma http_requests_emits (evs : list AgentEvent) :
  http_requests (map Emit evs) = [].
Proof. induction evs as [|e evs IH]; [reflexivity|exact IH]. Qed.

Lemma findings_quiet (o : list Action) (s : jsstring) :
  model_calls o = [] -> findings o s = s.
Proof.
  induction o as [|a o IH]; [reflexivity|].
  destruct a as [e|p r|url r|]; cbn; try exact IH. discriminate.
Qed.

(** The calls of the loop are the researcher's, one per turn, and the
    summary it returns is the first text of the last response. *)
Lemma loop_calls (fuel : nat) (model : jsstring)
    (history : list MessageParam) (w : W) :
  match research_loop fuel model history w with
  | (r, _, o) =>
      map fst (model_calls o)
      = map (researcher_request model) (researcher_histories o)
      /\ List.length (researcher_histories o) <= fuel
      /\ match r with
         | Ret s => forall start, findings o start = s
         | _ => True
         end
  end.
Proof.
  revert history w; induction fuel as [|fuel IH]; intros history w.
  - cbn. repeat split. lia.
  - cbn [research_loop]. unfold bind at 1. unfold create.
    destruct (messages_create (researcher_request model history) w)
      as [[resp|t] w1]; [|cbn; repeat split; lia].
    unfold bind at 1. rewrite emit_thinking_run.
    destruct (is_tool_use_stop (stop_reason resp)).
    + unfold bind at 1.
      pose proof (dispatch_actions (filter is_tool_use (content resp)) [] w1)
        as T.
      destruct (dispatch (filter is_tool_use (content resp)) [] w1)
        as [[[results|t|] w2] o2]; cbn [snd] in T;
        destruct (tool_actions_calls _ T) as (Q1 & Q2 & _).
      * match goal with
        | |- context [research_loop fuel model ?h w2] =>
            specialize (IH h w2);
              destruct (research_loop fuel model h w2) as [[r w3] o3]
        end.
        destruct IH as (I1 & I2 & I3).
        change ([ModelCall (researcher_request model history) (Resolved resp)]
                  ++ map Emit (thinking_events (content resp)) ++ o2 ++ o3)
          with (ModelCall (researcher_request model history) (Resolved resp)
                  :: (map Emit (thinking_events (content resp)) ++ o2 ++ o3)).
        change (model_calls (?a :: ?o)) with (model_calls [a] ++ model_calls o).
        change (researcher_histories (?a :: ?o))
          with (researcher_histories [a] ++ researcher_histories o).
        rewrite !model_calls_app, !researcher_histories_app,
          model_calls_emits, histories_emits, Q1, Q2.
        cbn [app model_calls researcher_histories flat_map map fst
               researcher_request system messages List.length].
        rewrite I1. repeat split; [lia|].
        destruct r as [s| |]; [|exact I|exact I].
        intros start.
        change (ModelCall ?p ?x :: ?o) with ([ModelCall p x] ++ o).
        rewrite !findings_app. apply I3.
      * cbn [app]. cbn [model_calls researcher_histories flat_map].
        fold (model_calls (map Emit (thinking_events (content resp)) ++ o2)).
        fold (researcher_histories
                (map Emit (thinking_events (content resp)) ++ o2)).
        rewrite !model_calls_app, !researcher_histories_app,
          model_calls_emits, histories_emits, Q1, Q2.
        cbn. repeat split. lia.
      * cbn [app]. cbn [model_calls researcher_histories flat_map].
        fold (model_calls (map Emit (thinking_events (content resp)) ++ o2)).
        fold (researcher_histories
                (map Emit (thinking_events (content resp)) ++ o2)).
        rewrite !model_calls_app, !researcher_histories_app,
          model_calls_emits, histories_emits, Q1, Q2.
        cbn. repeat split. lia.
    + unfold bind, emit, ret. cbn [app].
      cbn [model_calls researcher_histories flat_map].
      fold (model_calls
              (map Emit (thinking_events (content resp))
                 ++ [Emit researcher_done])).
      fold (researcher_histories
              (map Emit (thinking_events (content resp))
                 ++ [Emit researcher_done])).
      rewrite !model_calls_app, !researcher_histories_app,
        model_calls_emits, histories_emits.
      cbn. repeat split; [lia|].
      intros start. apply findings_quiet.
      rewrite model_calls_app, model_calls_emits. reflexivity.
Qed.

Ltac measuring :=
  unfold model_calls, researcher_histories, findings in *;
  cbn [app flat_map fold_left map fst system supervisor_request
         synthesizer_request researcher_request messages List.length];
  rewrite ?flat_map_app, ?fold_left_app, ?map_app, ?length_app;
  cbn [app flat_map fold_left map fst system supervisor_request
         synthesizer_request researcher_request messages List.length];
  rewrite ?app_nil_r.

(** The calls of the body of the handler: the supervisor's one call, the
    researcher's calls, and at most one call of the synthesizer, whose
    prompt carries the summary of the loop. *)
Lemma pipeline_calls (fuel : nat) (req : Request) (w : W) :
  match pipeline fuel req w with
  | (_, _, o) =>
      exists tail,
        map fst (model_calls o)
        = supervisor_request req
            :: map (researcher_request (researcherModel req))
                 (researcher_histories o) ++ tail
        /\ List.length (researcher_histories o) <= fuel
        /\ (tail = []
            \/ exists format,
                 tail = [synthesizer_request req
                           (synthesizer_prompt
                              (synthesizerInstruction (question req) format)
                              (findings o []))])
  end.
Proof.
  unfold pipeline, planning, run_plan, research, synthesis, bind, create,
    emit, lift, ret, throw.
  cbv beta iota zeta.
  destruct (messages_create (supervisor_request req) w) as [[resp|t] w1];
    cbv beta iota zeta;
    [|exists []; measuring; repeat split; [lia|now left]].
  destruct (first_block_text (content resp)) as [raw|t];
    cbv beta iota zeta;
    [|exists []; measuring; repeat split; [lia|now left]].
  destruct (get_prop (parse_plan (question req) raw) (js "search_term"))
    as [term|t]; cbv beta iota zeta;
    [|exists []; measuring; repeat split; [lia|now left]].
  destruct (get_prop (parse_plan (question req) raw) (js "response_format"))
    as [format|t]; cbv beta iota zeta;
    [|exists []; measuring; repeat split; [lia|now left]].
  destruct (to_string term) as [search_term|t]; cbv beta iota zeta;
    [|exists []; measuring; repeat split; [lia|now left]].
  match goal with
  | |- context [research_loop fuel ?m ?h w1] =>
      pose proof (loop_calls fuel m h w1) as L;
        destruct (research_loop fuel m h w1) as [[r w2] o2]
  end.
  destruct L as (L1 & L2 & L3).
  destruct r as [summary|t|]; cbv beta iota zeta;
    [|exists []; measuring; rewrite L1; repeat split; [lia|now left]
     |exists []; measuring; rewrite L1; repeat split; [lia|now left]].
  destruct (to_string format) as [response_format|t]; cbv beta iota zeta;
    [|exists []; measuring; rewrite L1; repeat split; [lia|now left]].
  match goal with
  | |- context [messages_create ?p w2] =>
      destruct (messages_create p w2) as [[answer|t] w3]
  end; cbv beta iota zeta.
  - destruct (first_block_text (content answer)) as [final|t];
      cbv beta iota zeta.
    + eexists [_]. measuring. rewrite L1.
      repeat split; [lia|]. right. exists response_format.
      now rewrite (L3 []).
    + eexists [_]. measuring. rewrite L1.
      repeat split; [lia|]. right. exists response_format.
      now rewrite (L3 []).
  - eexists [_]. measuring. rewrite L1.
    repeat split; [lia|]. right. exists response_format.
    now rewrite (L3 []).
Qed.

(** A tool calls [fetch] at most once. *)
Lemma run_tool_requests (name : jsstring) (input : StringRecord) (w : W) :
  List.length (http_requests (snd (run_tool name input w))) <= 1.
Proof.
  unfold run_tool, searchWikipedia, getWikipediaArticle, bind, http_get,
    lift, ret, throw, emit.
  destruct (str_eqb name (js "search_wikipedia"));
    [|destruct (str_eqb name (js "get_wikipedia_article"))].
  - destruct (encodeURIComponent _) as [q|t]; [|cbn; lia].
    destruct (fetch (search_url q) w) as [[res|t] w1]; [|cbn; lia].
    destruct (search_response res) as [results|t]; [|cbn; lia].
    destruct (search_result results) as [result|t]; [|cbn; lia].
    destruct (search_preview results) as [preview|t]; cbn; lia.
  - destruct (encodeURIComponent _) as [q|t]; [|cbn; lia].
    destruct (fetch (summary_url q) w) as [[res|t] w1]; [|cbn; lia].
    destruct (article_response _ res) as [result|t]; [|cbn; lia].
    destruct (preview_of result) as [preview|t]; cbn; lia.
  - cbn. lia.
Qed.

Lemma requests_app (a b : list Action) :
  one_request_per_call a -> one_request_per_call b ->
  one_request_per_call (a ++ b).
Proof.
  unfold one_request_per_call.
  rewrite http_requests_app, events_app, filter_app, !length_app. lia.
Qed.

Lemma dispatch_requests (blocks : list ContentBlock)
    (acc : list ToolResultBlockParam) :
  traces_satisfy one_request_per_call (dispatch blocks acc).
Proof.
  revert acc; induction blocks as [|b blocks IH]; intros acc w;
    cbn [dispatch].
  - cbn. unfold one_request_per_call. cbn. lia.
  - destruct b as [text|id name input|kind]; [apply IH| |apply IH].
    unfold bind, emit. cbv beta iota zeta.
    pose proof (run_tool_requests name input w) as T.
    destruct (run_tool name input w) as [[[result|t|] w1] o1];
      cbn [snd] in *.
    + match goal with
      | |- context [dispatch blocks ?a w1] =>
          specialize (IH a w1); destruct (dispatch blocks a w1) as [[r w2] o2]
      end.
      cbn [snd] in *. unfold one_request_per_call in *.
      rewrite !http_requests_app, !events_app, !filter_app, !length_app.
      cbn. lia.
    + unfold one_request_per_call.
      rewrite !http_requests_app, !events_app, !filter_app, !length_app.
      cbn. lia.
    + unfold one_request_per_call.
      rewrite !http_requests_app, !events_app, !filter_app, !length_app.
      cbn. lia.
Qed.

End Calls.

(** X3. In every run, whatever the models and the network answer, each
    action of the handler is an event, the closing of the stream, a request
    to one of the two Wikipedia addresses, or one of the three model calls
    as the handler builds them: the supervisor's with the question alone,
    the researcher's with its history, the synthesizer's with its prompt.
    Hence each agent is called with the model the request chooses for it
    and its own token limit (512, 2048, 1500), and the tools are offered to
    the researcher alone. *)
Theorem agents_as_configured `{Host} `{World} (fuel : nat) (req : Request)
    (w : W) :
  Forall (handler_action req) (snd (POST fuel req w))
  /\ Forall (as_configured req) (snd (POST fuel req w)).
Proof.
  pose proof (shaped_POST req fuel w) as S. split; [exact S|].
  eapply Forall_impl; [|exact S].
  intros [e|p r|url r|]; cbn; try easy.
  intros [->|[[history ->]|[prompt ->]]]; cbn; repeat split.
Qed.

(** X4. In every run, the calls of [fetch] that the route itself makes
    (in [searchWikipedia] and [getWikipediaArticle]) are all for addresses
    under [https://en.wikipedia.org/], and there are no more of them than
    tool-call events: the route fetches only for a tool the researcher
    invoked, once per invocation at most.  The requests that the client
    of the model API makes for [client.messages.create] are not counted
    here: they are the model calls of X3 and X5. *)
Theorem network_use `{Host} `{World} (fuel : nat) (req : Request) (w : W) :
  forallb to_wikipedia (snd (POST fuel req w)) = true
  /\ one_request_per_call (snd (POST fuel req w)).
Proof.
  split.
  - apply forallb_forall. intros a Ha.
    pose proof (shaped_POST req fuel w) as S.
    rewrite Forall_forall in S. specialize (S a Ha).
    destruct a as [e|p r|url r|]; try reflexivity.
    destruct S as [q [->| ->]]; reflexivity.
  - apply (whole_POST req one_request_per_call);
      try (intros; unfold one_request_per_call; cbn; lia).
    + exact requests_app.
    + apply dispatch_requests.
Qed.

(** X5. The model calls of every run are, in this order: one call of the
    supervisor, the calls of the researcher (one per turn of its loop),
    and at most one call of the synthesizer.  The synthesizer's prompt
    carries the summary of the loop: the first text of the researcher's
    last response. *)
Theorem call_sequence `{Host} `{World} (fuel : nat) (req : Request) (w : W) :
  match POST fuel req w with
  | (_, _, o) =>
      exists tail,
        map fst (model_calls o)
        = supervisor_request req
            :: map (researcher_request (researcherModel req))
                 (researcher_histories o) ++ tail
        /\ List.length (researcher_histories o) <= fuel
        /\ (tail = []
            \/ exists format,
                 tail = [synthesizer_request req
                           (synthesizer_prompt
                              (synthesizerInstruction (question req) format)
                              (findings o []))])
  end.
Proof.
  rewrite start_of_pipeline.
  pose proof (pipeline_calls fuel req w) as P.
  destruct (pipeline fuel req w) as [[[[]|t|] w1] o1];
    [| |exact P]; destruct P as (tail & P1 & P2 & P3); exists tail;
    rewrite !model_calls_app, !researcher_histories_app, !findings_app,
      !map_app; cbn; rewrite !app_nil_r; auto.
Qed.

(** X6. The loop of the researcher has no bound of its own.  When every
    response the model gives stops for [tool_use], the loop never returns:
    it can only be left by an exception, and a run allowed [fuel] turns
    that has not thrown has called the model [fuel] times. *)
Theorem loop_has_no_bound `{Host} `{World}
    (Hmore : forall p w m w',
        messages_create p w = (Resolved m, w') ->
        stop_reason m = Some tool_use)
    (fuel : nat) (model : jsstring) (history : list MessageParam) (w : W) :
  match research_loop fuel model history w with
  | (Ret _, _, _) => False
  | (Throw _, _, _) => True
  | (OutOfFuel, _, o) => List.length (model_calls o) = fuel
  end.
Proof.
  revert history w; induction fuel as [|fuel IH]; intros history w;
    [reflexivity|].
  cbn [research_loop]. unfold bind at 1. unfold create.
  destruct (messages_create (researcher_request model history) w)
    as [[resp|t] w1] eqn:E; [|exact I].
  rewrite (Hmore _ _ _ _ E). cbn [is_tool_use_stop].
  unfold bind at 1. rewrite emit_thinking_run. unfold bind at 1.
  pose proof (dispatch_actions (filter is_tool_use (content resp)) [] w1)
    as T.
  pose proof (dispatch_results (filter is_tool_use (content resp)) [] w1)
    as D.
  destruct (dispatch (filter is_tool_use (content resp)) [] w1)
    as [[[results|t|] w2] o2]; cbn [snd] in T;
    destruct (tool_actions_calls _ T) as (Q1 & _).
  - match goal with
    | |- context [research_loop fuel model ?h w2] =>
        specialize (IH h w2);
          destruct (research_loop fuel model h w2) as [[[s|t|] w3] o3]
    end; [exact IH|exact I|].
    rewrite !model_calls_app, model_calls_emits, Q1. cbn. now rewrite IH.
  - exact I.
  - destruct D.
Qed.

(** X6 on a model that asks for tools at every turn: twenty-five turns
    allowed, twenty-five calls made, and the loop has not returned. *)
Lemma loop_has_no_bound_witness :
  (forall p w m w',
      messages_create (W:=unit) p w = (Resolved m, w') ->
      stop_reason m = Some tool_use)
  /\ match research_loop 25 (js "claude-sonnet-4-6") Scenario.seed_X tt with
     | (Ret _, _, _) => False
     | (Throw _, _, _) => True
     | (OutOfFuel, _, o) => List.length (model_calls o) = 25
     end.
Proof.
  assert (Hmore : forall p w m w',
             messages_create (W:=unit) p w = (Resolved m, w') ->
             stop_reason m = Some tool_use)
    by (intros p w m w' E; injection E as <- _; reflexivity).
  split; [exact Hmore|].
  exact (loop_has_no_bound Hmore 25 (js "claude-sonnet-4-6")
           Scenario.seed_X tt).
Defined.

(** * The page: reading the stream *)

Section Lines.
Import Client.

Lemma split_nonempty (sep : code_unit) (s : jsstring) : split sep s <> [].
Proof.
  destruct s as [|c r]; cbn; [discriminate|].
  destruct (c =? sep)%N; [discriminate|].
  destruct (split sep r); discriminate.
Qed.

(** A text without the separator is one piece. *)
Lemma split_plain (sep : code_unit) (s : jsstring) :
  ~ In sep s -> split sep s = [s].
Proof.
  induction s as [|c r IH]; intros Hs; [reflexivity|].
  cbn. destruct (N.eqb_spec c sep) as [->|Hc].
  - exfalso. apply Hs. now left.
  - rewrite IH; [reflexivity|]. intros Hin. apply Hs. now right.
Qed.

(** A piece ends at the first separator. *)
Lemma split_line (sep : code_unit) (l rest : jsstring) :
  ~ In sep l -> split sep (l ++ sep :: rest) = l :: split sep rest.
Proof.
  induction l as [|c r IH]; intros Hl; cbn.
  - now rewrite N.eqb_refl.
  - destruct (N.eqb_spec c sep) as [->|Hc].
    + exfalso. apply Hl. now left.
    + rewrite IH; [reflexivity|]. intros Hin. apply Hl. now right.
Qed.

(** The last piece holds no separator. *)
Lemma split_last_plain (sep : code_unit) (s : jsstring) :
  ~ In sep (last (split sep s) []).
Proof.
  induction s as [|c r IH]; [intros []|].
  cbn [split]. destruct (N.eqb_spec c sep) as [->|Hc].
  - pose proof (split_nonempty sep r) as N.
    destruct (split sep r) as [|p ps]; [contradiction|exact IH].
  - destruct (split sep r) as [|p ps]; [intros [H|[]]; now apply Hc|].
    destruct ps as [|q qs]; [|exact IH].
    cbn in *. intros [H|H]; [now apply Hc|now apply IH].
Qed.

(** Splitting a text in two parts: the pieces of the first part but the
    last, and the pieces of that last one with the second part after it. *)
Lemma split_glue (sep : code_unit) (x y : jsstring) :
  split sep (x ++ y)
  = removelast (split sep x) ++ split sep (last (split sep x) [] ++ y).
Proof.
  induction x as [|c r IH]; [reflexivity|].
  cbn [app split]. destruct (c =? sep)%N eqn:Ec.
  - rewrite IH.
    pose proof (split_nonempty sep r) as N.
    destruct (split sep r) as [|p ps]; [contradiction|reflexivity].
  - rewrite IH.
    pose proof (split_nonempty sep r) as N.
    destruct (split sep r) as [|p ps]; [contradiction|].
    destruct ps as [|q qs].
    + cbn [removelast last app split]. now rewrite Ec.
    + reflexivity.
Qed.

Lemma pop_split (sep : code_unit) (s : jsstring) :
  pop (split sep s)
  = (removelast (split sep s), Some (last (split sep s) [])).
Proof.
  pose proof (split_nonempty sep s) as N.
  now destruct (split sep s).
Qed.

Lemma removelast_nonempty_app (A : Type) (a b : list A) :
  b <> [] -> removelast (a ++ b) = a ++ removelast b.
Proof. intros Hb. now apply removelast_app. Qed.

(** The complete lines of a text in two parts. *)
Lemma complete_lines_glue (x y : jsstring) :
  complete_lines (x ++ y)
  = complete_lines x ++ complete_lines (last (split 10%N x) [] ++ y).
Proof.
  unfold complete_lines. rewrite !pop_split. cbn [fst].
  rewrite split_glue. apply removelast_app. apply split_nonempty.
Qed.

Lemma complete_lines_plain (s : jsstring) :
  ~ In 10%N s -> complete_lines s = [].
Proof.
  intros Hs. unfold complete_lines. now rewrite split_plain.
Qed.

Context {host : Host}.

Lemma handle_lines_app (a b : list jsstring) (u : Page) :
  handle_lines (a ++ b) u
  = match handle_lines a u with
    | (u', None) => handle_lines b u'
    | r => r
    end.
Proof.
  revert u; induction a as [|l a IH]; intros u; [reflexivity|].
  cbn. destruct (handle_line l u) as [u'|t]; [apply IH|reflexivity].
Qed.

Lemma on_events_app (a b : list json) (u : Page) :
  on_events (a ++ b) u
  = match on_events a u with
    | (u', None) => on_events b u'
    | r => r
    end.
Proof.
  revert u; induction a as [|l a IH]; intros u; [reflexivity|].
  cbn. destruct (on_event l u) as [u'|t]; [apply IH|reflexivity].
Qed.

(** Handling lines is handling the values their payloads parse to. *)
Lemma handle_lines_events (lines : list jsstring) (u : Page) :
  handle_lines lines u = on_events (parsed (payloads lines)) u.
Proof.
  revert u; induction lines as [|l lines IH]; intros u; [reflexivity|].
  cbn [handle_lines payloads flat_map]. unfold handle_line.
  fold (payloads lines).
  destruct (payload l) as [raw|]; [|apply IH].
  unfold parsed. cbn [app flat_map]. fold (parsed (payloads lines)).
  destruct (JSON_parse raw) as [event|]; [|apply IH].
  cbn [app on_events].
  destruct (on_event event u) as [u'|t]; [apply IH|reflexivity].
Qed.

(** The loop from a buffer that holds the unfinished line. *)
Lemma read_stream_buffer (chunks : list jsstring) (failure : option Thrown)
    (buffer : jsstring) (u : Page) :
  ~ In 10%N buffer ->
  read_stream chunks failure buffer u
  = match handle_lines (complete_lines (buffer ++ List.concat chunks)) u with
    | (u', None) => (u', failure)
    | r => r
    end.
Proof.
  revert buffer u; induction chunks as [|value rest IH]; intros buffer u Hb.
  - cbn [List.concat read_stream]. rewrite app_nil_r.
    now rewrite complete_lines_plain.
  - cbn [List.concat read_stream]. rewrite pop_split.
    rewrite app_assoc, complete_lines_glue, handle_lines_app.
    unfold complete_lines at 1. rewrite pop_split. cbn [fst].
    destruct (handle_lines (removelast (split 10%N (buffer ++ value))) u)
      as [u' [t|]]; [reflexivity|].
    apply IH. apply split_last_plain.
Qed.

End Lines.

(** X7. What [handleSubmit] makes of a stream does not depend on how the
    stream is cut into chunks: it handles, in order, the lines of the whole
    text that end in a line feed, and never the text after the last line
    feed.  An exception of the handling ends the reading; otherwise the
    reading ends as the stream does. *)
Theorem stream_reading `{Host} (chunks : list jsstring)
    (failure : option Thrown) (u : Client.Page) :
  Client.read_stream chunks failure [] u
  = match Client.handle_lines (Client.complete_lines (List.concat chunks)) u with
    | (u', None) => (u', failure)
    | r => r
    end.
Proof. apply (read_stream_buffer chunks failure [] u). intros []. Qed.

Section Frames.
Import Client.

Lemma data_prefix : js "data: " = [100; 97; 116; 97; 58; 32]%N.
Proof. vm_compute. reflexivity. Qed.

Lemma data_line_plain (t : jsstring) :
  ~ In 10%N t -> ~ In 10%N (js "data: " ++ t).
Proof.
  intros Ht Hin. apply in_app_or in Hin as [Hin|Hin]; [|now apply Ht].
  rewrite data_prefix in Hin. cbn in Hin.
  repeat (destruct Hin as [Hin|Hin]; [discriminate|]). exact Hin.
Qed.

(** The pieces of a text made of frames: for each frame its line and the
    empty line after it, and an empty last piece. *)
Lemma frames_split (texts : list jsstring) :
  Forall (fun t => ~ In 10%N t) texts ->
  split 10%N (List.concat (map frame texts))
  = flat_map (fun t => [js "data: " ++ t; []]) texts ++ [[]].
Proof.
  induction 1 as [|t texts Ht _ IH]; [reflexivity|].
  cbn [map List.concat flat_map]. unfold frame at 1, newline.
  rewrite <- !app_assoc. cbn [app].
  rewrite (app_assoc (js "data: ") t).
  rewrite split_line by now apply data_line_plain.
  cbn [app split]. rewrite N.eqb_refl, IH. reflexivity.
Qed.

Lemma payload_data (t : jsstring) :
  payload (js "data: " ++ t)
  = if truthy (trim t) then Some (trim t) else None.
Proof. unfold payload. rewrite data_prefix. reflexivity. Qed.

Lemma frames_payloads (texts : list jsstring) :
  payloads (flat_map (fun t => [js "data: " ++ t; []]) texts)
  = filter truthy (map trim texts).
Proof.
  induction texts as [|t texts IH]; [reflexivity|].
  cbn [flat_map app map filter payloads].
  fold (payloads (flat_map (fun t => [js "data: " ++ t; []]) texts)).
  rewrite payload_data, IH.
  replace (payload []) with (@None jsstring) by reflexivity.
  now destruct (truthy (trim t)).
Qed.

(** The lines the page handles when it is sent frames. *)
Lemma frames_lines (texts : list jsstring) :
  Forall (fun t => ~ In 10%N t) texts ->
  payloads (complete_lines (List.concat (map frame texts)))
  = filter truthy (map trim texts).
Proof.
  intros Ht. unfold complete_lines.
  rewrite pop_split, (frames_split _ Ht). cbn [fst].
  rewrite removelast_last. apply frames_payloads.
Qed.

End Frames.

(** X8. The frames that the handler writes are read back by the page
    whatever the chunks they arrive in: when no text holds a line feed, the
    page hands to [JSON.parse] the trimmed text of each frame, in order
    (a text of white space alone is skipped), and handles the values
    parsed. *)
Theorem frames_read_back `{Host} (texts chunks : list jsstring)
    (failure : option Thrown) (u : Client.Page) :
  Forall (fun t => ~ In 10%N t) texts ->
  List.concat chunks = List.concat (map frame texts) ->
  Client.read_stream chunks failure [] u
  = match
      Client.on_events (Client.parsed (filter truthy (map trim texts))) u
    with
    | (u', None) => (u', failure)
    | r => r
    end.
Proof.
  intros Ht Hc.
  rewrite (read_stream_buffer chunks failure [] u) by (intros []).
  cbn [app]. rewrite Hc, handle_lines_events, (frames_lines _ Ht).
  reflexivity.
Qed.

(** X8 on three frames cut in the middle of a frame and between the two
    line feeds: an object without a type changes nothing, and [null] ends
    the reading with the exception of [event.type]. *)
Lemma frames_read_back_witness :
  Forall (fun t => ~ In 10%N t) [js "{}"; js " "; js "null"; js "{}"]
  /\ Client.read_stream
       [js "data: {"; js "}" ++ newline; newline ++ js "data:  " ++ newline;
        newline ++ js "data: null" ++ newline ++ newline ++ js "data: {}";
        newline ++ newline]
       None [] (Client.Mounted (Client.started Client.initial))
     = match
         Client.on_events
           (Client.parsed
              (filter truthy
                 (map trim [js "{}"; js " "; js "null"; js "{}"])))
           (Client.Mounted (Client.started Client.initial))
       with
       | (u', None) => (u', None)
       | r => r
       end.
Proof.
  assert (Ht : Forall (fun t => ~ In 10%N t)
                 [js "{}"; js " "; js "null"; js "{}"])
    by (repeat constructor; vm_compute; intuition discriminate).
  split; [exact Ht|].
  apply (frames_read_back _ _ None _ Ht).
  vm_compute. reflexivity.
Defined.

(** * The page: the badges of the agents *)

(** The tests of the switch on a type that is known. *)
Ltac literals :=
  repeat match goal with
         | |- context [Client.is_string (Some (JStr (js ?a))) (js ?b)] =>
             let r := eval vm_compute in (str_eqb (js a) (js b)) in
             change (Client.is_string (Some (JStr (js a))) (js b)) with r
         end.

Section Badges.

Lemma is_string_field (v : json) (name s : jsstring) :
  Client.is_string (Client.field v name) s = true ->
  exists ms, v = JObj ms /\ lookup_last name ms = Some (JStr s).
Proof.
  destruct v as [| | | | |ms]; try discriminate.
  cbn. destruct (lookup_last name ms) as [[| | |t| |]|] eqn:L;
    try discriminate.
  intros E. apply str_eqb_eq in E as ->. now exists ms.
Qed.

Lemma object_field (ms : list (jsstring * json)) (name s : jsstring) :
  Client.is_string (Client.field (JObj ms) name) s = true ->
  lookup_last name ms = Some (JStr s).
Proof.
  intros E. apply is_string_field in E as (ms' & [= <-] & E). exact E.
Qed.

(** The parameter of a tool call whose [input] is an object. *)
Lemma object_param (ms : list (jsstring * json)) :
  (exists ims, Client.field (JObj ms) (js "input") = Some (JObj ims)) ->
  exists param, Client.tool_param (JObj ms) = Resolved param.
Proof.
  intros [ims E]. unfold Client.tool_param. rewrite E.
  cbn [Client.read get_prop].
  destruct (Client.nullish (lookup_last (js "query") ims)); now eexists.
Qed.

Lemma carried_param (ms : list (jsstring * json)) (input : StringRecord) :
  match Client.field (JObj ms) (js "input") with
  | Some (JObj ims) =>
      same_member ims input (js "query") && same_member ims input (js "title")
  | _ => false
  end = true ->
  exists param, Client.tool_param (JObj ms) = Resolved param.
Proof.
  intros H. apply object_param.
  destruct (Client.field (JObj ms) (js "input")) as [[| | | | |ims]|];
    try discriminate.
  now exists ims.
Qed.

Ltac carried :=
  repeat match goal with
         | H : (_ && _) = true |- _ => apply andb_true_iff in H; destruct H
         end;
  match goal with
  | H : Client.is_string (Client.field ?v (js "type")) _ = true |- _ =>
      let ms := fresh "ms" in
      apply is_string_field in H as (ms & -> & H)
  end;
  repeat match goal with
         | H : Client.is_string (Client.field (JObj _) _) _ = true |- _ =>
             apply object_field in H
         | H : match Client.field (JObj _) (js "input") with _ => _ end = true
           |- _ =>
             let param := fresh "param" in
             apply carried_param in H as [param H]
         end.

Ltac badges :=
  cbv [Client.statuses Client.setRunning Client.setDone Client.setFinalAnswer
         Client.setError Client.setSupervisorStatus
         Client.setResearcherStatus Client.setSynthesizerStatus
         Client.setSupervisorLog Client.setResearcherLog
         Client.setSynthesizerLog Client.setHandoffToResearcher
         Client.setHandoffToSynthesizer Client.running Client.done
         Client.finalAnswer Client.error Client.supervisorStatus
         Client.researcherStatus Client.synthesizerStatus Client.fail
         failed_badges Client.field Client.str].

(** One event of the handler, as the page takes the value that carries
    it: the badges go from those of the phase before to those of the phase
    after, the error shown is the one of an error event, and the answer
    shown is the one of [synthesizer_done]. *)
Lemma on_event_step (ph ph' : Phase) (e : AgentEvent) (v : json)
    (u : Client.UI) :
  step ph e = Some ph' ->
  carries e v = true ->
  statuses_at ph = Some (Client.statuses u) ->
  exists u',
    Client.on_event v (Client.Mounted u) = Resolved (Client.Mounted u')
    /\ match statuses_at ph' with
       | Some t => Client.statuses u' = t /\ Client.error u' = Client.error u
       | None =>
           Client.statuses u' = failed_badges (Client.statuses u)
           /\ exists message,
               e = error message /\ Client.error u' = Client.str message
       end
    /\ Client.finalAnswer u'
       = match e with
         | synthesizer_done answer => Client.str answer
         | _ => Client.finalAnswer u
         end
    /\ Client.running u' = Client.running u
    /\ Client.done u' = Client.done u.
Proof.
  intros Hstep Hc Hst.
  destruct u as [r d fa er s1 s2 s3 l1 l2 l3 h1 h2].
  destruct e as [m|st rf|to i|m| | |t|tool input|tool preview count| | |a|m];
    try destruct to;
    destruct ph; try discriminate Hstep;
    injection Hstep as <-;
    cbn [statuses_at] in Hst |- *;
    cbv [Client.statuses Client.supervisorStatus Client.researcherStatus
           Client.synthesizerStatus] in Hst;
    injection Hst as <- <- <-;
    cbn [carries target_name] in Hc; carried;
    unfold Client.on_event, Client.switch; cbn [get_prop Client.field];
    repeat match goal with
           | H : lookup_last _ _ = _ |- _ => rewrite H
           | H : Client.tool_param _ = _ |- _ => rewrite H
           end;
    literals; cbv beta iota zeta;
    eexists; (split; [reflexivity|]); badges;
    repeat match goal with
           | H : lookup_last _ _ = _ |- _ => rewrite H
           end;
    (split;
     [first [split; reflexivity
            |split; [reflexivity|eexists; split; reflexivity]]
     |repeat split; reflexivity]).
Qed.

Lemma failed_stops (evs : list AgentEvent) (ph : Phase) :
  run_trace step Failed evs = Some ph -> evs = [] /\ ph = Failed.
Proof.
  destruct evs as [|e evs]; cbn.
  - now intros [= <-].
  - destruct e; discriminate.
Qed.

(** The events of the handler from a phase on, as the page takes the
    values that carry them. *)
Lemma on_events_run (evs : list AgentEvent) (vs : list json) :
  Forall2 (fun e v => carries e v = true) evs vs ->
  forall (p ph : Phase) (u : Client.UI),
    run_trace step p evs = Some ph ->
    statuses_at p = Some (Client.statuses u) ->
    exists u',
      Client.on_events vs (Client.Mounted u) = (Client.Mounted u', None)
      /\ match statuses_at ph with
         | Some t =>
             Client.statuses u' = t /\ Client.error u' = Client.error u
         | None =>
             exists before message q t,
               evs = before ++ [error message]
               /\ run_trace step p before = Some q
               /\ statuses_at q = Some t
               /\ Client.statuses u' = failed_badges t
               /\ Client.error u' = Client.str message
         end
      /\ Client.finalAnswer u' = answer_of evs (Client.finalAnswer u)
      /\ Client.running u' = Client.running u
      /\ Client.done u' = Client.done u.
Proof.
  induction 1 as [|e v evs vs Hc HF IH]; intros p ph u Hrun Hst.
  - injection Hrun as <-. exists u. rewrite Hst. repeat split.
  - cbn [run_trace] in Hrun.
    destruct (step p e) as [p1|] eqn:S; [|discriminate].
    destruct (on_event_step p p1 e v u S Hc Hst)
      as (u1 & E1 & B1 & A1 & R1 & D1).
    cbn [Client.on_events]. rewrite E1.
    destruct (statuses_at p1) as [t1|] eqn:T1.
    + destruct B1 as [B1 Er1].
      assert (Hst1 : statuses_at p1 = Some (Client.statuses u1))
        by now rewrite B1.
      destruct (IH p1 ph u1 Hrun Hst1) as (u' & E & B & A & R & D).
      exists u'. split; [exact E|]. split; [|split; [|split]].
      * destruct (statuses_at ph) as [t|].
        -- destruct B as [B Er]. split; [exact B|congruence].
        -- destruct B as (before & m & q & t & -> & Hb & Hq & Hs & He).
           exists (e :: before), m, q, t.
           repeat split; try assumption.
           cbn [run_trace]. now rewrite S.
      * rewrite A, A1. unfold answer_of. cbn [fold_left].
        now destruct e.
      * congruence.
      * congruence.
    + destruct B1 as [B1 (m & -> & Er1)].
      assert (p1 = Failed) as -> by (destruct p1; try discriminate T1;
                                     reflexivity).
      apply failed_stops in Hrun as [-> ->].
      inversion HF; subst.
      exists u1. split; [reflexivity|]. cbn [statuses_at].
      split; [|split; [|split]]; try assumption.
      exists [], m, p, (Client.statuses u). repeat split; assumption.
Qed.

End Badges.

(** X9. The badges of the page follow the phases of the handler.  When
    the values the page parses carry the events of a run, in order -- each
    with the members the page reads, a tool call with its [input] -- the
    page stays mounted and handles them without an exception, and after
    them has for each agent the badge of the phase the handler is in: all
    three [listo] after [supervisor_done].  After an error event, the
    agents that were at work in the phase that failed have [error] (the
    supervisor while it plans or builds an instruction from the plan, the
    researcher while it works, the supervisor and the synthesizer during
    the synthesis), the others keep their badge, and the message of the
    event is kept as the error.  The answer kept is the one of
    [synthesizer_done]. *)
Theorem badges_follow_run (evs : list AgentEvent) (vs : list json)
    (ph : Phase) (u0 : Client.UI) :
  Forall2 (fun e v => carries e v = true) evs vs ->
  run_trace step Idle evs = Some ph ->
  exists u,
    Client.on_events vs (Client.Mounted (Client.started u0))
    = (Client.Mounted u, None)
    /\ match statuses_at ph with
       | Some t =>
           Client.statuses u = t /\ Client.error u = Client.str []
       | None =>
           exists before message q t,
             evs = before ++ [error message]
             /\ run_trace step Idle before = Some q
             /\ statuses_at q = Some t
             /\ Client.statuses u = failed_badges t
             /\ Client.error u = Client.str message
       end
    /\ Client.finalAnswer u = answer_of evs (Client.str [])
    /\ Client.running u = true
    /\ Client.done u = false.
Proof.
  intros Hc Hrun.
  exact (on_events_run evs vs Hc Idle ph (Client.started u0) Hrun eq_refl).
Qed.


(** X9 on the events of a run that completes: the values are the objects
    the handler emits, and the page ends with the three badges [listo]. *)
Lemma badges_follow_run_witness :
  Forall2 (fun e v => carries e v = true)
    (events (snd (POST 10 Scenario.req Scenario.world_ok)))
    (map Wire.json_of_event
       (events (snd (POST 10 Scenario.req Scenario.world_ok))))
  /\ run_trace step Idle
       (events (snd (POST 10 Scenario.req Scenario.world_ok)))
     = Some Finished
  /\ exists u,
       Client.on_events
         (map Wire.json_of_event
            (events (snd (POST 10 Scenario.req Scenario.world_ok))))
         (Client.Mounted (Client.started Client.initial))
       = (Client.Mounted u, None)
       /\ (Client.statuses u = (Client.listo, Client.listo, Client.listo)
           /\ Client.error u = Client.str [])
       /\ Client.finalAnswer u
          = answer_of (events (snd (POST 10 Scenario.req Scenario.world_ok)))
              (Client.str [])
       /\ Client.running u = true
       /\ Client.done u = false.
Proof.
  assert (Hc : Forall2 (fun e v => carries e v = true)
                 (events (snd (POST 10 Scenario.req Scenario.world_ok)))
                 (map Wire.json_of_event
                    (events (snd (POST 10 Scenario.req Scenario.world_ok)))))
    by (vm_compute; repeat constructor).
  assert (Hrun : run_trace step Idle
                   (events (snd (POST 10 Scenario.req Scenario.world_ok)))
                 = Some Finished)
    by (vm_compute; reflexivity).
  split; [exact Hc|]. split; [exact Hrun|].
  exact (badges_follow_run _ _ Finished Client.initial Hc Hrun).
Defined.

(** * The page: a whole submission *)

Section Page.
Context {host : Host}.


(** No case of the switch touches [running] or [done]. *)
Lemma switch_keeps (v : json) (type : jsvalue) (u u' : Client.UI) :
  Client.switch v type u = Client.Mounted u' ->
  Client.running u' = Client.running u /\ Client.done u' = Client.done u.
Proof.
  unfold Client.switch.
  destruct u as [r d fa er s1 s2 s3 l1 l2 l3 h1 h2].
  destruct (Client.tool_param v) as [param|t];
    repeat match goal with
           | |- context [if ?b then _ else _] => destruct b
           end;
    try discriminate; intros [= <-]; split; reflexivity.
Qed.

(** The switch on a value that has the types of an event: the page stays
    mounted. *)
Lemma switch_mounted (v : json) (u : Client.UI) :
  Client.well_typed v = true ->
  exists u', Client.switch v (Client.field v (js "type")) u
             = Client.Mounted u'.
Proof.
  intros Hv.
  destruct (Client.tool_param v) as [param|t] eqn:Ep.
  - unfold Client.switch. rewrite Ep.
    repeat match goal with
           | |- context [if ?b then _ else _] => destruct b
           end; now eexists.
  - assert (Hcall : Client.is_string (Client.field v (js "type"))
                      (js "researcher_tool_call") = false).
    { destruct (Client.is_string (Client.field v (js "type"))
                  (js "researcher_tool_call")) eqn:Ecall; [|reflexivity].
      exfalso.
      apply is_string_field in Ecall as (ms & -> & L).
      revert Hv. unfold Client.well_typed. cbn [Client.field]. rewrite L.
      literals. cbv beta iota. cbn [orb]. intros Hv.
      apply andb_true_iff in Hv as [_ Hin].
      destruct (object_param ms) as [param Eparam]; [|congruence].
      unfold Client.tool_input in Hin. cbn [Client.field].
      destruct (lookup_last (js "input") ms) as [[| | | | |ims]|];
        try discriminate.
      now exists ims. }
    unfold Client.switch. rewrite Hcall.
    repeat match goal with
           | |- context [if ?b then _ else _] => destruct b
           end; now eexists.
Qed.

(** The type read in [handleSubmit] is the member of the value. *)
Lemma type_read (v : json) (type : jsvalue) :
  get_prop v (js "type") = Resolved type -> type = Client.field v (js "type").
Proof. destruct v; cbn; congruence. Qed.

(** Values that have the types of events leave the page mounted, with
    [running] and [done] as they were. *)
Lemma on_events_mounted (vs : list json) (u : Client.UI) :
  Forall (fun v => Client.well_typed v = true) vs ->
  exists u',
    fst (Client.on_events vs (Client.Mounted u)) = Client.Mounted u'
    /\ Client.running u' = Client.running u
    /\ Client.done u' = Client.done u.
Proof.
  intros Hall. revert u.
  induction Hall as [|v vs Hv _ IH]; intros u; [now exists u|].
  cbn [Client.on_events]. unfold Client.on_event.
  destruct (get_prop v (js "type")) as [type|t] eqn:Et; [|now exists u].
  apply type_read in Et as ->.
  destruct (switch_mounted v u Hv) as [u1 E1]. rewrite E1.
  destruct (switch_keeps _ _ _ _ E1) as [R1 D1].
  destruct (IH u1) as (u' & E & R & D).
  exists u'. split; [exact E|]. split; congruence.
Qed.

(** Once the tree is removed nothing brings it back. *)
Lemma on_events_unmounted (vs : list json) (t : Thrown) :
  fst (Client.on_events vs (Client.Unmounted t)) = Client.Unmounted t.
Proof.
  induction vs as [|v vs IH]; [reflexivity|].
  cbn [Client.on_events]. unfold Client.on_event.
  destruct (get_prop v (js "type")); [exact IH|reflexivity].
Qed.

(** Values that have the types of events and are not [null] are handled
    without an exception. *)
Lemma on_events_quiet (vs : list json) (u : Client.UI) :
  Forall (fun v => Client.well_typed v = true /\ v <> JNull) vs ->
  exists u', Client.on_events vs (Client.Mounted u)
             = (Client.Mounted u', None).
Proof.
  intros Hall. revert u.
  induction Hall as [|v vs [Hv Hn] _ IH]; intros u; [now exists u|].
  cbn [Client.on_events]. unfold Client.on_event.
  destruct (get_prop v (js "type")) as [type|t] eqn:Et.
  - apply type_read in Et as ->.
    destruct (switch_mounted v u Hv) as [u1 E1]. rewrite E1. apply IH.
  - destruct v; try discriminate. now contradiction Hn.
Qed.

(** What the reading of a response makes of the page is what the values
    received make of it. *)
Lemma receive_received (status : N) (chunks : list jsstring)
    (failure : option Thrown) (p : Client.Page) :
  Client.receive
    (Client.fetch_resolved true status (Some (chunks, failure))) p
  = match
      Client.on_events
        (Client.received
           (Client.fetch_resolved true status (Some (chunks, failure)))) p
    with
    | (p', None) => (p', failure)
    | r => r
    end.
Proof.
  cbn [Client.receive Client.received negb].
  rewrite (read_stream_buffer chunks failure [] p) by (intros []).
  now rewrite handle_lines_events.
Qed.

End Page.

Section EndToEnd.
Context {host : Host} {W : Type} {world : World W}.


End EndToEnd.




(** X11. How a submission settles.  [handleSubmit] leaves the page as it
    is when the question is blank or a run is in progress.  Otherwise,
    when every value parsed from the stream has the types of an event
    where the page reads them, the page stays mounted and ends with
    [running] false; [done] is set exactly when the stream was read to
    its end without an exception, whatever events arrived (an error event
    does not prevent it); after an exception -- [fetch] rejected, a
    response that is not ok, a response without a body, a read that
    rejects, a [null] event -- [done] stays false and the message of the
    exception is kept as the error; when the request fails before the
    stream is read, no badge moves: the supervisor stays [activo].  A
    tool-call event without an [input] to read from is another matter:
    the function given to [setResearcherLog] throws while React renders,
    the tree is removed, and neither [setDone] nor [setRunning] has a page
    to settle. *)
Theorem submit_settles `{Host} (question : jsstring)
    (net : Client.FetchOutcome) (u : Client.UI) :
  if negb (truthy (trim question)) || Client.running u
  then Client.handleSubmit question net u = Client.Mounted u
  else
    (Forall (fun v => Client.well_typed v = true) (Client.received net) ->
     exists u',
       Client.handleSubmit question net u = Client.Mounted u'
       /\ Client.running u' = false
       /\ match
            snd (Client.receive net (Client.Mounted (Client.started u)))
          with
          | None => Client.done u' = true
          | Some err =>
              Client.done u' = false
              /\ Client.error u' = Client.str (error_message err)
          end
       /\ match net with
          | Client.fetch_resolved true _ (Some _) => True
          | _ =>
              Client.statuses u'
              = (Client.activo, Client.esperando, Client.esperando)
          end)
    /\ (forall before v after t,
          Client.received net = before ++ v :: after ->
          Forall (fun x => Client.well_typed x = true /\ x <> JNull) before ->
          Client.is_string (Client.field v (js "type"))
            (js "researcher_tool_call") = true ->
          Client.tool_param v = Rejected t ->
          Client.handleSubmit question net u = Client.Unmounted t).
Proof.
  unfold Client.handleSubmit.
  destruct (negb (truthy (trim question)) || Client.running u);
    [reflexivity|].
  split.
  - intros Hall.
    destruct net as [t|[|] status [[chunks failure]|]];
      try (cbn; eexists; repeat split; reflexivity).
    rewrite receive_received.
    destruct (on_events_mounted _ (Client.started u) Hall)
      as (u1 & E & R & D).
    destruct (Client.on_events _ (Client.Mounted (Client.started u)))
      as [p1 [t|]]; cbn [fst snd] in *; subst p1.
    + eexists. split; [reflexivity|]. repeat split. exact D.
    + destruct failure as [t|]; cbn [Client.set_page snd].
      * eexists. split; [reflexivity|]. repeat split. exact D.
      * eexists. split; [reflexivity|]. repeat split.
  - intros before v after t Hrec Hbefore Hcall Hparam.
    destruct net as [t0|[|] status [[chunks failure]|]];
      try (destruct before; discriminate Hrec).
    rewrite receive_received, Hrec, on_events_app.
    destruct (on_events_quiet before (Client.started u) Hbefore) as [u1 E].
    rewrite E. cbn [Client.on_events]. unfold Client.on_event.
    apply is_string_field in Hcall as (ms & -> & L).
    cbn [get_prop]. unfold Client.switch. rewrite L. literals.
    cbv beta iota. rewrite Hparam.
    pose proof (on_events_unmounted after t) as U.
    destruct (Client.on_events after (Client.Unmounted t)) as [p [t1|]];
      cbn [fst] in U; subst p; [reflexivity|].
    destruct failure; reflexivity.
Qed.

(** X11 on a stream whose single frame is a tool call without [input]:
    the page is removed with the [TypeError] of [event.input.query]. *)
Example tool_call_without_input :
  Client.handleSubmit (js "What is X?")
    (Client.fetch_resolved true 200
       (Some ([frame (Wire.stringify
                        (JObj [(js "type", JStr (js "researcher_tool_call"));
                               (js "tool", JStr (js "search_wikipedia"))]))],
              None)))
    Client.initial
  = Client.Unmounted
      (ErrorObj (Client.undefined_property_message (js "query"))).
Proof. vm_compute. reflexivity. Qed.

(** * The numbers of the concrete host *)

(** What the concrete host prints for the numbers of some JSON texts, as
    [String(JSON.parse(text))] gives it, and what [JSON.stringify] makes
    of a number that is too large. *)
Example number_printing :
  map (@Number_toString Demo.demo_host)
    [js "1e2"; js "0.10"; js "-0"; js "1e21"; js "0.0000001";
     js "9007199254740993"; js "1e400"; js "5e-324"; js "1e23"]
  = [js "100"; js "0.1"; js "0"; js "1e+21"; js "1e-7";
     js "9007199254740992"; js "Infinity"; js "5e-324"; js "1e+23"]
  /\ @Wire.stringify Demo.demo_host (JArr [JNum (js "1e400"); JNum (js "1e2")])
     = js "[null,100]".
Proof. split; vm_compute; reflexivity. Qed.

(** The comparisons of the concrete host: [x > 120] for the number of a
    JSON text and for the number a string converts to. *)
Example number_comparison :
  map (fun lexeme => @Number_exceeds Demo.demo_host lexeme 120)
    [js "120"; js "121"; js "1.21e2"; js "-5"; js "1e400"]
  = [false; true; true; false; true]
  /\ map (fun s => @StringToNumber_exceeds Demo.demo_host s 120)
       [js ""; js " 121 "; js "0x79"; js "121px"; js "Infinity"]
     = [false; true; true; false; true].
Proof. split; vm_compute; reflexivity. Qed.
